(** * SIDM2conv: the sf2pack relocator and the p2s player scanner

    A shallow embedding of the two conversion cores of the repository:

    - [SF2Pack]: the 6510 opcode matrix ([opcodes.cpp]), the 64 KiB memory
      container ([c64memory.cpp]) and the relocating packer
      ([packer_simple.cpp]);
    - [P2S]: the player scanner and the PSID writer of [p2s.c].

    Machine integers are unbounded [Z] values with every wrap-around of the
    source written out ([u8], [u16], [u32]); bytes are [Byte.byte]. *)

From Stdlib Require Import ZArith List Lia Bool String Ascii.
From Stdlib Require Import Strings.Byte.
Import ListNotations.
Open Scope Z_scope.

(** ** Bytes and fixed-width integers *)

Definition b2z (b : byte) : Z := Z.of_N (Byte.to_N b).

Definition z2b (z : Z) : byte :=
  match Byte.of_N (Z.to_N (z mod 256)) with
  | Some b => b
  | None => x00
  end.

(** Conversions to [unsigned char], [unsigned short] and [unsigned int]. *)
Definition u8 (z : Z) : Z := z mod 256.
Definition u16 (z : Z) : Z := z mod 65536.
Definition u32 (z : Z) : Z := z mod 4294967296.


(** * Core B: sf2pack *)

Module SF2Pack.

(** ** opcodes.h / opcodes.cpp *)

Inductive AddressingMode : Type :=
| am_IMP | am_IMM | am_ZP | am_ZPX | am_ZPY | am_IZX | am_IZY
| am_ABS | am_ABX | am_ABY | am_IND | am_REL.

Record OpcodeInfo : Type := op { size : Z; mode : AddressingMode }.

(** The 6502 instruction matrix, one row of the source per line. *)
Definition opcode_table : list OpcodeInfo := [
    op 1 am_IMP; op 2 am_IZX; op 1 am_IMP; op 1 am_IMP; op 1 am_IMP; op 2 am_ZP; op 2 am_ZP; op 1 am_IMP;
    op 1 am_IMP; op 2 am_IMM; op 1 am_IMP; op 1 am_IMP; op 1 am_IMP; op 3 am_ABS; op 3 am_ABS; op 1 am_IMP;
    op 2 am_REL; op 2 am_IZY; op 1 am_IMP; op 1 am_IMP; op 1 am_IMP; op 2 am_ZPX; op 2 am_ZPX; op 1 am_IMP;
    op 1 am_IMP; op 3 am_ABY; op 1 am_IMP; op 1 am_IMP; op 1 am_IMP; op 3 am_ABX; op 3 am_ABX; op 1 am_IMP;
    op 3 am_ABS; op 2 am_IZX; op 1 am_IMP; op 1 am_IMP; op 2 am_ZP; op 2 am_ZP; op 2 am_ZP; op 1 am_IMP;
    op 1 am_IMP; op 2 am_IMM; op 1 am_IMP; op 1 am_IMP; op 3 am_ABS; op 3 am_ABS; op 3 am_ABS; op 1 am_IMP;
    op 2 am_REL; op 2 am_IZY; op 1 am_IMP; op 1 am_IMP; op 1 am_IMP; op 2 am_ZPX; op 2 am_ZPX; op 1 am_IMP;
    op 1 am_IMP; op 3 am_ABY; op 1 am_IMP; op 1 am_IMP; op 1 am_IMP; op 3 am_ABX; op 3 am_ABX; op 1 am_IMP;
    op 1 am_IMP; op 2 am_IZX; op 1 am_IMP; op 1 am_IMP; op 1 am_IMP; op 2 am_ZP; op 2 am_ZP; op 1 am_IMP;
    op 1 am_IMP; op 2 am_IMM; op 1 am_IMP; op 1 am_IMP; op 3 am_ABS; op 3 am_ABS; op 3 am_ABS; op 1 am_IMP;
    op 2 am_REL; op 2 am_IZY; op 1 am_IMP; op 1 am_IMP; op 1 am_IMP; op 2 am_ZPX; op 2 am_ZPX; op 1 am_IMP;
    op 1 am_IMP; op 3 am_ABY; op 1 am_IMP; op 1 am_IMP; op 1 am_IMP; op 3 am_ABX; op 3 am_ABX; op 1 am_IMP;
    op 1 am_IMP; op 2 am_IZX; op 1 am_IMP; op 1 am_IMP; op 1 am_IMP; op 2 am_ZP; op 2 am_ZP; op 1 am_IMP;
    op 1 am_IMP; op 2 am_IMM; op 1 am_IMP; op 1 am_IMP; op 3 am_IND; op 3 am_ABS; op 3 am_ABS; op 1 am_IMP;
    op 2 am_REL; op 2 am_IZY; op 1 am_IMP; op 1 am_IMP; op 1 am_IMP; op 2 am_ZPX; op 2 am_ZPX; op 1 am_IMP;
    op 1 am_IMP; op 3 am_ABY; op 1 am_IMP; op 1 am_IMP; op 1 am_IMP; op 3 am_ABX; op 3 am_ABX; op 1 am_IMP;
    op 1 am_IMP; op 2 am_IZX; op 1 am_IMP; op 1 am_IMP; op 2 am_ZP; op 2 am_ZP; op 2 am_ZP; op 1 am_IMP;
    op 1 am_IMP; op 1 am_IMP; op 1 am_IMP; op 1 am_IMP; op 3 am_ABS; op 3 am_ABS; op 3 am_ABS; op 1 am_IMP;
    op 2 am_REL; op 2 am_IZY; op 1 am_IMP; op 1 am_IMP; op 2 am_ZPX; op 2 am_ZPX; op 2 am_ZPY; op 1 am_IMP;
    op 1 am_IMP; op 3 am_ABY; op 1 am_IMP; op 1 am_IMP; op 1 am_IMP; op 3 am_ABX; op 1 am_IMP; op 1 am_IMP;
    op 2 am_IMM; op 2 am_IZX; op 2 am_IMM; op 1 am_IMP; op 2 am_ZP; op 2 am_ZP; op 2 am_ZP; op 1 am_IMP;
    op 1 am_IMP; op 2 am_IMM; op 1 am_IMP; op 1 am_IMP; op 3 am_ABS; op 3 am_ABS; op 3 am_ABS; op 1 am_IMP;
    op 2 am_REL; op 2 am_IZY; op 1 am_IMP; op 1 am_IMP; op 2 am_ZPX; op 2 am_ZPX; op 2 am_ZPY; op 1 am_IMP;
    op 1 am_IMP; op 3 am_ABY; op 1 am_IMP; op 1 am_IMP; op 3 am_ABX; op 3 am_ABX; op 3 am_ABY; op 1 am_IMP;
    op 2 am_IMM; op 2 am_IZX; op 1 am_IMP; op 1 am_IMP; op 2 am_ZP; op 2 am_ZP; op 2 am_ZP; op 1 am_IMP;
    op 1 am_IMP; op 2 am_IMM; op 1 am_IMP; op 1 am_IMP; op 3 am_ABS; op 3 am_ABS; op 3 am_ABS; op 1 am_IMP;
    op 2 am_REL; op 2 am_IZY; op 1 am_IMP; op 1 am_IMP; op 1 am_IMP; op 2 am_ZPX; op 2 am_ZPX; op 1 am_IMP;
    op 1 am_IMP; op 3 am_ABY; op 1 am_IMP; op 1 am_IMP; op 1 am_IMP; op 3 am_ABX; op 3 am_ABX; op 1 am_IMP;
    op 2 am_IMM; op 2 am_IZX; op 1 am_IMP; op 1 am_IMP; op 2 am_ZP; op 2 am_ZP; op 2 am_ZP; op 1 am_IMP;
    op 1 am_IMP; op 2 am_IMM; op 1 am_IMP; op 1 am_IMP; op 3 am_ABS; op 3 am_ABS; op 3 am_ABS; op 1 am_IMP;
    op 2 am_REL; op 2 am_IZY; op 1 am_IMP; op 1 am_IMP; op 1 am_IMP; op 2 am_ZPX; op 2 am_ZPX; op 1 am_IMP;
    op 1 am_IMP; op 3 am_ABY; op 1 am_IMP; op 1 am_IMP; op 1 am_IMP; op 3 am_ABX; op 3 am_ABX; op 1 am_IMP   
].

Definition GetOpcodeSize (opcode : byte) : Z :=
  size (nth (Z.to_nat (b2z opcode)) opcode_table (op 1 am_IMP)).

Definition GetOpcodeAddressingMode (opcode : byte) : AddressingMode :=
  mode (nth (Z.to_nat (b2z opcode)) opcode_table (op 1 am_IMP)).

Definition RequiresRelocation (mode : AddressingMode) : bool :=
  match mode with
  | am_ABS | am_ABX | am_ABY | am_IND => true
  | _ => false
  end.

Definition RequiresZeroPageAdjustment (mode : AddressingMode) : bool :=
  match mode with
  | am_ZP | am_ZPX | am_ZPY | am_IZX | am_IZY => true
  | _ => false
  end.


(** ** c64memory.h / c64memory.cpp *)

(** [data_[0x10000]]: the container maps the indices [0 .. 0xFFFF] to bytes;
    the model is total on [Z], and every access whose index can leave that
    range is guarded explicitly ([GetWord], [SetWord]). *)
Definition C64Memory : Type := Z -> byte.

Definition poke (m : C64Memory) (i : Z) (v : byte) : C64Memory :=
  fun a => if a =? i then v else m a.

(** [Clear]: [memset(data_, 0, 0x10000)]. *)
Definition Clear : C64Memory := fun _ => x00.

Definition GetByte (m : C64Memory) (address : Z) : byte := m address.

(** [data_[address] | (data_[address + 1] << 8)]; [address + 1] is computed
    in [int], so for [address = 0xFFFF] the second read is past the array. *)
Definition GetWord (m : C64Memory) (address : Z) : option Z :=
  if address + 1 <? 0x10000
  then Some (Z.lor (b2z (m address)) (Z.shiftl (b2z (m (address + 1))) 8))
  else None.

Definition SetByte (m : C64Memory) (address value : Z) : C64Memory :=
  poke m address (z2b value).

Definition SetWord (m : C64Memory) (address value : Z) : option C64Memory :=
  if address + 1 <? 0x10000
  then Some (poke (poke m address (z2b (Z.land value 0xFF)))
                  (address + 1) (z2b (Z.land (Z.shiftr value 8) 0xFF)))
  else None.

(** The addresses [start, start + 1, ..., start + n - 1]. *)
Definition zrange (start n : Z) : list Z :=
  map (fun i => start + Z.of_nat i) (seq 0 (Z.to_nat n)).

(** [std::memcpy(&data_[dst], src, n)]. *)
Definition memcpy_in (m : C64Memory) (dst : Z) (src : list byte) (n : Z)
  : C64Memory :=
  fun a => if (dst <=? a) && (a <? dst + n)
           then nth (Z.to_nat (a - dst)) src x00
           else m a.

(** [LoadFromPRG(prg_data, prg_size)]; the pointer and its length are one
    list, as at the call site ([sf2_data.data()], [sf2_data.size()]). *)
Definition LoadFromPRG (m : C64Memory) (prg_data : list byte)
  : bool * C64Memory :=
  let prg_size := Z.of_nat (List.length prg_data) in
  if prg_size <? 3 then (false, m)
  else
    let load_address :=
      Z.lor (b2z (nth 0 prg_data x00)) (Z.shiftl (b2z (nth 1 prg_data x00)) 8) in
    let data_size := u32 (prg_size - 2) in
    if u32 (load_address + data_size) >? 0x10000 then (false, m)
    else (true, memcpy_in m load_address (skipn 2 prg_data) data_size).

(** [ExportToPRG]: [inl] is the [std::runtime_error] it throws. *)
Definition ExportToPRG (m : C64Memory) (top_address bottom_address : Z)
  : string + list byte :=
  if top_address >=? bottom_address
  then inl "Invalid address range for PRG export"%string
  else
    let data_size := bottom_address - top_address in
    inr (z2b (Z.land top_address 0xFF)
         :: z2b (Z.land (Z.shiftr top_address 8) 0xFF)
         :: map m (zrange top_address data_size)).

(** ** packer_simple.h / packer_simple.cpp *)

Record DriverConfig : Type := {
  driver_code_top : Z;       (* unsigned short *)
  driver_code_size : Z;      (* unsigned short *)
  current_lowest_zp : Z;     (* unsigned char *)
  target_lowest_zp : Z;      (* unsigned char *)
  destination_address : Z    (* unsigned short *)
}.

(** The fields hold values of their C types. *)
Definition config_ok (cfg : DriverConfig) : Prop :=
  0 <= driver_code_top cfg < 0x10000 /\
  0 <= driver_code_size cfg < 0x10000 /\
  0 <= current_lowest_zp cfg < 0x100 /\
  0 <= target_lowest_zp cfg < 0x100 /\
  0 <= destination_address cfg < 0x10000.

Definition GetAddressDelta (cfg : DriverConfig) : Z :=
  u16 (destination_address cfg - driver_code_top cfg).

Definition RelocateVector (cfg : DriverConfig) (vector : Z) : Z :=
  if (vector >=? 0xD000) && (vector <=? 0xDFFF) then vector
  else u16 (vector + GetAddressDelta cfg).

(** One iteration of the loop of [ProcessDriverCode] either goes on with a
    new memory and address, throws, or reads or writes past [data_]. *)
Inductive visit_result : Type :=
| Next (m : C64Memory) (address : Z)
| Thrown (what : string) (m : C64Memory)
| Undefined.

(** The block "Relocate absolute addresses (ABS, ABX, ABY, IND)". *)
Definition relocate_absolute (cfg : DriverConfig) (m : C64Memory)
  (address opcode_size : Z) (mode : AddressingMode) : visit_result :=
  if RequiresRelocation mode then
    if negb (opcode_size =? 3)
    then Thrown "Expected 3-byte instruction for absolute addressing" m
    else
      match GetWord m (u16 (address + 1)) with
      | None => Undefined
      | Some vector =>
          let relocated_vector :=
            if (vector >=? 0xD000) && (vector <=? 0xDFFF) then vector
            else u16 (vector + GetAddressDelta cfg) in
          if negb (vector =? relocated_vector) then
            match SetWord m (u16 (address + 1)) relocated_vector with
            | Some m' => Next m' address
            | None => Undefined
            end
          else Next m address
      end
  else Next m address.

(** The block "Relocate zero page addresses (ZP, ZPX, ZPY, IZX, IZY)". *)
Definition relocate_zero_page (cfg : DriverConfig) (m : C64Memory)
  (address opcode_size : Z) (mode : AddressingMode) : visit_result :=
  if RequiresZeroPageAdjustment mode then
    if negb (opcode_size =? 2)
    then Thrown "Expected 2-byte instruction for zero page addressing" m
    else
      let zp := b2z (GetByte m (u16 (address + 1))) in
      let zp_offset := u8 (zp - current_lowest_zp cfg) in
      let zp_relocated := u8 (target_lowest_zp cfg + zp_offset) in
      Next (SetByte m (u16 (address + 1)) zp_relocated) address
  else Next m address.

(** The body of [while (address < driver_bottom)]. *)
Definition visit (cfg : DriverConfig) (m : C64Memory) (address : Z)
  : visit_result :=
  let opcode := m address in
  let opcode_size := GetOpcodeSize opcode in
  let mode := GetOpcodeAddressingMode opcode in
  match relocate_absolute cfg m address opcode_size mode with
  | Next m1 _ =>
      match relocate_zero_page cfg m1 address opcode_size mode with
      | Next m2 _ => Next m2 (u16 (address + opcode_size))
      | r => r
      end
  | r => r
  end.

Inductive walk_result : Type :=
| Done (m : C64Memory) (address : Z)
| RuntimeError (what : string) (m : C64Memory)
| OutOfRange
| OutOfFuel.

(** The loop; [fuel] bounds the number of iterations the model performs. *)
Fixpoint walk (fuel : nat) (cfg : DriverConfig) (driver_bottom : Z)
  (m : C64Memory) (address : Z) : walk_result :=
  match fuel with
  | O => OutOfFuel
  | S fuel' =>
      if address <? driver_bottom then
        match visit cfg m address with
        | Next m' address' => walk fuel' cfg driver_bottom m' address'
        | Thrown what m' => RuntimeError what m'
        | Undefined => OutOfRange
        end
      else Done m address
  end.

(** [ProcessDriverCode]: the result carries the final value of the local
    [address] next to the patched memory. *)
Definition ProcessDriverCode (fuel : nat) (cfg : DriverConfig) (m : C64Memory)
  : walk_result :=
  let driver_top := driver_code_top cfg in
  let driver_size := driver_code_size cfg in
  let driver_bottom := u16 (driver_top + driver_size) in
  walk fuel cfg driver_bottom m driver_top.

(** [Pack] works on two containers: the caller's [input_memory], received
    by reference, and its local [memory]. *)
Inductive object : Type := input_memory | memory.

Definition object_eqb (a b : object) : bool :=
  match a, b with
  | input_memory, input_memory | memory, memory => true
  | _, _ => false
  end.

Definition heap : Type := object -> C64Memory.

Definition store (h : heap) (o : object) (m : C64Memory) : heap :=
  fun o' => if object_eqb o' o then m else h o'.

Inductive outcome (A : Type) : Type :=
| Returned (a : A) (h : heap)
| Threw (what : string) (h : heap)
| UndefinedBehaviour
| Diverged.
Arguments Returned {A} a h.
Arguments Threw {A} what h.
Arguments UndefinedBehaviour {A}.
Arguments Diverged {A}.

(** [for (i = 0; i < 0x10000; ++i) memory[i] = input_memory[i];] *)
Fixpoint copy_loop (n : nat) (i : Z) (h : heap) : heap :=
  match n with
  | O => h
  | S n' =>
      copy_loop n' (i + 1)
        (store h memory (poke (h memory) (u16 i) (h input_memory (u16 i))))
  end.

(** [for (addr = data_end; addr < 0x3000; ++addr)
       if (memory[addr] != 0) data_end = addr + 1;] *)
Fixpoint scan_loop (n : nat) (m : C64Memory) (addr data_end : Z) : Z :=
  match n with
  | O => data_end
  | S n' =>
      if addr <? 0x3000 then
        scan_loop n' m (u16 (addr + 1))
          (if negb (b2z (m addr) =? 0) then u16 (addr + 1) else data_end)
      else data_end
  end.

(** [for (i = 0; i < data_size; ++i)
       memory[destination_address + i] = memory[driver_code_top + i];] *)
Fixpoint move_loop (n : nat) (cfg : DriverConfig) (i : Z) (h : heap) : heap :=
  match n with
  | O => h
  | S n' =>
      move_loop n' cfg (i + 1)
        (store h memory
           (poke (h memory) (u16 (destination_address cfg + i))
                 (h memory (u16 (driver_code_top cfg + i)))))
  end.

(** [for (addr = driver_code_top; addr < data_end; ++addr) memory[addr] = 0;] *)
Fixpoint clear_loop (n : nat) (addr : Z) (h : heap) : heap :=
  match n with
  | O => h
  | S n' => clear_loop n' (addr + 1) (store h memory (poke (h memory) addr x00))
  end.

Definition Pack (fuel : nat) (cfg : DriverConfig) (h : heap)
  : outcome (list byte) :=
  let h := store h memory Clear in
  let h := copy_loop (Z.to_nat 0x10000) 0 h in
  match ProcessDriverCode fuel cfg (h memory) with
  | Done m _ =>
      let h := store h memory m in
      let data_start := driver_code_top cfg in
      let data_end := u16 (driver_code_top cfg + driver_code_size cfg) in
      let data_end := scan_loop (Z.to_nat 0x3000) (h memory) data_end data_end in
      let data_size := u32 (data_end - data_start) in
      let h :=
        if negb (destination_address cfg =? driver_code_top cfg) then
          clear_loop (Z.to_nat (data_end - driver_code_top cfg))
            (driver_code_top cfg)
            (move_loop (Z.to_nat data_size) cfg 0 h)
        else h in
      match ExportToPRG (h memory) (destination_address cfg)
              (u16 (destination_address cfg + data_size)) with
      | inr packed_data => Returned packed_data h
      | inl what => Threw what h
      end
  | RuntimeError what m => Threw what (store h memory m)
  | OutOfRange => UndefinedBehaviour
  | OutOfFuel => Diverged
  end.

(** ** Vocabulary of the statements about the walk *)

(** The instruction starts a linear walk over [[a, bottom)] visits; [n]
    bounds their number. *)
Fixpoint instr_starts (n : nat) (m : C64Memory) (a bottom : Z) : list Z :=
  match n with
  | O => []
  | S n' =>
      if a <? bottom
      then a :: instr_starts n' m (a + GetOpcodeSize (m a)) bottom
      else []
  end.

(** The instructions of the code region [[driver_code_top,
    driver_code_top + driver_code_size)] of a memory image. *)
Definition region_instructions (cfg : DriverConfig) (m : C64Memory) : list Z :=
  instr_starts (Z.to_nat (driver_code_size cfg)) m (driver_code_top cfg)
    (driver_code_top cfg + driver_code_size cfg).

(** The 16-bit little-endian operand and the one-byte operand of the
    instruction at [a]. *)
Definition operand16 (m : C64Memory) (a : Z) : Z :=
  Z.lor (b2z (m (a + 1))) (Z.shiftl (b2z (m (a + 2))) 8).

Definition operand8 (m : C64Memory) (a : Z) : Z := b2z (m (a + 1)).

(** Every ABS, ABX, ABY or IND instruction of the region of [m] has, in
    [m'], its operand kept when it lies in [[0xD000, 0xDFFF]] and moved by
    [destination_address - driver_code_top] modulo 0x10000 otherwise. *)
Definition absolute_operands_relocated (cfg : DriverConfig)
  (m m' : C64Memory) : Prop :=
  forall a, In a (region_instructions cfg m) ->
    RequiresRelocation (GetOpcodeAddressingMode (m a)) = true ->
    operand16 m' a =
      if (0xD000 <=? operand16 m a) && (operand16 m a <=? 0xDFFF)
      then operand16 m a
      else (operand16 m a + (destination_address cfg - driver_code_top cfg))
             mod 0x10000.

(** Every ZP, ZPX, ZPY, IZX or IZY instruction of the region of [m] has, in
    [m'], the operand [(target_lowest_zp + (z - current_lowest_zp)) mod 256]. *)
Definition zero_page_operands_rebased (cfg : DriverConfig)
  (m m' : C64Memory) : Prop :=
  forall a, In a (region_instructions cfg m) ->
    RequiresZeroPageAdjustment (GetOpcodeAddressingMode (m a)) = true ->
    operand8 m' a =
      (target_lowest_zp cfg + (operand8 m a - current_lowest_zp cfg)) mod 256.

(** The region, with the two operand bytes its last instruction may own
    beyond it, lies inside the 64 KiB address space: the 16-bit walk
    address cannot wrap. *)
Definition region_fits (cfg : DriverConfig) : Prop :=
  driver_code_top cfg + driver_code_size cfg + 2 < 0x10000.

(** *** Concrete configurations and images *)

(** The configuration [sf2pack.cpp] builds by default: driver code at
    0x0D7E, 0x0800 bytes, zero page base 2, target address 0x1000. *)
Definition default_config : DriverConfig := {|
  driver_code_top := 0x0D7E;
  driver_code_size := 0x0800;
  current_lowest_zp := 0x02;
  target_lowest_zp := 0x02;
  destination_address := 0x1000
|}.

(** A memory that is zero except for the bytes listed. *)
Fixpoint image (bytes : list (Z * byte)) : C64Memory :=
  match bytes with
  | [] => Clear
  | (a, v) :: rest => poke (image rest) a v
  end.

(** A region that runs past the top of the address space:
    [0xFFF0 + 0x20] is [0x0010] as an [unsigned short]. *)
Definition wrapping_config : DriverConfig := {|
  driver_code_top := 0xFFF0;
  driver_code_size := 0x0020;
  current_lowest_zp := 0x02;
  target_lowest_zp := 0x40;
  destination_address := 0x1000
|}.

(** Scenario S6 of the specification: the default configuration with the
    target zero page at 0x40. *)
Definition zero_page_config : DriverConfig := {|
  driver_code_top := 0x0D7E;
  driver_code_size := 0x0800;
  current_lowest_zp := 0x02;
  target_lowest_zp := 0x40;
  destination_address := 0x1000
|}.

(** What the walk from [a] leaves behind, when it cannot run off the end of
    the address space. *)
Definition walk_post (cfg : DriverConfig) (B : Z) (m : C64Memory) (a : Z)
  (m' : C64Memory) (e : Z) : Prop :=
  (a < B -> B <= e <= B + 2) /\ (B <= a -> e = a) /\
  (forall x, x <= a -> m' x = m x) /\
  (forall n x, In x (instr_starts n m a B) ->
     (RequiresRelocation (GetOpcodeAddressingMode (m x)) = true ->
      operand16 m' x =
        if (0xD000 <=? operand16 m x) && (operand16 m x <=? 0xDFFF)
        then operand16 m x
        else (operand16 m x + (destination_address cfg - driver_code_top cfg))
               mod 0x10000) /\
     (RequiresZeroPageAdjustment (GetOpcodeAddressingMode (m x)) = true ->
      operand8 m' x =
        (target_lowest_zp cfg + (operand8 m x - current_lowest_zp cfg)) mod 256)).

End SF2Pack.

(** * Core A: p2s *)

Module P2S.

(** ** The globals of p2s.c *)

(** [AOF]: an offset and the byte expected there. *)
Record AOF : Type := aof { offset : Z; checkbyte : Z }.

Module G.
(** The file-scope variables.  [realp] is the buffer [main] allocates for
    the file and [p] the offset of the pointer [p] into it; [z] stands for
    the local [z] of [fixfc4stack] and [fixsklstack]; [hout] is what has
    been written to the output file and [shown] the identity and addresses
    of the line printed to standard output; [fuel] is not a variable of the
    program but the bound the model puts on the iterations of a loop. *)
Record state : Type := mk {
  realp : list byte;
  p : Z;
  fsiz : Z;
  initaddr : Z;
  playaddr : Z;
  loadaddr : Z;
  i : Z;
  j : Z;
  k : Z;
  z : Z;
  extra : Z;
  extrabytes : list byte;
  psidh : list byte;
  ids : string;
  af : list AOF;
  hout : list byte;
  shown : option (string * Z * Z);
  fuel : nat
}.
End G.
Definition state : Type := G.state.

(** What stops a run of the model: an access outside an array (undefined
    behaviour in C), a loop that used up the fuel of the model, or a
    function body left without [return]. *)
Inductive fault : Type :=
| OutOfBounds (array : string) (index : Z)
| OutOfFuel
| NoReturn.

Inductive res (A : Type) : Type :=
| Ok (a : A)
| Err (f : fault).
Arguments Ok {A} a.
Arguments Err {A} f.

(** ** Expressions: evaluated in a state, without changing it *)

Definition expr : Type := state -> res Z.
Declare Scope expr_scope.
Delimit Scope expr_scope with E.
Bind Scope expr_scope with expr.

Definition lit (n : Z) : expr := fun _ => Ok n.
Coercion lit : Z >-> expr.

(** An [int] variable: how to read it and how to assign it. *)
Record var : Type := mkVar {
  get : state -> Z;
  set : Z -> state -> state
}.

Definition rv (x : var) : expr := fun s => Ok (get x s).
Coercion rv : var >-> expr.

Definition lift1 (f : Z -> Z) (a : expr) : expr :=
  fun s => match a s with Ok x => Ok (f x) | Err e => Err e end.

Definition lift2 (f : Z -> Z -> Z) (a b : expr) : expr :=
  fun s =>
    match a s with
    | Ok x => match b s with Ok y => Ok (f x y) | Err e => Err e end
    | Err e => Err e
    end.

Definition b2i (b : bool) : Z := if b then 1 else 0.

(** [a && b] and [a || b] evaluate [b] only when [a] does not decide. *)
Definition eand (a b : expr) : expr :=
  fun s =>
    match a s with
    | Ok x => if x =? 0 then Ok 0
              else match b s with
                   | Ok y => Ok (b2i (negb (y =? 0)))
                   | Err e => Err e
                   end
    | Err e => Err e
    end.

Definition eor (a b : expr) : expr :=
  fun s =>
    match a s with
    | Ok x => if negb (x =? 0) then Ok 1
              else match b s with
                   | Ok y => Ok (b2i (negb (y =? 0)))
                   | Err e => Err e
                   end
    | Err e => Err e
    end.

Notation "a + b" := (lift2 Z.add a b) : expr_scope.
Notation "a * b" := (lift2 Z.mul a b) : expr_scope.
Notation "a - b" := (lift2 Z.sub a b) : expr_scope.
Notation "a << b" := (lift2 Z.shiftl a b) (at level 55, left associativity) : expr_scope.
Notation "a >> b" := (lift2 Z.shiftr a b) (at level 55, left associativity) : expr_scope.
Notation "a .& b" := (lift2 Z.land a b) (at level 56, left associativity) : expr_scope.
Notation "a .| b" := (lift2 Z.lor a b) (at level 57, left associativity) : expr_scope.
Notation "a == b" := (lift2 (fun x y => b2i (x =? y)) a b) (at level 70, no associativity) : expr_scope.
Notation "a != b" := (lift2 (fun x y => b2i (negb (x =? y))) a b) (at level 70, no associativity) : expr_scope.
Notation "a < b" := (lift2 (fun x y => b2i (x <? y)) a b) : expr_scope.
Notation "a <= b" := (lift2 (fun x y => b2i (x <=? y)) a b) : expr_scope.
Notation "a > b" := (lift2 (fun x y => b2i (x >? y)) a b) : expr_scope.
Notation "a >= b" := (lift2 (fun x y => b2i (x >=? y)) a b) : expr_scope.
Notation "a && b" := (eand a b) : expr_scope.
Notation "a || b" := (eor a b) : expr_scope.
Notation "! a" := (lift1 (fun x => b2i (x =? 0)) a) (at level 35, right associativity) : expr_scope.


(** ** Arrays of bytes *)

(** An [unsigned char] array reached through a pointer: the cells of the
    object it points into and the offset of the pointer in it. *)
Record array : Type := mkArray {
  name : string;
  cells : state -> list byte;
  base : state -> Z;
  put : list byte -> state -> state
}.

Definition in_bounds (l : list byte) (first n : Z) : bool :=
  (0 <=? first) && (0 <=? n) && (first + n <=? Z.of_nat (List.length l)).

(** The little-endian value of the [n] bytes at index [first]. *)
Fixpoint le_value (l : list byte) (first : Z) (n : nat) : Z :=
  match n with
  | O => 0
  | S n' => b2z (nth (Z.to_nat first) l x00) + 256 * le_value l (first + 1) n'
  end.

(** The unsigned [n]-byte value the source reads through a cast of the
    pointer [a + e] (and [a[e]] for [n = 1]), on a little-endian host; an
    access one of whose bytes lies outside the object faults. *)
Definition read (n : nat) (a : array) (e : expr) : expr :=
  fun s =>
    match e s with
    | Ok x =>
        if in_bounds (cells a s) (base a s + x) (Z.of_nat n)
        then Ok (le_value (cells a s) (base a s + x) n)
        else Err (OutOfBounds (name a) (base a s + x))
    | Err f => Err f
    end.

(** [l] with the bytes from index [first] on replaced by [blob]. *)
Definition splice (l : list byte) (first : Z) (blob : list byte) : list byte :=
  firstn (Z.to_nat first) l ++ blob
    ++ skipn (Z.to_nat first + List.length blob) l.

(** ** Statements *)

(** How a statement ends: normally, by [break], [continue] or [return],
    or in a fault. *)
Inductive outcome : Type :=
| Normal (s : state)
| Break (s : state)
| Continue (s : state)
| Return (r : Z) (s : state)
| Fault (f : fault).

Definition stmt : Type := state -> outcome.
Declare Scope stmt_scope.
Delimit Scope stmt_scope with C.
Bind Scope stmt_scope with stmt.

Definition skip : stmt := fun s => Normal s.

Definition seq (c1 c2 : stmt) : stmt :=
  fun s => match c1 s with Normal s' => c2 s' | o => o end.

Definition store_var (x : var) (e : expr) : stmt :=
  fun s => match e s with Ok v => Normal (set x v s) | Err f => Fault f end.

(** [a[e] = v]: the value is converted to [unsigned char]. *)
Definition write (a : array) (e v : expr) : stmt :=
  fun s =>
    match e s with
    | Ok x =>
        match v s with
        | Ok y =>
            if in_bounds (cells a s) (base a s + x) 1
            then Normal (put a (splice (cells a s) (base a s + x) [z2b y]) s)
            else Fault (OutOfBounds (name a) (base a s + x))
        | Err f => Fault f
        end
    | Err f => Fault f
    end.

(** [a[e]]: read as an expression, written as the target of [=]. *)
Record cell : Type := mkCell { cell_array : array; cell_index : expr }.

Definition rc (c : cell) : expr := read 1 (cell_array c) (cell_index c).
Coercion rc : cell >-> expr.

Inductive lvalue : Type :=
| LVar (x : var)
| LCell (c : cell).
Coercion LVar : var >-> lvalue.
Coercion LCell : cell >-> lvalue.

Definition assign (l : lvalue) (e : expr) : stmt :=
  match l with
  | LVar x => store_var x e
  | LCell c => write (cell_array c) (cell_index c) e
  end.

(** [memmove(a + e, src, n)] from a constant array [src]. *)
Definition memmove (a : array) (e : expr) (src : list byte) (n : expr) : stmt :=
  fun s =>
    match e s with
    | Ok x =>
        match n s with
        | Ok len =>
            if negb ((0 <=? len) && (len <=? Z.of_nat (List.length src)))
            then Fault (OutOfBounds "memmove source" len)
            else if in_bounds (cells a s) (base a s + x) len
            then Normal (put a (splice (cells a s) (base a s + x)
                                  (firstn (Z.to_nat len) src)) s)
            else Fault (OutOfBounds (name a) (base a s + x))
        | Err f => Fault f
        end
    | Err f => Fault f
    end.

(** [memset(a + e, v, n)]. *)
Definition memset (a : array) (e : expr) (v : Z) (n : Z) : stmt :=
  fun s =>
    match e s with
    | Ok x =>
        if in_bounds (cells a s) (base a s + x) n
        then Normal (put a (splice (cells a s) (base a s + x)
                              (repeat (z2b v) (Z.to_nat n))) s)
        else Fault (OutOfBounds (name a) (base a s + x))
    | Err f => Fault f
    end.

Definition ifte (e : expr) (c1 c2 : stmt) : stmt :=
  fun s =>
    match e s with
    | Ok v => if v =? 0 then c2 s else c1 s
    | Err f => Fault f
    end.

Definition ret (e : expr) : stmt :=
  fun s => match e s with Ok v => Return v s | Err f => Fault f end.

Definition break : stmt := fun s => Break s.
Definition continue : stmt := fun s => Continue s.

(** The iterations of [for (...; cond; step) body] and [while]. *)
Fixpoint loop (fuel : nat) (cond : expr) (body step : stmt) (s : state)
  : outcome :=
  match fuel with
  | O => Fault OutOfFuel
  | S fuel' =>
      match cond s with
      | Err f => Fault f
      | Ok v =>
          if v =? 0 then Normal s
          else
            match body s with
            | Normal s1 | Continue s1 =>
                match step s1 with
                | Normal s2 => loop fuel' cond body step s2
                | o => o
                end
            | Break s1 => Normal s1
            | o => o
            end
      end
  end.

(** How many times the model lets a loop go round before it gives up: a
    parameter of the run, kept with the globals and never assigned. *)
Definition loop_fuel (s : state) : nat := G.fuel s.

Definition for_ (init : stmt) (cond : expr) (step body : stmt) : stmt :=
  fun s =>
    match init s with
    | Normal s0 => loop (loop_fuel s0) cond body step s0
    | o => o
    end.

Definition while (cond : expr) (body : stmt) : stmt :=
  fun s => loop (loop_fuel s) cond body skip s.

(** Evaluate [e] once and go on with its value. *)
Definition bind (e : expr) (c : Z -> stmt) : stmt :=
  fun s => match e s with Ok v => c v s | Err f => Fault f end.

(** [x = f(...)]: run the body of [f] and assign what it returns. *)
Definition call_assign (x : var) (f : stmt) : stmt :=
  fun s =>
    match f s with
    | Return r s' => Normal (set x r s')
    | Fault e => Fault e
    | _ => Fault NoReturn
    end.

(** [f(...)] for a [void] function, or with the result dropped. *)
Definition call (f : stmt) : stmt :=
  fun s =>
    match f s with
    | Return _ s' | Normal s' => Normal s'
    | Fault e => Fault e
    | _ => Fault NoReturn
    end.

(** The result and final state of an [int f(void)] called from outside. *)
Definition run (f : stmt) (s : state) : res (Z * state) :=
  match f s with
  | Return r s' => Ok (r, s')
  | Fault e => Err e
  | _ => Err NoReturn
  end.

Notation "c1 ;; c2" := (seq c1 c2) (at level 90, right associativity) : stmt_scope.
Notation "x ::= e" := (assign x e) (at level 80, no associativity) : stmt_scope.
Notation "'IF' e 'THEN' c1 'ELSE' c2 'END'" := (ifte e c1 c2)
  (at level 0, e at level 200, c1 at level 200, c2 at level 200) : stmt_scope.
Notation "'IF' e 'THEN' c1 'END'" := (ifte e c1 skip)
  (at level 0, e at level 200, c1 at level 200) : stmt_scope.
Notation "'RETURN' e" := (ret e) (at level 79, e at level 78) : stmt_scope.
Notation "'FOR' c0 ';' e ';' c1 'DO' body 'DONE'" := (for_ c0 e c1 body)
  (at level 0, c0 at level 89, e at level 200, c1 at level 89, body at level 200) : stmt_scope.
Notation "'WHILE' e 'DO' body 'DONE'" := (while e body)
  (at level 0, e at level 200, body at level 200) : stmt_scope.
Notation "'LET' x ':=' e 'IN' c" := (bind e (fun x => c))
  (at level 89, x name, e at level 200, c at level 90) : stmt_scope.
Notation "a .[ e ]" := (mkCell a e) (at level 1, e at level 200, left associativity).


(** ** The variables, arrays and tables of the source *)

Definition with_realp (v : list byte) (s : state) : state :=
  G.mk v (G.p s) (G.fsiz s) (G.initaddr s) (G.playaddr s) (G.loadaddr s)
    (G.i s) (G.j s) (G.k s) (G.z s) (G.extra s) (G.extrabytes s) (G.psidh s)
    (G.ids s) (G.af s) (G.hout s) (G.shown s) (G.fuel s) .

Definition with_p (v : Z) (s : state) : state :=
  G.mk (G.realp s) v (G.fsiz s) (G.initaddr s) (G.playaddr s) (G.loadaddr s)
    (G.i s) (G.j s) (G.k s) (G.z s) (G.extra s) (G.extrabytes s) (G.psidh s)
    (G.ids s) (G.af s) (G.hout s) (G.shown s) (G.fuel s) .

Definition with_fsiz (v : Z) (s : state) : state :=
  G.mk (G.realp s) (G.p s) v (G.initaddr s) (G.playaddr s) (G.loadaddr s)
    (G.i s) (G.j s) (G.k s) (G.z s) (G.extra s) (G.extrabytes s) (G.psidh s)
    (G.ids s) (G.af s) (G.hout s) (G.shown s) (G.fuel s) .

Definition with_initaddr (v : Z) (s : state) : state :=
  G.mk (G.realp s) (G.p s) (G.fsiz s) v (G.playaddr s) (G.loadaddr s) (G.i s)
    (G.j s) (G.k s) (G.z s) (G.extra s) (G.extrabytes s) (G.psidh s)
    (G.ids s) (G.af s) (G.hout s) (G.shown s) (G.fuel s) .

Definition with_playaddr (v : Z) (s : state) : state :=
  G.mk (G.realp s) (G.p s) (G.fsiz s) (G.initaddr s) v (G.loadaddr s) (G.i s)
    (G.j s) (G.k s) (G.z s) (G.extra s) (G.extrabytes s) (G.psidh s)
    (G.ids s) (G.af s) (G.hout s) (G.shown s) (G.fuel s) .

Definition with_loadaddr (v : Z) (s : state) : state :=
  G.mk (G.realp s) (G.p s) (G.fsiz s) (G.initaddr s) (G.playaddr s) v (G.i s)
    (G.j s) (G.k s) (G.z s) (G.extra s) (G.extrabytes s) (G.psidh s)
    (G.ids s) (G.af s) (G.hout s) (G.shown s) (G.fuel s) .

Definition with_i (v : Z) (s : state) : state :=
  G.mk (G.realp s) (G.p s) (G.fsiz s) (G.initaddr s) (G.playaddr s)
    (G.loadaddr s) v (G.j s) (G.k s) (G.z s) (G.extra s) (G.extrabytes s)
    (G.psidh s) (G.ids s) (G.af s) (G.hout s) (G.shown s) (G.fuel s) .

Definition with_j (v : Z) (s : state) : state :=
  G.mk (G.realp s) (G.p s) (G.fsiz s) (G.initaddr s) (G.playaddr s)
    (G.loadaddr s) (G.i s) v (G.k s) (G.z s) (G.extra s) (G.extrabytes s)
    (G.psidh s) (G.ids s) (G.af s) (G.hout s) (G.shown s) (G.fuel s) .

Definition with_k (v : Z) (s : state) : state :=
  G.mk (G.realp s) (G.p s) (G.fsiz s) (G.initaddr s) (G.playaddr s)
    (G.loadaddr s) (G.i s) (G.j s) v (G.z s) (G.extra s) (G.extrabytes s)
    (G.psidh s) (G.ids s) (G.af s) (G.hout s) (G.shown s) (G.fuel s) .

Definition with_z (v : Z) (s : state) : state :=
  G.mk (G.realp s) (G.p s) (G.fsiz s) (G.initaddr s) (G.playaddr s)
    (G.loadaddr s) (G.i s) (G.j s) (G.k s) v (G.extra s) (G.extrabytes s)
    (G.psidh s) (G.ids s) (G.af s) (G.hout s) (G.shown s) (G.fuel s) .

Definition with_extra (v : Z) (s : state) : state :=
  G.mk (G.realp s) (G.p s) (G.fsiz s) (G.initaddr s) (G.playaddr s)
    (G.loadaddr s) (G.i s) (G.j s) (G.k s) (G.z s) v (G.extrabytes s)
    (G.psidh s) (G.ids s) (G.af s) (G.hout s) (G.shown s) (G.fuel s) .

Definition with_extrabytes (v : list byte) (s : state) : state :=
  G.mk (G.realp s) (G.p s) (G.fsiz s) (G.initaddr s) (G.playaddr s)
    (G.loadaddr s) (G.i s) (G.j s) (G.k s) (G.z s) (G.extra s) v (G.psidh s)
    (G.ids s) (G.af s) (G.hout s) (G.shown s) (G.fuel s) .

Definition with_psidh (v : list byte) (s : state) : state :=
  G.mk (G.realp s) (G.p s) (G.fsiz s) (G.initaddr s) (G.playaddr s)
    (G.loadaddr s) (G.i s) (G.j s) (G.k s) (G.z s) (G.extra s)
    (G.extrabytes s) v (G.ids s) (G.af s) (G.hout s) (G.shown s) (G.fuel s) .

Definition with_ids (v : string) (s : state) : state :=
  G.mk (G.realp s) (G.p s) (G.fsiz s) (G.initaddr s) (G.playaddr s)
    (G.loadaddr s) (G.i s) (G.j s) (G.k s) (G.z s) (G.extra s)
    (G.extrabytes s) (G.psidh s) v (G.af s) (G.hout s) (G.shown s) (G.fuel s)
    .

Definition with_af (v : list AOF) (s : state) : state :=
  G.mk (G.realp s) (G.p s) (G.fsiz s) (G.initaddr s) (G.playaddr s)
    (G.loadaddr s) (G.i s) (G.j s) (G.k s) (G.z s) (G.extra s)
    (G.extrabytes s) (G.psidh s) (G.ids s) v (G.hout s) (G.shown s)
    (G.fuel s) .

Definition with_hout (v : list byte) (s : state) : state :=
  G.mk (G.realp s) (G.p s) (G.fsiz s) (G.initaddr s) (G.playaddr s)
    (G.loadaddr s) (G.i s) (G.j s) (G.k s) (G.z s) (G.extra s)
    (G.extrabytes s) (G.psidh s) (G.ids s) (G.af s) v (G.shown s) (G.fuel s)
    .

Definition with_shown (v : option (string * Z * Z)) (s : state) : state :=
  G.mk (G.realp s) (G.p s) (G.fsiz s) (G.initaddr s) (G.playaddr s)
    (G.loadaddr s) (G.i s) (G.j s) (G.k s) (G.z s) (G.extra s)
    (G.extrabytes s) (G.psidh s) (G.ids s) (G.af s) (G.hout s) v (G.fuel s) .

Definition fsiz : var := mkVar G.fsiz with_fsiz.
Definition initaddr : var := mkVar G.initaddr with_initaddr.
Definition playaddr : var := mkVar G.playaddr with_playaddr.
Definition loadaddr : var := mkVar G.loadaddr with_loadaddr.
Definition i : var := mkVar G.i with_i.
Definition j : var := mkVar G.j with_j.
Definition k : var := mkVar G.k with_k.
Definition z : var := mkVar G.z with_z.
Definition extra : var := mkVar G.extra with_extra.

(** The pointer [p] as a variable ([p += j]) and as the array it points to. *)
Definition pointer_p : var := mkVar G.p with_p.
Definition p : array := mkArray "p" G.realp G.p with_realp.
Definition extrabytes : array :=
  mkArray "extrabytes" G.extrabytes (fun _ => 0) with_extrabytes.
Definition psidh : array := mkArray "psidh" G.psidh (fun _ => 0) with_psidh.

(** Reads through [unsigned int] and [unsigned short int] pointer casts. *)
Definition u32_at (a : array) (e : expr) : expr := read 4 a e.
Definition u16_at (a : array) (e : expr) : expr := read 2 a e.

(** Header offsets. *)
Definition P_MARKER : Z := 0x00.
Definition P_SIDVER : Z := 0x05.
Definition P_INITADDR : Z := 0x0a.
Definition P_PLAYADDR : Z := 0x0c.
Definition P_SUBTUNES : Z := 0x0f.
Definition P_STARTSNG : Z := 0x11.
Definition P_TIMING : Z := 0x15.
Definition P_NAME : Z := 0x16.
Definition P_AUTHOR : Z := 0x36.
Definition P_RELEASED : Z := 0x56.
Definition P_SIDMODEL : Z := 0x77.
Definition P_FREEPAGE : Z := 0x78.
Definition P_FREEPMAX : Z := 0x79.
Definition P_STEREOAD : Z := 0x7a.

(** [psidh]: the header template, 0x7c bytes. *)
Definition psidh_template : list byte := [
  x50; x53; x49; x44; x00; x02; x00; x7c; x00; x00; x10; x00; x10; x03; x00; x01;
  x00; x01; x00; x00; x00; x00; x3c; x3f; x3e; x00; x00; x00; x00; x00; x00; x00;
  x00; x00; x00; x00; x00; x00; x00; x00; x00; x00; x00; x00; x00; x00; x00; x00;
  x00; x00; x00; x00; x00; x00; x3c; x3f; x3e; x00; x00; x00; x00; x00; x00; x00;
  x00; x00; x00; x00; x00; x00; x00; x00; x00; x00; x00; x00; x00; x00; x00; x00;
  x00; x00; x00; x00; x00; x00; x31; x39; x3f; x3f; x20; x3c; x3f; x3e; x00; x00;
  x00; x00; x00; x00; x00; x00; x00; x00; x00; x00; x00; x00; x00; x00; x00; x00;
  x00; x00; x00; x00; x00; x00; x00; x14; x00; x00; x00; x00].

Definition aPatchSndmon : list byte := [
  xa9; x01; x8d; x0f; xc0; xa9; x00; x8d; xc6; x02; x60].

Definition aPatchRckmon : list byte := [
  xa9; x01; x8d; x0f; xc0; x4c; x12; xc0].

Definition aPatchPolly1 : list byte := [
  xa9; x7f; x8d; x0d; xdc; xad; x0d; xdc; xa0; x00; xea].

Definition aPatchPolly2 : list byte := [
  xa0; x19; xb9; x47; x0b; x99; xff; xd3; x88; xd0; xf7; xa9; x00; x8d; x15; xd0;
  xea; xea; xea; xea; xea; xea].

Definition aPatchElcSnd : list byte := [
  x48; x20; x18; x00; x68; xaa; x8e; xab; x02; xbd; x15; x00; x8d; xff; x02; xa9;
  x01; x8d; xf9; x02; x60; x0a].

Definition aPatchUbiksM : list byte := [
  x4c; x00; x00; x4c; x00; x00; x18; x69; x80; x8d; x00; x00; xa2; x00; xa9; x00;
  x9d; x00; xd4; xe8; xe0; x20; xd0; xf6; x60; xa5; x01; x48; xa9; x36; x85; x01;
  x20; x00; x00; x68; x85; x01; x60].

Definition aPatchMastCm : list byte := [
  xa9; x01; x8d; x00; x00; xd0; x21; xa9; x00; xd0; x31].

Definition aPatchPolyAn : list byte := [
  x78; xd8; xa2; xff; x9a; x20; x5b; x15; x20; x00; x10; x4c; x58; x15; xad; x05;
  x20; xd0; x0b; xa2; x02; xbd; x00; x0d; x95; x00; xe8; xd0; xf8; x60; xa2; x02;
  xbd; x00; x1a; x95; x00; xe8; xd0; xf8; x60].

Definition aPatchMssiah : list byte := [
  x78; xa9; x35; x85; x01; x20; x1c; x5f; x20; xf3; x5e; xa9; x00; x8d; x0e; xdc;
  x8d; x0f; xdc; x8d; x19; xd0; x8d; x1a; xd0; xa9; x7f; x8d; x0d; xdc; xa9; x81;
  x8d; x0d; xdc; xa9; x94; x8d; xfe; xff; xa9; x5f; x8d; xff; xff; xa9; xa4; x8d;
  xfa; xff; xa9; x5f; x8d; xfb; xff; xa9; xf6; x2c; x5a; x71; x30; x02; xa9; xac;
  x8d; x04; xdc; xa9; x07; x8d; x05; xdc; xa9; x11; x8d; x0e; xdc; xa9; x1b; x8d;
  x11; xd0; x58; x20; x95; x5e; x60; x00; x00; x00; x00; x00].

Definition aPatchArneDD : list byte := [
  xa9; x00; xea; xc9; x01; xf0; x05].

Definition aPatchDMC4f9 : list byte := [
  xc8; xb1; xf8; x9d; x26; x17; x60].

Definition aPatchDblTrk : list byte := [
  xa9; x63; x8d; x04; xdc; xa9; x26; x8d; x05; xdc; xa9; x00; x8d; xeb; x0f; x4c;
  x48; x10; xa9; x00; x29; x01; xaa; xee; xeb; x0f; xbd; xfb; x0f; x8d; xf9; x0f;
  x4c; x21; x10; x21; x00; x00; x00; x00].

Definition af4 : list AOF := [
  aof 0x006 0xad; aof 0x015 0xee; aof 0x018 0xee; aof 0x01b 0xee; aof 0x025 0xce; aof 0x02d 0x8d;
  aof 0x035 0x8d; aof 0x039 0xad; aof 0x04b 0xde; aof 0x056 0xbc; aof 0x065 0x9d; aof 0x068 0x9d;
  aof 0x06b 0x9d; aof 0x06e 0x8d; aof 0x077 0x8d; aof 0x07e 0xad; aof 0x083 0x9d; aof 0x086 0xfe;
  aof 0x08c 0xad; aof 0x093 0xad; aof 0x098 0x9d; aof 0x09b 0xfe; aof 0x0a1 0xad; aof 0x0b2 0x9d;
  aof 0x0b5 0xbc; aof 0x0b8 0x9d; aof 0x0bd 0x9d; aof 0x0cc 0x9d; aof 0x0cf 0xfe; aof 0x0dc 0x9d;
  aof 0x0ee 0x9d; aof 0x0f6 0x8d; aof 0x0f9 0xfe; aof 0x102 0x8d; aof 0x10b 0xfe; aof 0x11f 0x9d;
  aof 0x131 0x9d; aof 0x13a 0xbd; aof 0x13d 0x9d; aof 0x143 0x7d; aof 0x146 0x9d; aof 0x151 0xac;
  aof 0x157 0x9d; aof 0x15a 0x9d; aof 0x161 0x9d; aof 0x164 0xbd; aof 0x169 0xbd; aof 0x170 0x8e;
  aof 0x18c 0x9d; aof 0x18f 0x9d; aof 0x197 0x9d; aof 0x19b 0x9d; aof 0x1a3 0x9d; aof 0x1a8 0x9d;
  aof 0x1ac 0x9d; aof 0x1af 0xfe; aof 0x1b2 0xbc; aof 0x1bd 0x9d; aof 0x1c0 0xbd; aof 0x1c5 0xde;
  aof 0x1ca 0xfe; aof 0x1d0 0xfe; aof 0x1dd 0xac; aof 0x1e0 0xbd; aof 0x1e5 0xbd; aof 0x1ea 0x9d;
  aof 0x1ed 0xbd; aof 0x1f7 0x8d; aof 0x1fd 0x8d; aof 0x203 0x8d; aof 0x20a 0xad; aof 0x211 0xad;
  aof 0x21f 0x9d; aof 0x225 0x8d; aof 0x228 0xbd; aof 0x22d 0xde; aof 0x232 0xfe; aof 0x237 0xfe;
  aof 0x23a 0xbd; aof 0x23d 0xdd; aof 0x242 0x9d; aof 0x245 0xde; aof 0x248 0xde; aof 0x24b 0xbd;
  aof 0x256 0x8d; aof 0x25f 0x7d; aof 0x263 0xce; aof 0x269 0x6e; aof 0x26f 0x8d; aof 0x275 0x8d;
  aof 0x27b 0x8d; aof 0x27e 0xbd; aof 0x287 0xad; aof 0x28a 0xed; aof 0x28d 0x8d; aof 0x290 0xad;
  aof 0x293 0xed; aof 0x296 0x8d; aof 0x29c 0xbd; aof 0x2a3 0xbc; aof 0x2aa 0xad; aof 0x2ad 0x6d;
  aof 0x2b0 0x8d; aof 0x2b3 0xad; aof 0x2b6 0x6d; aof 0x2b9 0x8d; aof 0x2bf 0xac; aof 0x2c2 0xad;
  aof 0x2c8 0xad; aof 0x2d0 0xac; aof 0x2d3 0xbd; aof 0x2d7 0xfd; aof 0x2de 0xbd; aof 0x2e9 0xad;
  aof 0x2ed 0xbd; aof 0x2f0 0xed; aof 0x2f3 0x9d; aof 0x2f9 0xbd; aof 0x2fc 0xed; aof 0x2ff 0x9d;
  aof 0x308 0xad; aof 0x30c 0xbd; aof 0x30f 0x6d; aof 0x312 0x9d; aof 0x318 0xbd; aof 0x31b 0x6d;
  aof 0x31e 0x9d; aof 0x324 0xad; aof 0x334 0xdd; aof 0x341 0xdd; aof 0x34a 0x8d; aof 0x350 0xad;
  aof 0x355 0x8d; aof 0x358 0xbd; aof 0x35d 0xbd; aof 0x361 0xed; aof 0x364 0x9d; aof 0x367 0xbd;
  aof 0x36c 0x9d; aof 0x375 0x9d; aof 0x37a 0xbd; aof 0x37e 0x6d; aof 0x381 0x9d; aof 0x384 0xbd;
  aof 0x389 0x9d; aof 0x392 0x9d; aof 0x39a 0xbd; aof 0x3a1 0xbd; aof 0x3af 0xac; aof 0x3b2 0xbd;
  aof 0x3bb 0xbd; aof 0x3c3 0xad; aof 0x3cc 0xbd; aof 0x3db 0x9d; aof 0x3de 0x8c; aof 0x3e1 0xad;
  aof 0x3ea 0x8e; aof 0x3f7 0xbd; aof 0x41d 0x8d; aof 0x420 0xae; aof 0x424 0x2d; aof 0x42b 0x6d;
  aof 0x444 0xbd; aof 0x44f 0xcd; aof 0x458 0x9d; aof 0x45e 0xac; aof 0x461 0xad; aof 0x468 0xad;
  aof 0x488 0xbd; aof 0x496 0x99; aof 0x49c 0x8d; aof 0x49f 0xad; aof 0x4a8 0xbd; aof 0x4ac 0x6d;
  aof 0x4b2 0xac; aof 0x4b5 0xad; aof 0x4c6 0xad; aof 0x4cf 0xac; aof 0x4d2 0xbd; aof 0x4e7 0x9d;
  aof 0x4ed 0xbd; aof 0x4f3 0xbd; aof 0x4f9 0xbd; aof 0x4fe 0x9d; aof 0x501 0xad; aof 0x508 0xde;
  aof 0x50f 0x9d; aof 0x514 0xbd; aof 0x51f 0xbd; aof 0x526 0xac; aof 0x537 0xac; aof 0x53a 0xbd;
  aof 0x547 0xad; aof 0x557 0xad].

Definition af40 : list AOF := [
  aof 0x5a7 0x8d; aof 0x704 0x9d; aof 0x70c 0x8d; aof 0x711 0x8d; aof 0x714 0x8d; aof 0x717 0x8d;
  aof 0x71c 0x9d; aof 0x71f 0x9d; aof 0x722 0x9d; aof 0x725 0x9d; aof 0x72b 0x8d].

Definition af41 : list AOF := [
  aof 0x569 0x9d; aof 0x571 0x8d; aof 0x576 0x8d; aof 0x579 0x8d; aof 0x57c 0x8d; aof 0x581 0x9d;
  aof 0x584 0x9d; aof 0x587 0x9d; aof 0x58a 0x9d; aof 0x590 0x8d; aof 0x5a7 0x8d].

Definition sld0 : list AOF := [
  aof 0x0034 0x9d; aof 0x0037 0x9d; aof 0x003a 0x9d; aof 0x003d 0x9d; aof 0x0040 0x9d; aof 0x00a3 0x8d;
  aof 0x00b8 0x8d; aof 0x00cd 0x8d; aof 0x017c 0xad; aof 0x0182 0xad; aof 0x0188 0xad; aof 0x03d3 0x9d;
  aof 0x03da 0x7d; aof 0x03dd 0x9d; aof 0x03e7 0x9d; aof 0x03ea 0xbd; aof 0x03ee 0x7d; aof 0x03f1 0x9d;
  aof 0x0418 0x9d; aof 0x0420 0x9d; aof 0x0436 0xb9; aof 0x043d 0xbe; aof 0x0456 0x99; aof 0x045a 0xb9;
  aof 0x045d 0xd9; aof 0x0465 0x79; aof 0x0472 0xf9].

Definition sizeof {A : Type} (l : list A) : Z := Z.of_nat (List.length l).

(** [af[e].offset] and [af[e].checkbyte]; an index past the table reads
    outside it. *)
Definition aof_field (f : AOF -> Z) (what : string)
  (table : state -> list AOF) (e : expr) : expr :=
  fun s =>
    match e s with
    | Ok n =>
        match (if 0 <=? n then nth_error (table s) (Z.to_nat n) else None) with
        | Some r => Ok (f r)
        | None => Err (OutOfBounds what n)
        end
    | Err f' => Err f'
    end.

(** ** Strings: [ids] *)

Definition strcpy_ids (text : string) : stmt :=
  fun s => Normal (with_ids text s).

Definition strcat_ids (text : string) : stmt :=
  fun s => Normal (with_ids (G.ids s ++ text) s).

(** [sprintf(pspeed, ...); strcpy(ids, pspeed)] with [char pspeed[32]] and
    [char ids[30]]: the zero that ends a text of [n] characters is stored
    at index [n], past the end of [pspeed] from 32 characters on and past
    the end of [ids] from 30 on. *)
Definition strcpy_ids_from_pspeed (text : string) : stmt :=
  fun s =>
    let n := Z.of_nat (String.length text) in
    if 32 <=? n then Fault (OutOfBounds "pspeed" n)
    else if 30 <=? n then Fault (OutOfBounds "ids" n)
    else Normal (with_ids text s).

(** Decimal and hexadecimal digits of a non-negative number, most
    significant first; [n] bounds their number. *)
Fixpoint digits (base : Z) (n : nat) (v : Z) (acc : string) : string :=
  match n with
  | O => acc
  | S n' =>
      let d := v mod base in
      let c := ascii_of_nat (Z.to_nat (if d <? 10 then 48 + d else 87 + d)) in
      if v / base =? 0 then String c acc
      else digits base n' (v / base) (String c acc)
  end.

(** [%d] of an [int]. *)
Definition format_d (v : Z) : string :=
  if v <? 0 then String "-" (digits 10 12 (- v) EmptyString)
  else digits 10 12 v EmptyString.

(** [%02x] of an [int], printed as the [unsigned int] it converts to. *)
Definition format_02x (v : Z) : string :=
  let t := digits 16 8 (u32 v) EmptyString in
  if (String.length t <? 2)%nat then String "0" t else t.


(** [sprintf(ids, fmt, ...)] for the conversions the source uses: [%s],
    [%d] and [%02x]. *)
Inductive printf_arg : Type :=
| Str (text : string)
| Int (e : expr).

Fixpoint format (fmt : string) (args : list (string + Z)) : string :=
  match fmt with
  | EmptyString => EmptyString
  | String "%" (String "s" rest) =>
      match args with
      | inl t :: args' => t ++ format rest args'
      | _ => format rest args
      end
  | String "%" (String "d" rest) =>
      match args with
      | inr v :: args' => format_d v ++ format rest args'
      | _ => format rest args
      end
  | String "%" (String "0" (String "2" (String "x" rest))) =>
      match args with
      | inr v :: args' => format_02x v ++ format rest args'
      | _ => format rest args
      end
  | String c rest => String c (format rest args)
  end.

Fixpoint eval_args (args : list printf_arg) (s : state)
  : res (list (string + Z)) :=
  match args with
  | [] => Ok []
  | Str t :: rest =>
      match eval_args rest s with
      | Ok l => Ok (inl t :: l)
      | Err f => Err f
      end
  | Int e :: rest =>
      match e s with
      | Ok v => match eval_args rest s with
                | Ok l => Ok (inr v :: l)
                | Err f => Err f
                end
      | Err f => Err f
      end
  end.

Definition sprintf_ids (fmt : string) (args : list printf_arg) : stmt :=
  fun s =>
    match eval_args args s with
    | Ok l => Normal (with_ids (format fmt l) s)
    | Err f => Fault f
    end.

(** Conversions inside expressions. *)
Definition to_u16 (e : expr) : expr := lift1 u16 e.
Definition to_u32 (e : expr) : expr := lift1 u32 e.

(** The [int] an [unsigned int] value converts to. *)
Definition s32 (v : Z) : Z := (v + 2147483648) mod 4294967296 - 2147483648.
Definition to_s32 (e : expr) : expr := lift1 s32 e.

(** [table[e]] for a constant byte array. *)
Definition const_at (table : list byte) (e : expr) : expr :=
  fun s =>
    match e s with
    | Ok n =>
        if in_bounds table n 1 then Ok (b2z (nth (Z.to_nat n) table x00))
        else Err (OutOfBounds "constant array" n)
    | Err f => Err f
    end.

(** ** The helpers of the checks *)

(** [AdjustJ], p2s.c line 199. *)
Definition AdjustJ (x la : expr) : expr := (x + 2 - la)%E.

(** [CheckJ], p2s.c line 205. *)
Definition CheckJ (x fs : expr) : expr := ((x < 0) || (x > (fs - 1)))%E.

(** [AdjFC], p2s.c line 210. *)
Definition AdjFC : stmt :=
 (IF (p.[0x48] == 0x20) && (p.[0x49] == 0xd0)
  THEN
    p.[0x47] ::= 0xea;;
    p.[0x48] ::= 0xea;;
    p.[0x49] ::= 0xea
  END)%C.

(** [afall] and the sizes [fixfc4stack] stores in [afsize]. *)
Definition afall : list (list AOF) := [af40; af41].
Definition afsize : list Z := [sizeof af40; sizeof af41; sizeof af4].

Definition afsize_at (e : expr) : expr :=
  fun s =>
    match e s with
    | Ok n =>
        match (if 0 <=? n then nth_error afsize (Z.to_nat n) else None) with
        | Some v => Ok v
        | None => Err (OutOfBounds "afsize" n)
        end
    | Err f => Err f
    end.

(** [af=afall[e]]. *)
Definition set_af (e : expr) : stmt :=
  fun s =>
    match e s with
    | Ok n =>
        match (if 0 <=? n then nth_error afall (Z.to_nat n) else None) with
        | Some t => Normal (with_af t s)
        | None => Fault (OutOfBounds "afall" n)
        end
    | Err f => Fault f
    end.

Definition af4_offset : expr -> expr := aof_field offset "af4" (fun _ => af4).
Definition af4_checkbyte : expr -> expr := aof_field checkbyte "af4" (fun _ => af4).
Definition af_offset : expr -> expr := aof_field offset "af" G.af.
Definition af_checkbyte : expr -> expr := aof_field checkbyte "af" G.af.
Definition sld0_offset : expr -> expr := aof_field offset "sld0" (fun _ => sld0).
Definition sld0_checkbyte : expr -> expr := aof_field checkbyte "sld0" (fun _ => sld0).

Open Scope stmt_scope.

(** [fixfc4stack], p2s.c line 93; [buffer] is the offset of the argument
    from [p]. *)
Definition fixfc4stack (buffer lenbuff : Z) : stmt :=
  z ::= 0;;
  IF lenbuff < 0x600
  THEN
    RETURN (-1)
  END;;
  i ::= 0;;
  j ::= 0;;
  FOR i ::= 0 ; i < afsize_at 2 ; i ::= i + 1 DO
    IF p.[buffer + af4_offset i] != af4_checkbyte i
    THEN
      j ::= (-1);;
      break
    END
  DONE;;
  IF j != (-1)
  THEN
    FOR z ::= 0 ; z < 2 ; z ::= z + 1 DO
      j ::= z;;
      set_af z;;
      FOR i ::= 0 ; i < afsize_at z ; i ::= i + 1 DO
        IF p.[buffer + af_offset i] != af_checkbyte i
        THEN
          IF (z == 1) && (i == (afsize_at z - 1))
          THEN
            break
          END;;
          j ::= (-1);;
          break
        END
      DONE;;
      IF j != (-1)
      THEN
        break
      END
    DONE
  END;;
  IF j != (-1)
  THEN
    FOR i ::= 0 ; i < afsize_at 2 ; i ::= i + 1 DO
      IF p.[buffer + (af4_offset i + 2)] == 0x1
      THEN
        p.[buffer + (af4_offset i + 2)] ::= 0x2;;
        j ::= j .| 0x100
      END
    DONE;;
    FOR i ::= 0 ; i < afsize_at z ; i ::= i + 1 DO
      IF (z == 1) && (i == (afsize_at z - 1))
      THEN
        break
      END;;
      IF p.[buffer + (af_offset i + 2)] == 0x1
      THEN
        p.[buffer + (af_offset i + 2)] ::= 0x2;;
        j ::= j .| 0x100
      END
    DONE
  END;;
  RETURN j.

(** [fixsklstack], p2s.c line 167. *)
Definition fixsklstack (buffer lenbuff : Z) : stmt :=
  z ::= 0;;
  IF lenbuff < 0x600
  THEN
    RETURN (-1)
  END;;
  i ::= 0;;
  j ::= 0;;
  z ::= sizeof sld0;;
  FOR i ::= 0 ; i < z ; i ::= i + 1 DO
    IF p.[buffer + sld0_offset i] != sld0_checkbyte i
    THEN
      j ::= (-1);;
      break
    END
  DONE;;
  IF j != (-1)
  THEN
    FOR i ::= 0 ; i < z ; i ::= i + 1 DO
      IF p.[buffer + (sld0_offset i + 2)] == 0x1
      THEN
        p.[buffer + (sld0_offset i + 2)] ::= 0x2;;
        j ::= j .| 0x100
      END
    DONE
  END;;
  RETURN j.


(** ** The check functions *)

Section Checks.

(** [printf_2_1f n d]: the text of the C library's [%2.1f] for the
    [double] quotient [n / d] ([d] may be zero). *)
Variable printf_2_1f : Z -> Z -> string.

(** [Chk_FC], p2s.c line 220. *)
Definition Chk_FC : stmt :=
  IF fsiz < 0x200
  THEN
    RETURN 0
  END;;
  IF (p.[0x02] == 0x4c) &&
     (p.[0x08] == 0xad) &&
     (p.[0x0f] == 0xc9) &&
     (((u32_at p (0x0b)) .& 0xfffff0ff) == 0x07F000C9)
  THEN
    playaddr ::= initaddr + 6;;
    call AdjFC;;
    strcpy_ids "FutureComposer";;
    LET lenbuff := fsiz - 2 IN call_assign i (fixfc4stack 2 lenbuff);;
    IF i != (-1)
    THEN
      strcat_ids " 4.";;
      IF i .& 1
      THEN
        strcat_ids "1"
      ELSE
        strcat_ids "0"
      END;;
      IF i .& 0x100
      THEN
        strcat_ids " (fixed)"
      END
    END;;
    RETURN 1
  END;;
  RETURN 0.

(** [Chk_FCAlt], p2s.c line 244. *)
Definition Chk_FCAlt : stmt :=
  IF fsiz < 0x200
  THEN
    RETURN 0
  END;;
  IF (p.[0x02] == 0x4c) &&
     (p.[0x03] == 0x08) &&
     (p.[0x2c] == 0xee) &&
     (p.[0x2d] == 0x42) &&
     (p.[0x2f] == 0xee) &&
     (p.[0x30] == 0x43)
  THEN
    playaddr ::= initaddr + 0x2a;;
    call AdjFC;;
    strcpy_ids "FutureComposer";;
    strcat_ids " (altered)";;
    RETURN 1
  END;;
  RETURN 0.

(** [Chk_MusAss], p2s.c line 264. *)
Definition Chk_MusAss : stmt :=
  IF fsiz < 0x200
  THEN
    RETURN 0
  END;;
  j ::= (-1);;
  FOR i ::= 2 ; i < 0x25 ; i ::= i + 1 DO
    IF ((u32_at p (i)) == 0x90CE00A2) &&
       ((u32_at p (0x05 + i)) == 0x26200C30) &&
       ((u32_at p (0x31 + i)) == 0x628D0F29)
    THEN
      j ::= i;;
      break
    END
  DONE;;
  IF j >= 0
  THEN
    IF (p.[2] == 0xad) &&
       (p.[3] == 0xd2) &&
       ((u32_at p (0x05)) == 0x00A205F0) &&
       ((u32_at p (0x19)) == 0x02A205F0)
    THEN
      psidh.[P_TIMING] ::= 1;;
      k ::= (loadaddr >> 8) - 1;;
      initaddr ::= (k << 8) .| 0xd8;;
      playaddr ::= (k << 8) .| 0xea;;
      extrabytes.[0] ::= initaddr .& 0xff;;
      extrabytes.[1] ::= initaddr >> 8;;
      extra ::= sizeof aPatchDblTrk;;
      memmove extrabytes 2 aPatchDblTrk extra;;
      extrabytes.[0x10] ::= k;;
      extrabytes.[0x13] ::= k + 1;;
      extrabytes.[0x1b] ::= k;;
      extrabytes.[0x1e] ::= k;;
      extrabytes.[0x21] ::= k;;
      extrabytes.[0x24] ::= k + 1;;
      p.[0] ::= 0;;
      p.[1] ::= 0;;
      strcpy_ids "DoubleTracker";;
      RETURN 1
    ELSE
      initaddr ::= loadaddr + 0x48 - 0x23 + i;;
      playaddr ::= loadaddr + 0x21 - 0x23 + i;;
      IF (p.[2] == 0x4c) &&
         (p.[5] == 0x4c) &&
         ((u16_at p (3)) == initaddr) &&
         ((u16_at p (6)) == playaddr)
      THEN
        initaddr ::= loadaddr;;
        playaddr ::= loadaddr + 3
      END;;
      strcpy_ids "MusicAssembler";;
      RETURN 1
    END
  END;;
  RETURN 0.

(** [Chk_MusMix], p2s.c line 326. *)
Definition Chk_MusMix : stmt :=
  IF fsiz < 0x200
  THEN
    RETURN 0
  END;;
  j ::= (-1);;
  FOR i ::= 2 ; i < 0x2d ; i ::= i + 1 DO
    IF (p.[0x43 - 0x2b + i] == 0xa9) &&
       ((u32_at p (0x4b - 0x2b + i)) == 0x0F29D417) &&
       ((u32_at p (0xD4 - 0x2b + i)) == 0x2030FAB1) &&
       ((u32_at p (0x7b - 0x2b + i)) == 0xCE00A260)
    THEN
      j ::= i;;
      break
    END
  DONE;;
  IF j >= 0
  THEN
    initaddr ::= loadaddr + 0x41 - 0x2b + i;;
    playaddr ::= loadaddr + 0x7a - 0x2b + i;;
    IF (p.[2] == 0x4c) &&
       (p.[5] == 0x4c) &&
       ((u16_at p (3)) == initaddr) &&
       ((u16_at p (6)) == playaddr)
    THEN
      initaddr ::= loadaddr;;
      playaddr ::= loadaddr + 3
    END;;
    strcpy_ids "MusicMixer";;
    RETURN 1
  END;;
  RETURN 0.

(** [Chk_GMC], p2s.c line 359. *)
Definition Chk_GMC : stmt :=
  IF fsiz < 0x900
  THEN
    RETURN 0
  END;;
  j ::= (-1);;
  FOR i ::= 2 ; i < 0x18 ; i ::= i + 1 DO
    IF ((u32_at p (0x0d0 - 0x16 + i)) == 0x18FADDC3) &&
       ((u32_at p (0x0e0 - 0x16 + i)) == 0x47FBB470) &&
       ((u32_at p (0x1a4 - 0x16 + i)) == 0x0a0a0a0a)
    THEN
      j ::= i;;
      break
    END
  DONE;;
  IF j >= 0
  THEN
    initaddr ::= loadaddr + 0x8ea - 0x16 + i;;
    playaddr ::= loadaddr + 0x4ea - 0x16 + i;;
    strcpy_ids "GMC/Superiors";;
    RETURN 1
  END;;
  RETURN 0.

(** [Chk_Bappalander], p2s.c line 383. *)
Definition Chk_Bappalander : stmt :=
  IF fsiz < 0x400
  THEN
    RETURN 0
  END;;
  IF ((u32_at p (0x002)) == 0x7DA200A9) &&
     ((u32_at p (0x017)) == 0xCE60B185) &&
     ((u32_at p (0x215)) == 0x0a0a0a0a)
  THEN
    initaddr ::= loadaddr;;
    playaddr ::= loadaddr + 0x18;;
    strcpy_ids "Bappalander";;
    RETURN 1
  END;;
  IF (p.[2] == 0x4c) &&
     ((u32_at p (0x00c)) == 0xA9FA10CA) &&
     ((u32_at p (0x084)) == 0xBDAAB0B1) &&
     ((u32_at p (0x25a)) == 0x0a0a0a0a)
  THEN
    initaddr ::= loadaddr + 3;;
    playaddr ::= loadaddr + 0;;
    strcpy_ids "Bappalander";;
    strcat_ids "/SpaceLab";;
    RETURN 1
  END;;
  RETURN 0.

(** [Chk_TrkPl3], p2s.c line 409. *)
Definition Chk_TrkPl3 : stmt :=
  IF fsiz < 0x500
  THEN
    RETURN 0
  END;;
  IF ((u32_at p (0x142)) == 0x00A900A2) &&
     ((u32_at p (0x148)) == 0x20E0E8D4) &&
     ((u32_at p (0x289)) == 0xCA2000A2) &&
     ((u32_at p (0x491)) == 0x0a0a0a0a)
  THEN
    initaddr ::= loadaddr + 0x140;;
    playaddr ::= loadaddr + 0x287;;
    strcpy_ids "TrackPlayer";;
    RETURN 1
  END;;
  RETURN 0.

(** [Chk_Groovy], p2s.c line 425. *)
Definition Chk_Groovy : stmt :=
  IF fsiz < 0x200
  THEN
    RETURN 0
  END;;
  IF (p.[2] == 0x4c) &&
     ((u32_at p (0x005)) == 0x9D8A00A2)
  THEN
    j ::= 0;;
    k ::= (p.[4] << 8) + p.[3] - loadaddr + 2;;
    IF ((u32_at p (k)) .& 0xfffff0ff) == 0xAD0330EE
    THEN
      j ::= 1
    ELSE
      IF (p.[k] == 0xe6) &&
         (p.[k + 0x02] == 0xa5) &&
         (p.[k + 0x01] == p.[k + 0x03]) &&
         (p.[k + 0x04] == 0xc9)
      THEN
        j ::= 2
      END
    END;;
    IF j > 0
    THEN
      initaddr ::= loadaddr + 3;;
      playaddr ::= loadaddr + 0;;
      sprintf_ids "GroovyBits v%d" [Int j];;
      RETURN 1
    END
  END;;
  RETURN 0.

(** [Chk_Parsec], p2s.c line 455. *)
Definition Chk_Parsec : stmt :=
  IF fsiz < 0x200
  THEN
    RETURN 0
  END;;
  IF ((u32_at p (0x0d8)) == 0x06ADF4F2) &&
     ((u32_at p (0x0e0)) == 0xD002C974) &&
     ((u32_at p (0x0f4)) == 0x180A0A00)
  THEN
    initaddr ::= loadaddr + 3;;
    playaddr ::= loadaddr + 0;;
    strcpy_ids "Parsec/LoS";;
    RETURN 1
  END;;
  IF ((u32_at p (0x0db)) == 0x06ADF4F2) &&
     ((u32_at p (0x0e3)) == 0xD002C977) &&
     ((u32_at p (0x0fa)) == 0x180A0A00)
  THEN
    initaddr ::= loadaddr + 3;;
    playaddr ::= loadaddr + 0;;
    strcpy_ids "Parsec/LoS";;
    RETURN 1
  END;;
  RETURN 0.

(** [Chk_Sosperec], p2s.c line 479. *)
Definition Chk_Sosperec : stmt :=
  IF fsiz < 0x200
  THEN
    RETURN 0
  END;;
  IF ((u32_at p (0x010)) == 0x02020202) &&
     (((u32_at p (0x102)) .& 0xff00ffff) == 0x8E00AA4C) &&
     ((u32_at p (0x132)) == 0xD4168ED4)
  THEN
    initaddr ::= loadaddr + 0xfc;;
    playaddr ::= loadaddr + 0x100;;
    p.[0x0fe] ::= 0xaa;;
    p.[0x0ff] ::= 0x4c;;
    p.[0x100] ::= 0x03;;
    p.[0x101] ::= (loadaddr + 0x100) >> 8;;
    strcpy_ids "Sosperec";;
    RETURN 1
  END;;
  RETURN 0.

(** [Chk_SoedeSoft], p2s.c line 498. *)
Definition Chk_SoedeSoft : stmt :=
  IF fsiz < 0x200
  THEN
    RETURN 0
  END;;
  IF (((u32_at p (0x02b)) .& 0xfffff0ff) == 0x3399A0A0) &&
     ((u32_at p (0x02f)) == 0xFAD08803) &&
     ((u32_at p (0x107)) == (0x00DA2060 .| ((loadaddr >> 8) << 24)))
  THEN
    IF p.[2] == 0x4c
    THEN
      initaddr ::= loadaddr;;
      p.[3] ::= 0x29;;
      p.[4] ::= loadaddr >> 8
    ELSE
      initaddr ::= loadaddr + 0x29
    END;;
    playaddr ::= loadaddr + 0x106;;
    p.[0xda] ::= 0x60;;
    IF p.[0x142] == 0xa9
    THEN
      FOR j ::= 0x142 ; j < 0x14a ; j ::= j + 1 DO
        p.[j] ::= 0x60
      DONE
    END;;
    strcpy_ids "Soedesoft";;
    strcat_ids " v1";;
    RETURN 1
  END;;
  IF (p.[2] == 0x4c) &&
     (p.[5] == 0x4c) &&
     (p.[8] == 0x4c) &&
     ((u32_at p (0x01a)) == 0x88033399) &&
     ((u32_at p (0x01e)) == 0x00A9FAD0)
  THEN
    initaddr ::= loadaddr;;
    IF p.[0x6] == 0x7b
    THEN
      playaddr ::= loadaddr + 3
    ELSE
      IF p.[0x9] == 0x7b
      THEN
        playaddr ::= loadaddr + 6
      ELSE
        playaddr ::= loadaddr + 0x7b
      END
    END;;
    p.[0x5c] ::= 0x60;;
    strcpy_ids "Soedesoft";;
    strcat_ids " v2";;
    RETURN 1
  END;;
  IF (p.[2] == 0x4c) &&
     (p.[5] == 0x4c) &&
     (p.[6] == 0x35) &&
     (p.[8] == 0x4c) &&
     (p.[9] == 0x7c) &&
     ((u32_at p (0x03b)) == 0x88033399) &&
     ((u32_at p (0x07d)) == 0x037CEE60)
  THEN
    initaddr ::= loadaddr + 3;;
    playaddr ::= loadaddr + 6;;
    strcpy_ids "Soedesoft";;
    strcat_ids " v3";;
    RETURN 1
  END;;
  RETURN 0.

(** [Chk_Prosonix1], p2s.c line 557. *)
Definition Chk_Prosonix1 : stmt :=
  IF fsiz < 0x200
  THEN
    RETURN 0
  END;;
  IF (p.[2] == 0x4c) &&
     (p.[5] == 0x4c) &&
     (p.[8] == 0x4c) &&
     (((u32_at p (0x00b)) .& 0x00ffffff) == 0x00F000A9) &&
     (((u32_at p (0x00f)) .& 0x00ff00ff) == 0x00600010)
  THEN
    j ::= AdjustJ (p.[3] .| (p.[4] << 8)) loadaddr;;
    IF (! (CheckJ j fsiz))
    THEN
      IF (p.[j + 0x00] == 0xa9) &&
         (p.[j + 0x01] == 0x01) &&
         (p.[j + 0x02] == 0x8d) &&
         (p.[j + 0x05] == 0xa2)
      THEN
        initaddr ::= loadaddr + 0;;
        playaddr ::= loadaddr + 9;;
        strcpy_ids "Prosonix";;
        strcat_ids " v1";;
        RETURN 1
      END
    END
  END;;
  RETURN 0.

(** [Chk_4JMPS], p2s.c line 584. *)
Definition Chk_4JMPS : stmt :=
  IF fsiz < 0x800
  THEN
    RETURN 0
  END;;
  IF (p.[0x2] == 0x4c) &&
     (p.[0x5] == 0x4c) &&
     (p.[0x8] == 0x4c) &&
     (p.[0xb] == 0x4c)
  THEN
    j ::= AdjustJ (p.[3] .| (p.[4] << 8)) loadaddr;;
    IF (! (CheckJ j fsiz))
    THEN
      IF (u32_at p (j)) == 0x0C8D03A9
      THEN
        j ::= AdjustJ (p.[0xc] .| (p.[0xd] << 8)) loadaddr;;
        IF (! (CheckJ j fsiz))
        THEN
          IF (p.[j + 0] == 0xad) &&
             (p.[j + 1] == 0x0c) &&
             (p.[j + 3] == 0xf0) &&
             (p.[j + 8] == 0x4c)
          THEN
            initaddr ::= loadaddr + 0;;
            playaddr ::= loadaddr + 9;;
            strcpy_ids "Prosonix";;
            strcat_ids " v2";;
            RETURN 1
          END
        END
      END;;
      IF (p.[j + 0x00] == 0xad) &&
         (p.[j + 0x03] == 0x30) &&
         (p.[j + 0x05] == 0x20)
      THEN
        j ::= AdjustJ (p.[0xc] .| (p.[0xd] << 8)) loadaddr;;
        IF (p.[j + 0x00] == 0x8d) &&
           (p.[j + 0x03] == 0x8e) &&
           (p.[j + 0x06] == 0x60) &&
           ((p.[j + 0x07] == 0x18) || (p.[j + 0x0c] == 0x18))
        THEN
          initaddr ::= loadaddr + 9;;
          playaddr ::= loadaddr + 0;;
          strcpy_ids "TFMX/Huelsbeck";;
          RETURN 1
        END
      END;;
      IF (((u32_at p (j + 0)) .& 0xffff00ff) == 0xFBF000A9) &&
         (((u32_at p (j + 0x04)) .& 0x00fff0ff) == 0x008d00a9) &&
         (((u32_at p (j + 0x09)) .& 0x00ffffff) == 0x002000a2) &&
         (((u32_at p (j + 0x0e)) .& 0x00ffffff) == 0x002007a2)
      THEN
        initaddr ::= loadaddr + 9;;
        playaddr ::= loadaddr + 0;;
        strcpy_ids "Heathcliff";;
        strcat_ids " v1";;
        RETURN 1
      END;;
      k ::= loadaddr >> 8;;
      IF (((u32_at p (2 + 0)) .& 0xff00ffff) == 0x4C001d4c) &&
         (((u32_at p (2 + 0x04)) .& 0xffff00ff) == 0x2F4C0085) &&
         (((u32_at p (2 + 0xdf)) .& 0xff00ffff) == 0x4C00F920) &&
         (p.[2 + 0xe1] == (k - 1))
      THEN
        initaddr ::= loadaddr + 0;;
        playaddr ::= loadaddr + 3;;
        j ::= ((k - 1) << 8) .| 0xf9;;
        extrabytes.[0] ::= j .& 0xff;;
        extrabytes.[1] ::= j >> 8;;
        memmove extrabytes 2 aPatchDMC4f9 (sizeof aPatchDMC4f9);;
        extrabytes.[2 + 5] ::= k + 7;;
        extra ::= sizeof aPatchDMC4f9;;
        extrabytes.[2 + 5] ::= k + 7;; p.[0] ::= extrabytes.[2 + 5];;
        p.[1] ::= const_at aPatchDMC4f9 ((sizeof aPatchDMC4f9) - 1);;
        sprintf_ids "DMC 4.x + patch @ $%02xf9" [Int (k - 1)];;
        RETURN 1
      END
    END
  END;;
  RETURN 0.

(** [Chk_Heathcliff], p2s.c line 669. *)
Definition Chk_Heathcliff : stmt :=
  IF fsiz < 0x800
  THEN
    RETURN 0
  END;;
  IF (p.[0x2] == 0x4c) &&
     (p.[0x5] == 0xa9) &&
     (p.[0xa] == 0xa2)
  THEN
    j ::= AdjustJ (p.[3] .| (p.[4] << 8)) loadaddr;;
    IF (! (CheckJ j fsiz))
    THEN
      IF (((u32_at p (j + 0)) .& 0x00ffffff) == 0x00F015A9) &&
         (((u32_at p (j + 0x04)) .& 0x00ffffff) == 0x002000a2) &&
         (((u32_at p (j + 0x09)) .& 0x00ffffff) == 0x002007a2)
      THEN
        initaddr ::= loadaddr + 3;;
        playaddr ::= loadaddr + 0;;
        strcpy_ids "Heathcliff";;
        strcat_ids " v3";;
        RETURN 1
      END
    END
  END;;
  RETURN 0.

(** [Chk_3JMPs1], p2s.c line 694. *)
Definition Chk_3JMPs1 : stmt :=
  IF fsiz < 0x400
  THEN
    RETURN 0
  END;;
  IF (p.[0x2] == 0x4c) &&
     (p.[0x5] == 0x4c) &&
     (p.[0x8] == 0x4c) &&
     (p.[0xb] != 0x4c)
  THEN
    j ::= AdjustJ (p.[3] .| (p.[4] << 8)) loadaddr;;
    IF (! (CheckJ j fsiz))
    THEN
      IF ((u16_at p (j)) == 0x03A9) &&
         (p.[j + 2] == 0x8d)
      THEN
        k ::= p.[j + 3];;
        j ::= AdjustJ (p.[0x9] .| (p.[0xa] << 8)) loadaddr;;
        IF (! (CheckJ j fsiz))
        THEN
          IF (p.[j + 0] == 0xad) &&
             (p.[j + 1] == k) &&
             (p.[j + 3] == 0xf0) &&
             (p.[j + 8] == 0x4c)
          THEN
            initaddr ::= loadaddr + 0;;
            playaddr ::= loadaddr + 6;;
            strcpy_ids "Prosonix";;
            strcat_ids " v3";;
            RETURN 1
          END
        END
      END;;
      IF (((u32_at p (j + 0)) .& 0x00ff00ff) == 0x00F000A9) &&
         (((u32_at p (j + 0x04)) .& 0x00ffffff) == 0x002000a2) &&
         (((u32_at p (j + 0x09)) .& 0x00ffffff) == 0x002007a2)
      THEN
        initaddr ::= loadaddr + 6;;
        playaddr ::= loadaddr + 0;;
        strcpy_ids "Heathcliff";;
        strcat_ids " v2";;
        RETURN 1
      END;;
      IF ((u16_at p (j)) == 0x10AD) &&
         (p.[j + 0x03] == 0x8d) &&
         (p.[j + 0x32] == 0x60) &&
         ((u32_at p (j + 0x33)) == 0x18F003C0)
      THEN
        initaddr ::= loadaddr + 0;;
        playaddr ::= loadaddr + 6;;
        strcpy_ids "Frank Hammer";;
        RETURN 1
      END
    END
  END;;
  RETURN 0.

(** [Chk_ArneAFL], p2s.c line 751. *)
Definition Chk_ArneAFL : stmt :=
  IF fsiz < 0x400
  THEN
    RETURN 0
  END;;
  IF (p.[0x2] == 0x4c) &&
     (p.[0x5] == 0x4c) &&
     (p.[0x8] == 0x4c) &&
     (p.[0xb] == 0x4c)
  THEN
    j ::= AdjustJ (p.[3] .| (p.[4] << 8)) loadaddr;;
    IF (! (CheckJ j fsiz))
    THEN
      IF (u32_at p (j)) == 0x40093F29
      THEN
        j ::= AdjustJ (p.[0xc] .| (p.[0xd] << 8)) loadaddr;;
        IF (! (CheckJ j fsiz))
        THEN
          IF (p.[j + 0] == 0x2c) &&
             (p.[j + 3] == 0x30) &&
             (p.[j + 5] == 0x70) &&
             (p.[j + 7] == 0xa9)
          THEN
            initaddr ::= loadaddr + 0;;
            playaddr ::= loadaddr + 9;;
            strcpy_ids "Arne/AFL";;
            k ::= 0x5b;;
            IF (u32_at p (k)) == 0xc9dd0ead
            THEN
              memmove p k aPatchArneDD (sizeof aPatchArneDD);;
              strcat_ids " (fixed)"
            END;;
            RETURN 1
          END
        END
      END
    END
  END;;
  RETURN 0.

(** [Chk_ArneSndMk], p2s.c line 790. *)
Definition Chk_ArneSndMk : stmt :=
  IF fsiz < 0x400
  THEN
    RETURN 0
  END;;
  i ::= 0;;
  FOR k ::= 0 ; k <= 0x20 ; k ::= k + 0x20 DO
    IF (p.[2 + k] == 0x4c) &&
       (p.[5 + k] != 0x4c) &&
       (p.[8 + k] == 0x4c)
    THEN
      j ::= AdjustJ (p.[9 + k] .| (p.[10 + k] << 8)) loadaddr;;
      IF CheckJ j fsiz
      THEN
        break
      END;;
      IF (p.[j] == 0xad) &&
         ((u32_at p (j + 3)) == 0x60F001C9)
      THEN
        initaddr ::= loadaddr + k + 0;;
        playaddr ::= loadaddr + k + 6;;
        strcpy_ids "SoundMaker";;
        strcat_ids " v4/Arne";;
        i ::= 1;;
        break
      END
    END
  DONE;;
  RETURN i.

(** [Chk_Digitalizer], p2s.c line 819. *)
Definition Chk_Digitalizer : stmt :=
  IF fsiz < 0x200
  THEN
    RETURN 0
  END;;
  IF (p.[2] == 0x4c) &&
     (p.[5] == 0x4c) &&
     (p.[8] == 0x20) &&
     ((u32_at p (0x0B)) == 0x10033DCE) &&
     ((u32_at p (0x1B)) == 0xADFAD0CA)
  THEN
    initaddr ::= loadaddr + 3;;
    playaddr ::= loadaddr + 6;;
    strcpy_ids "Digitalizer 2.x";;
    RETURN 1
  END;;
  RETURN 0.

(** [Chk_Soundmon], p2s.c line 836. *)
Definition Chk_Soundmon : stmt :=
  IF ((fsiz + loadaddr) > 0xcb00) &&
     (fsiz > 0x2b00) &&
     (loadaddr <= 0xa000)
  THEN
    IF ((u32_at p (0xc000 - loadaddr + 2)) == 0x4cc0124c) &&
       ((u32_at p (0xc020 - loadaddr + 2)) == 0xC58D01A5)
    THEN
      IF (u32_at p (0xc029 - loadaddr + 2)) == 0xADCBE120
      THEN
        initaddr ::= 0xce30;;
        playaddr ::= 0;;
        psidh.[P_MARKER] ::= 82;;
        psidh.[P_FREEPAGE] ::= 8;;
        psidh.[P_FREEPMAX] ::= (loadaddr >> 8) - 8;;
        sprintf_ids "DUSAT/RockMon%s" [Str "3h"]
      ELSE
        IF (u32_at p (0xc029 - loadaddr + 2)) == 0xAD80a020
        THEN
          initaddr ::= 0xc000;;
          playaddr ::= 0;;
          psidh.[P_MARKER] ::= 82;;
          psidh.[P_FREEPAGE] ::= 8;;
          psidh.[P_FREEPMAX] ::= (loadaddr >> 8) - 8;;
          j ::= initaddr - loadaddr + 2;;
          memmove p j aPatchRckmon (sizeof aPatchRckmon);;
          sprintf_ids "DUSAT/RockMon%s" [Str "2"]
        ELSE
          initaddr ::= 0xc000;;
          playaddr ::= 0xc020;;
          j ::= initaddr - loadaddr + 2;;
          memmove p j aPatchSndmon (sizeof aPatchSndmon);;
          p.[0xc031 - loadaddr + 2] ::= 0x60;;
          psidh.[P_TIMING] ::= 1;;
          psidh.[P_FREEPAGE] ::= 8;;
          psidh.[P_FREEPMAX] ::= (loadaddr >> 8) - 8;;
          strcpy_ids "SoundMonitor"
        END
      END;;
      RETURN 1
    END;;
    IF ((u32_at p (0xc000 - loadaddr + 2)) == 0x4cc0124c) &&
       ((u32_at p (0xc01d - loadaddr + 2)) == 0x0E8E00a2)
    THEN
      IF ((u32_at p (0x9fd0 - loadaddr + 2)) == 0x018536a9) &&
         ((u32_at p (0x9fdb - loadaddr + 2)) == 0x8D9FA99F)
      THEN
        initaddr ::= 0x9fd0;;
        playaddr ::= 0;;
        psidh.[P_MARKER] ::= 82;;
        psidh.[P_FREEPAGE] ::= 8;;
        psidh.[P_FREEPMAX] ::= (loadaddr >> 8) - 8;;
        j ::= 0x9fe1 - loadaddr + 2;;
        p.[j] ::= 0x20;; j ::= j + 1;;
        p.[j] ::= 0x12;; j ::= j + 1;;
        p.[j] ::= 0xc0;; j ::= j + 1;;
        sprintf_ids "DUSAT/RockMon%s" [Str "4"];;
        RETURN 1
      END;;
      IF ((u32_at p (0x9f00 - loadaddr + 2)) == 0x8D02C0AD) &&
         ((u32_at p (0x9f04 - loadaddr + 2)) == 0x75209F0A)
      THEN
        initaddr ::= 0xc000;;
        playaddr ::= 0;;
        j ::= initaddr - loadaddr + 2;;
        memmove p j aPatchRckmon (sizeof aPatchRckmon);;
        psidh.[P_MARKER] ::= 82;;
        psidh.[P_FREEPAGE] ::= 8;;
        psidh.[P_FREEPMAX] ::= (loadaddr >> 8) - 8;;
        sprintf_ids "DUSAT/RockMon%s" [Str "3"];;
        RETURN 1
      END
    END;;
    IF ((u32_at p (0xc000 - loadaddr + 2)) == 0x4cc0124c) &&
       ((u32_at p (0xc020 - loadaddr + 2)) == 0x4CA90295)
    THEN
      initaddr ::= 0xc000;;
      playaddr ::= 0;;
      j ::= initaddr - loadaddr + 2;;
      memmove p j aPatchRckmon (sizeof aPatchRckmon);;
      psidh.[P_MARKER] ::= 82;;
      psidh.[P_FREEPAGE] ::= 8;;
      psidh.[P_FREEPMAX] ::= (loadaddr >> 8) - 8;;
      sprintf_ids "DUSAT/RockMon%s" [Str "5"];;
      RETURN 1
    END;;
    IF ((u32_at p (0xc000 - loadaddr + 2)) == 0x4cc0124c) &&
       ((u32_at p (0xc01d - loadaddr + 2)) == 0x589B0020) &&
       ((u32_at p (0xc02c - loadaddr + 2)) == 0xAD9BA020)
    THEN
      initaddr ::= 0xc000;;
      playaddr ::= 0;;
      j ::= initaddr - loadaddr + 2;;
      memmove p j aPatchRckmon (sizeof aPatchRckmon);;
      psidh.[P_MARKER] ::= 82;;
      psidh.[P_FREEPAGE] ::= 8;;
      psidh.[P_FREEPMAX] ::= (loadaddr >> 8) - 8;;
      strcpy_ids "MusicMaster 1.3/BB";;
      RETURN 1
    END;;
    IF ((u32_at p (0xc000 - loadaddr + 2)) == 0x4cc0124c) &&
       ((u32_at p (0xc01d - loadaddr + 2)) == 0x589B0020) &&
       ((u32_at p (0xc02c - loadaddr + 2)) == 0xadc47820)
    THEN
      initaddr ::= 0xc000;;
      playaddr ::= 0;;
      j ::= initaddr - loadaddr + 2;;
      memmove p j aPatchRckmon (sizeof aPatchRckmon);;
      psidh.[P_MARKER] ::= 82;;
      psidh.[P_FREEPAGE] ::= 8;;
      psidh.[P_FREEPMAX] ::= (loadaddr >> 8) - 8;;
      strcpy_ids "BeatBox/KarlXII";;
      RETURN 1
    END;;
    IF ((u32_at p (0xc000 - loadaddr + 2)) == 0x4cc0124c) &&
       ((u32_at p (0xc025 - loadaddr + 2)) == 0x03148DD4) &&
       ((u32_at p (0xcbdd - loadaddr + 2)) == 0xAD9F0020)
    THEN
      initaddr ::= 0xc000;;
      playaddr ::= 0;;
      j ::= initaddr - loadaddr + 2;;
      memmove p j aPatchRckmon (sizeof aPatchRckmon);;
      psidh.[P_MARKER] ::= 82;;
      psidh.[P_FREEPAGE] ::= 8;;
      psidh.[P_FREEPMAX] ::= (loadaddr >> 8) - 8;;
      strcpy_ids "Digitronix";;
      RETURN 1
    END
  END;;
  RETURN 0.

(** [Chk_AMP2], p2s.c line 970. *)
Definition Chk_AMP2 : stmt :=
  IF fsiz < 0x600
  THEN
    RETURN 0
  END;;
  IF ((u32_at p (0x0dc)) == 0x5F4B3827) &&
     ((u32_at p (0x1A3)) == 0x5EDE04F0) &&
     ((u32_at p (0x1e8)) == 0x4a4a4a4a) &&
     ((u32_at p (0x224)) == 0x0a0a0a0a)
  THEN
    j ::= 0;;
    IF (p.[2 + 0x568] == 0xad) &&
       (p.[2 + 0x569] == 0x09)
    THEN
      j ::= 0x68
    ELSE
      IF (p.[2 + 0x57e] == 0xa5) &&
         (p.[2 + 0x588] == 0xad) &&
         (p.[2 + 0x589] == 0x09)
      THEN
        j ::= 0x7e
      END
    END;;
    IF j
    THEN
      p.[2] ::= 0x4c;;
      p.[3] ::= j;;
      p.[4] ::= (loadaddr >> 8) + 5;;
      p.[5] ::= 0x4c;;
      p.[6] ::= 0xce;;
      p.[7] ::= (loadaddr >> 8) + 4;;
      strcpy_ids "AMP 2.x";;
      RETURN 1
    END
  END;;
  RETURN 0.

(** [Chk_FC3x], p2s.c line 1013. *)
Definition Chk_FC3x : stmt :=
  IF fsiz < 0x200
  THEN
    RETURN 0
  END;;
  IF ((u32_at p (0x08a)) == 0x7AA200A9) &&
     ((u32_at p (0x0af)) == 0x8DF110CA) &&
     ((u32_at p (0x15e)) == 0x16D0FFC9) &&
     (p.[0x104] == 0xAD)
  THEN
    playaddr ::= loadaddr + 6;;
    initaddr ::= loadaddr;;
    IF p.[0x10a] == 0x07
    THEN
      initaddr ::= loadaddr - 2;;
      extrabytes.[0] ::= initaddr .& 0xff;;
      extrabytes.[1] ::= initaddr >> 8;;
      extra ::= 2;;
      p.[0] ::= 0xa9;;
      p.[1] ::= 0x02
    END;;
    j ::= 2;;
    p.[j] ::= 0x4c;; j ::= j + 1;;
    p.[j] ::= 0xb4;; j ::= j + 1;;
    p.[j] ::= loadaddr >> 8;; j ::= j + 1;;
    j ::= 8;;
    p.[j] ::= 0x4c;; j ::= j + 1;;
    p.[j] ::= 0x02;; j ::= j + 1;;
    p.[j] ::= (loadaddr >> 8) + 1;; j ::= j + 1;;
    strcpy_ids "FutureComposer";;
    strcat_ids " 3.x";;
    RETURN 1
  END;;
  RETURN 0.

(** [Chk_MoN_JTS], p2s.c line 1048. *)
Definition Chk_MoN_JTS : stmt :=
  IF fsiz < 0x200
  THEN
    RETURN 0
  END;;
  IF (p.[0x05] == 0x4c) &&
     (p.[0x06] == 0x2c) &&
     ((u32_at p (0xe2)) == 0x70A200A9) &&
     ((u32_at p (0xe9)) == 0xA9FA10CA)
  THEN
    initaddr ::= loadaddr + 0;;
    playaddr ::= loadaddr + 3;;
    p.[2] ::= 0x4c;;
    p.[3] ::= 0x0a;;
    p.[4] ::= (loadaddr >> 8) + 1;;
    strcpy_ids "MoN/JTS";;
    RETURN 1
  END;;
  RETURN 0.

(** [Chk_3JMPs2], p2s.c line 1067. *)
Definition Chk_3JMPs2 : stmt :=
  IF fsiz < 0x200
  THEN
    RETURN 0
  END;;
  IF (p.[2] == 0x4c) &&
     (p.[5] == 0x4c) &&
     (p.[8] == 0x4c)
  THEN
    j ::= AdjustJ (p.[6] .| (p.[7] << 8)) loadaddr;;
    IF (! (CheckJ j fsiz))
    THEN
      IF (p.[j + 0x00] == 0xa2) &&
         (p.[j + 0x02] == 0x8e) &&
         (p.[j + 0x05] == 0xbd) &&
         ((u32_at p (j + 0x30)) == 0xF0F07F29)
      THEN
        j ::= AdjustJ (p.[3] .| (p.[4] << 8)) loadaddr;;
        IF (! (CheckJ j fsiz))
        THEN
          IF p.[j] != 0xaa
          THEN
            initaddr ::= loadaddr - 1;;
            extrabytes.[0] ::= initaddr .& 0xff;;
            extra ::= 1;;
            p.[0] ::= initaddr >> 8;;
            p.[1] ::= 0xaa
          END;;
          sprintf_ids "SidDuzzIt %s" [Str "2.07"];;
          RETURN 1
        END
      END;;
      IF (p.[j + 0x00] == 0xa9) &&
         (p.[j + 0x01] == 0x01) &&
         (p.[j + 0x02] == 0x8d) &&
         (p.[j + 0x08] == 0x8d) &&
         (p.[j + 0x0b] == 0xa9)
      THEN
        j ::= AdjustJ (p.[9] .| (p.[0xa] << 8)) loadaddr;;
        IF (! (CheckJ j fsiz))
        THEN
          IF (u32_at p (j - 4)) == 0x60EE10CA
          THEN
            initaddr ::= loadaddr + 3;;
            playaddr ::= loadaddr + 6;;
            strcpy_ids "Anvil";;
            RETURN 1
          END
        END
      END
    END;;
    j ::= AdjustJ (p.[9] .| (p.[0xa] << 8)) loadaddr;;
    IF (! (CheckJ j fsiz))
    THEN
      IF (p.[j + 0x00] == 0xad) &&
         ((u32_at p (j + 0x03)) == 0xCE6001F0) &&
         ((u32_at p (j + 0x0a)) == 0x2002A209)
      THEN
        initaddr ::= loadaddr;;
        playaddr ::= loadaddr + 6;;
        strcpy_ids "Zardax";;
        strcat_ids " v1";;
        RETURN 1
      END;;
      IF (p.[j + 0x00] == 0xad) &&
         (p.[j - 0x01] == 0x60) &&
         (p.[j + 0x08] == 0x8d) &&
         (p.[j + 0x0b] == 0xa5) &&
         ((u32_at p (j + 0x03)) == 0xa56001F0)
      THEN
        initaddr ::= loadaddr;;
        playaddr ::= loadaddr + 6;;
        strcpy_ids "Zardax";;
        strcat_ids " v2";;
        RETURN 1
      END;;
      IF (p.[j + 0x00] == 0xad) &&
         (p.[j - 0x01] == 0x60) &&
         ((u32_at p (j + 0x03)) == 0x07f002c9) &&
         ((u32_at p (j + 0x08)) == 0x4c04d001)
      THEN
        initaddr ::= loadaddr;;
        playaddr ::= loadaddr + 6;;
        strcpy_ids "MoN/RWE";;
        RETURN 1
      END;;
      IF (p.[j + 0x00] == 0xa9) &&
         (p.[j + 0x02] == 0xf0) &&
         (p.[j + 0x04] == 0x60)
      THEN
        k ::= AdjustJ (p.[3] .| (p.[4] << 8)) loadaddr;;
        IF (! (CheckJ k fsiz))
        THEN
          IF (((p.[k + 0x00] == 0xa9) && (p.[k + 0x02] == 0x8d)) || ((p.[k + 0x00] == 0xa2) && (p.[k + 0x02] == 0x8e))) &&
             (p.[k + 0x01] == 0x01) &&
             ((u16_at p (k + 3)) == (to_u16 ((loadaddr + j - 1) .& 0xffff)))
          THEN
            initaddr ::= loadaddr;;
            playaddr ::= loadaddr + 6;;
            strcpy_ids "MoN/Cyb2";;
            RETURN 1
          END
        END
      END;;
      IF (p.[j + 0x00] == 0xad) &&
         (p.[j - 0x01] == 0x60) &&
         (p.[j - 0x0f] == 0x8d) &&
         (p.[j - 0x3e] == 0xa2) &&
         ((u32_at p (j + 0x03)) == 0xa26001d0)
      THEN
        initaddr ::= loadaddr;;
        playaddr ::= loadaddr + 6;;
        p.[2] ::= 0x4c;;
        i ::= j - 0x3e - 2 + loadaddr;;
        p.[3] ::= i .& 0xff;;
        p.[4] ::= i >> 8;;
        strcpy_ids "Laxity";;
        strcat_ids " v4";;
        RETURN 1
      END;;
      IF (p.[j + 0x03] == 0x8d) &&
         (p.[j + 0x12] == 0x8d) &&
         ((u32_at p (j + 0x06)) == 0x690a0a0a) &&
         ((u32_at p (j + 0x28)) == 0xA9D4178D)
      THEN
        initaddr ::= loadaddr + 6;;
        playaddr ::= loadaddr;;
        strcpy_ids "Roland Hermans";;
        RETURN 1
      END
    END;;
    j ::= AdjustJ (p.[3] .| (p.[4] << 8)) loadaddr;;
    IF (! (CheckJ j fsiz))
    THEN
      IF (p.[j + 0x00] == 0xbd) &&
         (p.[j + 0x03] == 0x8d) &&
         (p.[j + 0x06] == 0x8d) &&
         (p.[j + 0x09] == 0xbd)
      THEN
        initaddr ::= loadaddr - 1;;
        extrabytes.[0] ::= initaddr .& 0xff;;
        extra ::= 1;;
        p.[0] ::= initaddr >> 8;;
        p.[1] ::= 0xaa;;
        sprintf_ids "SidDuzzIt %s" [Str "0.98"];;
        RETURN 1
      END;;
      IF ((u32_at p (j + 0x00)) == 0xA98A00A2) &&
         ((u32_at p (j + 0x1b)) == 0xE49003E0)
      THEN
        initaddr ::= loadaddr + 0;;
        playaddr ::= loadaddr + 6;;
        strcpy_ids "Laxity";;
        strcat_ids " v1";;
        RETURN 1
      END;;
      IF (((u32_at p (j + 0x00)) .& 0xffff00ff) == 0x013000A9) &&
         (p.[j + 0x04] == 0x60) &&
         (p.[j + 0x05] == 0xad) &&
         (p.[j + 0x08] == 0xf0)
      THEN
        initaddr ::= loadaddr + 6;;
        playaddr ::= loadaddr + 0;;
        strcpy_ids "Deenen";;
        RETURN 1
      END
    END;;
    FOR (i ::= 2;; k ::= 0) ; i <= (2 + (4 * 3)) ; i ::= i + 3 DO
      IF p.[i] == 0x4c
      THEN
        j ::= AdjustJ (p.[i + 1] .| (p.[i + 2] << 8)) loadaddr;;
        IF CheckJ j fsiz
        THEN
          continue
        END;;
        IF (p.[j + 0x00] == 0xbd) &&
           (p.[j + 0x03] == 0x8d) &&
           (p.[j + 0x06] == 0xbd) &&
           (p.[j + 0x09] == 0x8d)
        THEN
          k ::= k .| 1;;
          initaddr ::= loadaddr + i - 2
        ELSE
          IF (p.[j + 0x00] == 0xa9) &&
             (p.[j + 0x02] == 0xd0) &&
             (p.[j + 0x03] == 0x01) &&
             (p.[j + 0x04] == 0x60)
          THEN
            k ::= k .| 2;;
            playaddr ::= loadaddr + i - 2
          END
        END
      END
    DONE;;
    IF k != 3
    THEN
      initaddr ::= loadaddr;;
      playaddr ::= initaddr + 3
    ELSE
      IF initaddr == loadaddr
      THEN
        initaddr ::= initaddr - 1;;
        extrabytes.[0] ::= initaddr .& 0xff;;
        extra ::= 1;;
        p.[0] ::= initaddr >> 8;;
        p.[1] ::= 0xaa
      ELSE
        extra ::= 4;;
        extrabytes.[0] ::= (loadaddr - extra) .& 0xff;;
        extrabytes.[1] ::= (loadaddr - extra) >> 8;;
        extrabytes.[2] ::= 0xaa;;
        extrabytes.[3] ::= 0x4c;;
        p.[0] ::= initaddr .& 0xff;;
        p.[1] ::= initaddr >> 8;;
        initaddr ::= loadaddr - extra
      END;;
      strcpy_ids "JO/Vibrants";;
      strcat_ids " v1";;
      RETURN 1
    END
  END;;
  RETURN 0.

(** [Chk_JOv2], p2s.c line 1301. *)
Definition Chk_JOv2 : stmt :=
  IF fsiz < 0x200
  THEN
    RETURN 0
  END;;
  FOR (i ::= 2;; k ::= 0) ; i <= (2 + (2 * 3)) ; i ::= i + 3 DO
    IF p.[i] == 0x4c
    THEN
      j ::= AdjustJ (p.[i + 1] .| (p.[i + 2] << 8)) loadaddr;;
      IF CheckJ j fsiz
      THEN
        continue
      END;;
      IF (p.[j + 0x00] == 0x8d) &&
         (p.[j + 0x03] == 0x8d) &&
         ((u32_at p (j + 0x06)) == 0xA9A80A0A)
      THEN
        k ::= k .| 1;;
        initaddr ::= loadaddr + i - 2;;
        break
      ELSE
        IF (p.[j + 0x00] == 0x8d) &&
           ((u32_at p (j + 0x03)) == 0xA9A80A0A)
        THEN
          k ::= k .| 1;;
          initaddr ::= loadaddr + i - 2;;
          break
        END
      END
    END
  DONE;;
  IF k
  THEN
    FOR j ::= 0 ; j < 0x10 ; j ::= j + 1 DO
      IF (p.[i + j + 0x03] == 0xad) &&
         (p.[i + j + 0x06] == 0xc9) &&
         (p.[i + j + 0x07] == 0x01) &&
         (p.[i + j + 0x08] == 0xf0) &&
         (p.[i + j + 0x0a] == 0xc9)
      THEN
        k ::= k .| 2;;
        playaddr ::= initaddr + 3;;
        break
      END
    DONE
  END;;
  IF k != 3
  THEN
    initaddr ::= loadaddr;;
    playaddr ::= initaddr + 3
  ELSE
    strcpy_ids "JO/Vibrants";;
    strcat_ids " v2";;
    RETURN 1
  END;;
  RETURN 0.

(** [Chk_2JMPs], p2s.c line 1359. *)
Definition Chk_2JMPs : stmt :=
  IF fsiz < 0x200
  THEN
    RETURN 0
  END;;
  IF (p.[2] == 0x4c) &&
     (p.[5] == 0x4c)
  THEN
    j ::= AdjustJ (p.[6] .| (p.[7] << 8)) loadaddr;;
    IF (! (CheckJ j fsiz))
    THEN
      IF (p.[j + 0x00] == 0xaa) &&
         (p.[j + 0x01] == 0xbd) &&
         (p.[j + 0x04] == 0x8d)
      THEN
        initaddr ::= loadaddr + 3;;
        playaddr ::= loadaddr + 0;;
        sprintf_ids "XTracker_V4.1%s/LoS" [Str "c"];;
        RETURN 1
      END;;
      IF (p.[j + 0x00] == 0xa2) &&
         (p.[j + 0x01] == 0x00) &&
         (p.[j + 0x02] == 0xce) &&
         (p.[j + 0x05] == 0x30) &&
         (p.[j + 0x06] == 0x09) &&
         (p.[j + 0x07] == 0x20) &&
         (p.[j + 0x0a] == 0x20) &&
         (p.[j + 0x0d] == 0x4c)
      THEN
        initaddr ::= loadaddr + 6;;
        playaddr ::= loadaddr + 3;;
        k ::= 8;;
        p.[k] ::= 0xaa;; k ::= k + 1;;
        p.[k] ::= 0x4c;; k ::= k + 1;;
        p.[k] ::= loadaddr .& 0xff;; k ::= k + 1;;
        p.[k] ::= loadaddr >> 8;; k ::= k + 1;;
        strcpy_ids "NordicBeat";;
        RETURN 1
      END;;
      IF ((u32_at p (j + 0x00)) == 0x00A918A2) &&
         ((u32_at p (j + 0x04)) == 0xCAD4009D) &&
         ((u32_at p (j + 0x43)) == 0x06F0F029) &&
         ((u32_at p (j + 0x53)) == 0x06F0F029) &&
         ((u32_at p (j + 0xa9)) == 0x4A4A4A4A)
      THEN
        initaddr ::= loadaddr + 3;;
        playaddr ::= loadaddr + 0;;
        strcpy_ids "ICC/The Voice";;
        RETURN 1
      END;;
      IF ((u32_at p (j - 0x01)) == 0x8d00a960) &&
         ((u32_at p (j + 0x07)) == 0xA2D4188D) &&
         (p.[j + 0x0c] == 0x20) &&
         (p.[j + 0x0f] == 0x20)
      THEN
        initaddr ::= loadaddr + 3;;
        playaddr ::= loadaddr + 0;;
        strcpy_ids "Burgstaller";;
        strcat_ids " v1";;
        RETURN 1
      END;;
      IF ((u32_at p (j + 0x00)) == 0x00A917A2) &&
         ((u32_at p (j + 0x04)) == 0xCAD4009D) &&
         ((u32_at p (j + 0x0f)) == 0xA2D4188D) &&
         (p.[j + 0x14] == 0x20) &&
         (p.[j + 0x17] == 0x20)
      THEN
        initaddr ::= loadaddr + 3;;
        playaddr ::= loadaddr + 0;;
        strcpy_ids "Burgstaller";;
        strcat_ids " v2";;
        RETURN 1
      END;;
      IF (p.[j] == 0x8d) &&
         (p.[j + 0x03] == 0xa2) &&
         (p.[j + 0x04] == 0x00) &&
         (p.[j + 0x05] == 0x20) &&
         (p.[j + 0x08] == 0x20) &&
         (((u32_at p (j + 0x10)) == 0x00690A8A) || ((u32_at p (j + 0x16)) == 0x00690A8A))
      THEN
        initaddr ::= loadaddr + 3;;
        playaddr ::= loadaddr + 0;;
        strcpy_ids "Burgstaller";;
        strcat_ids " v3";;
        RETURN 1
      END;;
      IF (p.[j] == 0x8d) &&
         ((u32_at p (j + 0x05)) == 0xA2D4188D) &&
         (p.[j + 0x09] == 0x00) &&
         (p.[j + 0x0a] == 0x20) &&
         (p.[j + 0x0d] == 0x20) &&
         ((u32_at p (j + 0x1b)) == 0x00690A8A)
      THEN
        initaddr ::= loadaddr + 3;;
        playaddr ::= loadaddr + 0;;
        strcpy_ids "Burgstaller";;
        strcat_ids " v4";;
        RETURN 1
      END
    END;;
    j ::= AdjustJ (p.[3] .| (p.[4] << 8)) loadaddr;;
    IF (! (CheckJ j fsiz))
    THEN
      IF (p.[j + 0x00] == 0xa0) &&
         (p.[j + 0x01] == 0x00) &&
         (p.[j + 0x02] == 0xf0) &&
         (p.[j + 0x04] == 0x60)
      THEN
        initaddr ::= loadaddr + 3;;
        playaddr ::= loadaddr + 0;;
        sprintf_ids "XTracker_V4.1%s/LoS" [Str "a"];;
        RETURN 1
      END;;
      IF (p.[j + 0x00] == 0xce) &&
         (p.[j + 0x02] == (loadaddr >> 8)) &&
         (p.[j + 0x03] == 0x10)
      THEN
        initaddr ::= loadaddr + 3;;
        playaddr ::= loadaddr + 0;;
        sprintf_ids "XTracker_V4.1%s/LoS" [Str "b"];;
        RETURN 1
      END;;
      IF (p.[j + 0x00] == 0x2c) &&
         (p.[j + 0x02] == (loadaddr >> 8)) &&
         (p.[j + 0x03] == 0x30) &&
         ((u32_at p (j + 5)) == 0xA2600170)
      THEN
        initaddr ::= loadaddr + 3;;
        playaddr ::= loadaddr + 0;;
        strcpy_ids "LordsOfSonics/MS";;
        RETURN 1
      END;;
      IF (p.[j + 0x00] == 0xa2) &&
         (p.[j + 0x01] == 0x00) &&
         (p.[0x08] == 0xad) &&
         (p.[0x0b] == 0x10)
      THEN
        initaddr ::= loadaddr + 0;;
        playaddr ::= loadaddr + 6;;
        strcpy_ids "Guy Shavitt";;
        RETURN 1
      END;;
      IF ((u32_at p (j + 0x00)) == 0x00A978A2) &&
         ((u32_at p (j + 0x07)) == 0x20FA10CA) &&
         ((u32_at p (j + 0x21)) == 0xA9F710CA) &&
         (p.[j + 0x0d] == 0xb9)
      THEN
        initaddr ::= loadaddr - 1;;
        extrabytes.[0] ::= initaddr .& 0xff;;
        extra ::= 1;;
        p.[0] ::= initaddr >> 8;;
        p.[1] ::= 0xa8;;
        strcpy_ids "Audial Arts";;
        RETURN 1
      END;;
      IF ((u32_at p (j - 0x03)) == 0xAD60FA10) &&
         ((u32_at p (j + 0x03)) == 0x0EAE12F0) &&
         ((u32_at p (j + 0x0e)) == 0x8EE8FA10)
      THEN
        initaddr ::= loadaddr + 3;;
        playaddr ::= loadaddr + 0;;
        strcpy_ids "TFMX/MasterComposer";;
        RETURN 1
      END;;
      IF (p.[j + 0x00] == 0xbd) &&
         (p.[j + 0x03] == 0x8d) &&
         (p.[j + 0x06] == 0xa9) &&
         (p.[j + 0x08] == 0x8d) &&
         ((p.[j + 0x18] == 0x4a) || (p.[j + 0x18] == 0xa9))
      THEN
        initaddr ::= loadaddr - 1;;
        extrabytes.[0] ::= initaddr .& 0xff;;
        extra ::= 1;;
        p.[0] ::= initaddr >> 8;;
        p.[1] ::= 0xaa;;
        sprintf_ids "SidDuzzIt %s" [Str "2.1"];;
        RETURN 1
      END
    END;;
    IF (p.[8] == 0x2c) &&
       ((u32_at p (0xb)) == 0xA9600130)
    THEN
      initaddr ::= loadaddr + 0;;
      playaddr ::= loadaddr + 6;;
      strcpy_ids "Laxity";;
      strcat_ids " v3";;
      RETURN 1
    END;;
    IF (p.[0x08] == 0xa9) &&
       (p.[0x09] == 0x00) &&
       (p.[0x0a] == 0x2c) &&
       (p.[0x11] == 0xa2) &&
       (((u32_at p (0x0d)) == 0x38704430) || ((u32_at p (0x0d)) == 0x3e704A30) || ((u32_at p (0x0d)) == 0x3a704630) || ((u32_at p (0x0d)) == 0x4A705630) || ((u32_at p (0x0d)) == 0x30703c30))
    THEN
      initaddr ::= loadaddr + 0;;
      playaddr ::= loadaddr + 6;;
      strcpy_ids "SidFactory";;
      strcat_ids " II";;
      strcat_ids " v1";;
      RETURN 1
    END;;
    IF (p.[0x0b] == 0xa9) &&
       (p.[0x0c] == 0x00) &&
       (p.[0x0d] == 0x2c) &&
       (p.[0x14] == 0xa2) &&
       (((u32_at p (0x10)) == 0x38704430) || ((u32_at p (0x10)) == 0x46705230) || ((u32_at p (0x10)) == 0x49705530))
    THEN
      initaddr ::= loadaddr + 0;;
      playaddr ::= loadaddr + 9;;
      strcpy_ids "SidFactory";;
      strcat_ids " II";;
      strcat_ids " v2";;
      RETURN 1
    END;;
    IF (p.[0x08] == 0xa9) &&
       (p.[0x09] == 0x00) &&
       (p.[0x0a] == 0x24) &&
       (((u32_at p (0x0c)) == 0x1c702830) || ((u32_at p (0x0c)) == 0x1A702630))
    THEN
      initaddr ::= loadaddr + 0;;
      playaddr ::= loadaddr + 6;;
      strcpy_ids "SidFactory";;
      strcat_ids " II";;
      strcat_ids " v3";;
      RETURN 1
    END;;
    IF (p.[0x0b] == 0xa9) &&
       (p.[0x0c] == 0x00) &&
       (p.[0x0d] == 0x8d) &&
       (p.[0x10] == 0x2c) &&
       (p.[0x17] == 0xa2) &&
       ((u32_at p (0x13)) == 0x38704430)
    THEN
      initaddr ::= loadaddr + 0;;
      playaddr ::= loadaddr + 9;;
      strcpy_ids "SidFactory";;
      strcat_ids " II";;
      strcat_ids " v4";;
      RETURN 1
    END
  END;;
  RETURN 0.

(** [Chk_LaxityV2], p2s.c line 1614. *)
Definition Chk_LaxityV2 : stmt :=
  IF fsiz < 0x200
  THEN
    RETURN 0
  END;;
  FOR k ::= 0 ; k <= 0x100 ; k ::= k + 0x100 DO
    IF (p.[2 + k] == 0x4c) &&
       (p.[5 + k] == 0x4c) &&
       ((u32_at p (0xa + k)) == 0x2CD4188D)
    THEN
      initaddr ::= loadaddr + 0 + k;;
      playaddr ::= loadaddr + 6 + k;;
      strcpy_ids "Laxity";;
      strcat_ids " v2";;
      RETURN 1
    END
  DONE;;
  RETURN 0.

(** [Chk_HubbardV2], p2s.c line 1632. *)
Definition Chk_HubbardV2 : stmt :=
  IF fsiz < 0x200
  THEN
    RETURN 0
  END;;
  i ::= 0;;
  IF (p.[0x02] == 0x4c) &&
     (p.[0x05] == 0x4c) &&
     (p.[0x08] == 0x4c) &&
     (p.[0x0b] == 0x4c) &&
     (p.[0x0e] == 0x4c) &&
     (p.[0x11] == 0x4c)
  THEN
    FOR j ::= 0x14 ; j < 0x30 ; j ::= j + 1 DO
      IF (p.[0 + j] == 0x2c) &&
         (p.[3 + j] == 0x30) &&
         (p.[5 + j] == 0x50)
      THEN
        initaddr ::= loadaddr + 0;;
        playaddr ::= loadaddr + 0x12;;
        strcpy_ids "Hubbard";;
        strcat_ids " v2";;
        i ::= 1;;
        break
      END
    DONE
  END;;
  RETURN i.

(** [Chk_HubbardV1], p2s.c line 1660. *)
Definition Chk_HubbardV1 : stmt :=
  IF fsiz < 0x200
  THEN
    RETURN 0
  END;;
  i ::= 0;;
  FOR k ::= 0 ; k <= 0x100 ; k ::= k + 1 DO
    IF (p.[0x02 + k] == 0x4c) &&
       (p.[0x05 + k] == 0x4c)
    THEN
      FOR j ::= k + 8 ; j < (k + 0x20) ; j ::= j + 1 DO
        IF p.[0 + j] == 0x60
        THEN
          break
        END;;
        IF (p.[0 + j] == 0x2c) &&
           (p.[3 + j] == 0x30) &&
           (p.[5 + j] == 0x50)
        THEN
          initaddr ::= loadaddr + 0 + k;;
          playaddr ::= loadaddr + 6 + k;;
          strcpy_ids "Hubbard";;
          strcat_ids " v1";;
          i ::= 1;;
          break
        END
      DONE
    END
  DONE;;
  RETURN i.

(** [Chk_HubbardV3], p2s.c line 1689. *)
Definition Chk_HubbardV3 : stmt :=
  IF fsiz < 0x600
  THEN
    RETURN 0
  END;;
  IF (p.[0x41] == 0xa9) &&
     (p.[0x46] == 0x2c) &&
     (p.[0x561] == 0xa9) &&
     (p.[0x562] == 0x40) &&
     (p.[0x566] == 0x60) &&
     ((u32_at p (0x49)) == 0x40502A30) &&
     ((u32_at p (0x55)) == 0x9DD40499)
  THEN
    initaddr ::= loadaddr + 0x55f;;
    playaddr ::= loadaddr + 0x3f;;
    strcpy_ids "Hubbard";;
    strcat_ids " v3";;
    RETURN 1
  END;;
  RETURN 0.

(** [Chk_HubbardV4], p2s.c line 1708. *)
Definition Chk_HubbardV4 : stmt :=
  IF fsiz < 0x700
  THEN
    RETURN 0
  END;;
  i ::= 0;;
  FOR k ::= 0 ; k <= 0x100 ; k ::= k + 1 DO
    IF (p.[0x00 + k] == 0xa2) &&
       (p.[0x01 + k] == 0x02) &&
       (p.[0x02 + k] == 0xce) &&
       (p.[0x05 + k] == 0x10) &&
       (p.[0x06 + k] == 0x06) &&
       (p.[0x07 + k] == 0xad) &&
       (p.[0x2b + k] == 0x30) &&
       (p.[0x2d + k] == 0x4c) &&
       (p.[0x30 + k] == 0x4c)
    THEN
      i ::= k;;
      break
    END
  DONE;;
  IF i > 0
  THEN
    j ::= AdjustJ (p.[k + 3] .| (p.[k + 4] << 8)) loadaddr;;
    IF (! (CheckJ j fsiz))
    THEN
      j ::= j - 0xf0;;
      FOR k ::= 0 ; k <= 0x100 ; k ::= k + 1 DO
        IF (p.[j + k + 0x00] == 0xad) &&
           (p.[j + k + 0x03] == 0xd0) &&
           (((p.[j + k + 0x05] == 0xee) && (p.[j + k + 0x08] == 0xee)) || ((p.[j + k + 0x05] == 0xe6) && (p.[j + k + 0x07] == 0xe6)))
        THEN
          playaddr ::= loadaddr + j + k - 2;;
          break
        END
      DONE;;
      FOR skip ; k <= 0x100 ; k ::= k + 1 DO
        IF (p.[j + k + 0x00] == 0xaa) &&
           (p.[j + k + 0x01] == 0xbd) &&
           (p.[j + k + 0x06] == 0xbd) &&
           (p.[j + k + 0x04] == 0x85) &&
           (p.[j + k + 0x09] == 0x85) &&
           (p.[j + k + 0x18] == 0xa2)
        THEN
          initaddr ::= loadaddr + j + k - 2;;
          break
        END
      DONE;;
      IF k == 0x101
      THEN
        initaddr ::= loadaddr;;
        playaddr ::= initaddr + 3;;
        RETURN 0
      ELSE
        IF i >= 6
        THEN
          k ::= 2;;
          p.[k] ::= 0x4c;; k ::= k + 1;;
          p.[k] ::= initaddr .& 0xff;; k ::= k + 1;;
          p.[k] ::= initaddr >> 8;; k ::= k + 1;;
          p.[k] ::= 0x4c;; k ::= k + 1;;
          p.[k] ::= playaddr .& 0xff;; k ::= k + 1;;
          p.[k] ::= playaddr >> 8;; k ::= k + 1;;
          initaddr ::= loadaddr;;
          playaddr ::= initaddr + 3
        END;;
        strcpy_ids "Hubbard";;
        strcat_ids " v4";;
        RETURN 1
      END
    END
  END;;
  RETURN 0.

(** [Chk_HubbardV5], p2s.c line 1789. *)
Definition Chk_HubbardV5 : stmt :=
  IF fsiz < 0x700
  THEN
    RETURN 0
  END;;
  i ::= 0;;
  FOR k ::= 0 ; k <= 0x100 ; k ::= k + 1 DO
    IF (p.[0x00 + k] == 0xa2) &&
       (p.[0x01 + k] == 0x02) &&
       (p.[0x02 + k] == 0xce) &&
       (p.[0x05 + k] == 0x10) &&
       (p.[0x06 + k] == 0x06) &&
       (p.[0x07 + k] == 0xad) &&
       (p.[0x2e + k] == 0x30) &&
       (p.[0x30 + k] == 0x4c) &&
       (p.[0x33 + k] == 0x4c)
    THEN
      i ::= k;;
      break
    END
  DONE;;
  IF i > 0
  THEN
    j ::= AdjustJ (p.[k + 3] .| (p.[k + 4] << 8)) loadaddr;;
    IF (! (CheckJ j fsiz))
    THEN
      j ::= j - 0xf0;;
      FOR k ::= 0 ; k <= 0x100 ; k ::= k + 1 DO
        IF (p.[j + k + 0x00] == 0xad) &&
           (p.[j + k + 0x03] == 0xc9) &&
           (p.[j + k + 0x07] == 0xc9) &&
           (p.[j + k + 0x0b] == 0xee) &&
           (p.[j + k + 0x0e] == 0xee) &&
           (p.[j + k + 0x11] == 0xee)
        THEN
          playaddr ::= loadaddr + j + k - 2;;
          break
        END
      DONE;;
      FOR skip ; k <= 0x100 ; k ::= k + 1 DO
        IF (p.[j + k + 0x00] == 0x48) &&
           (p.[j + k + 0x01] == 0xa9) &&
           (p.[j + k + 0x02] == 0x01) &&
           (p.[j + k + 0x03] == 0x8d) &&
           (p.[j + k + 0x07] == 0xaa) &&
           (p.[j + k + 0x0b] == 0x85) &&
           (p.[j + k + 0x1f] == 0xa2)
        THEN
          initaddr ::= loadaddr + j + k - 2;;
          break
        END
      DONE;;
      IF k == 0x101
      THEN
        initaddr ::= loadaddr;;
        playaddr ::= initaddr + 3;;
        RETURN 0
      ELSE
        IF i >= 6
        THEN
          k ::= 2;;
          p.[k] ::= 0x4c;; k ::= k + 1;;
          p.[k] ::= initaddr .& 0xff;; k ::= k + 1;;
          p.[k] ::= initaddr >> 8;; k ::= k + 1;;
          p.[k] ::= 0x4c;; k ::= k + 1;;
          p.[k] ::= playaddr .& 0xff;; k ::= k + 1;;
          p.[k] ::= playaddr >> 8;; k ::= k + 1;;
          initaddr ::= loadaddr;;
          playaddr ::= initaddr + 3
        END;;
        strcpy_ids "Hubbard";;
        strcat_ids " v5";;
        RETURN 1
      END
    END
  END;;
  RETURN 0.

(** [Chk_MikeLSD], p2s.c line 1873. *)
Definition Chk_MikeLSD : stmt :=
  IF fsiz < 0x200
  THEN
    RETURN 0
  END;;
  IF (p.[0x02] == 0x4c) &&
     (p.[0x05] == 0x4c) &&
     (p.[0x08] == 0x4c) &&
     (p.[0x0b] == 0x4c) &&
     (p.[0x0e] == 0x4c) &&
     ((u32_at p (0x15)) == 0xA90001C9) &&
     ((u32_at p (0x61)) == 0x07E93898)
  THEN
    initaddr ::= loadaddr + 6;;
    playaddr ::= loadaddr + 3;;
    strcpy_ids "Mike/LSD";;
    strcat_ids " v1";;
    RETURN 1
  END;;
  IF (p.[0x02] == 0x4c) &&
     (p.[0x05] == 0x4c) &&
     (p.[0x08] == 0xa9) &&
     (p.[0x0b] == 0x4c) &&
     (p.[0x11] == 0x4c) &&
     ((u32_at p (0x14)) == 0xA96080A9) &&
     ((u32_at p (0xfe)) == 0x07E9388A)
  THEN
    initaddr ::= loadaddr + 6;;
    playaddr ::= loadaddr + 3;;
    strcpy_ids "Mike/LSD";;
    strcat_ids " v2";;
    RETURN 1
  END;;
  RETURN 0.

(** [Chk_Comptech], p2s.c line 1905. *)
Definition Chk_Comptech : stmt :=
  IF fsiz < 0x200
  THEN
    RETURN 0
  END;;
  IF (p.[2] == 0x4c) &&
     (p.[5] == 0x8d) &&
     (p.[8] == 0x60)
  THEN
    j ::= AdjustJ (p.[3] .| (p.[4] << 8)) loadaddr;;
    IF (! (CheckJ j fsiz))
    THEN
      IF (p.[j] == 0xad) &&
         ((u32_at p (j + 0x3)) == 0xF6F0FFC9)
      THEN
        initaddr ::= loadaddr + 3;;
        playaddr ::= loadaddr + 0;;
        strcpy_ids "Comptech 2.x/LoS";;
        RETURN 1
      END
    END
  END;;
  RETURN 0.

(** [Chk_SoundMaker], p2s.c line 1928. *)
Definition Chk_SoundMaker : stmt :=
  IF fsiz < 0x200
  THEN
    RETURN 0
  END;;
  IF (p.[2] == 0x4c) &&
     (p.[5] != 0x4c) &&
     (p.[8] == 0x4c)
  THEN
    j ::= AdjustJ (p.[3] .| (p.[4] << 8)) loadaddr;;
    IF (! (CheckJ j fsiz))
    THEN
      IF (p.[j] == 0xaa) &&
         (p.[j + 1] == 0xbd) &&
         (p.[j + 4] == 0x8d) &&
         (p.[j + 7] == 0x8a)
      THEN
        initaddr ::= loadaddr + 0;;
        playaddr ::= loadaddr + 6;;
        strcpy_ids "SoundMaker";;
        strcat_ids " v3/UA";;
        RETURN 1
      END
    END
  END;;
  RETURN 0.

(** [Chk_Electrosound], p2s.c line 1953. *)
Definition Chk_Electrosound : stmt :=
  IF fsiz < 0xc00
  THEN
    RETURN 0
  END;;
  IF ((u32_at p (0x02)) == 0x05D0B0C9) &&
     ((u32_at p (0x06)) == 0x154C30A9) &&
     ((u32_at p (0x18a)) == 0x0a0a0a0a)
  THEN
    memset p 0xa8a 0 0x278;;
    p.[0xa64] ::= 0x60;;
    p.[0xa7d] ::= 0x60;;
    p.[0xa86] ::= 0x60;;
    k ::= 0xb02;;
    memmove p k aPatchElcSnd (sizeof aPatchElcSnd);;
    p.[0xb05] ::= (loadaddr >> 8) + 5;;
    p.[0xb0d] ::= (loadaddr >> 8) + 0xb;;
    initaddr ::= loadaddr + 0xb00;;
    playaddr ::= loadaddr + 0xa65;;
    psidh.[P_TIMING] ::= 1;;
    strcpy_ids "Electrosound";;
    RETURN 1
  END;;
  RETURN 0.

(** [Chk_PollyTracker], p2s.c line 1977. *)
Definition Chk_PollyTracker : stmt :=
  IF fsiz < 0x400
  THEN
    RETURN 0
  END;;
  IF (loadaddr >= 0x0800) &&
     (loadaddr <= 0x080d) &&
     ((u32_at p ((0 - loadaddr) + 2 + 0x819)) == 0x8D02A6AD) &&
     ((u32_at p ((0 - loadaddr) + 2 + 0x81d)) == 0x38A9080C) &&
     ((u32_at p ((0 - loadaddr) + 2 + 0x89f)) == 0x4a4a4a4a)
  THEN
    psidh.[P_MARKER] ::= 82;;
    initaddr ::= 0x80d;;
    playaddr ::= 0;;
    psidh.[P_FREEPAGE] ::= 4;;
    psidh.[P_FREEPMAX] ::= 4;;
    k ::= 0x80e - loadaddr + 2;;
    memmove p k aPatchPolly1 (sizeof aPatchPolly1);;
    k ::= 0x873 - loadaddr + 2;;
    memmove p k aPatchPolly2 (sizeof aPatchPolly2);;
    k ::= 0x8b7 - loadaddr + 2;;
    p.[k] ::= 0xa9;; k ::= k + 1;;
    k ::= 0x8c8 - loadaddr + 2;;
    memset p k 0xea 3;;
    k ::= 0x9a4 - loadaddr + 2;;
    memset p k 0xea 3;;
    strcpy_ids "PollyTracker";;
    RETURN 1
  END;;
  RETURN 0.

(** [Chk_Polyanna], p2s.c line 2007. *)
Definition Chk_Polyanna : stmt :=
  IF fsiz < 0x1000
  THEN
    RETURN 0
  END;;
  IF (loadaddr >= 0x0800) &&
     (loadaddr <= 0x080d) &&
     ((u32_at p ((0 - loadaddr) + 2 + 0x80d)) == 0xFFA2D878) &&
     ((u32_at p ((0 - loadaddr) + 2 + 0x81b)) == 0xD02005AD) &&
     ((u32_at p ((0 - loadaddr) + 2 + 0x100c)) == 0xA9FFFB8D)
  THEN
    psidh.[P_MARKER] ::= 82;;
    initaddr ::= 0x154d;;
    playaddr ::= 0;;
    k ::= initaddr - loadaddr + 2;;
    memmove p k aPatchPolyAn (sizeof aPatchPolyAn);;
    strcpy_ids "Polyanna";;
    RETURN 1
  END;;
  RETURN 0.

(** [Chk_MasterComp], p2s.c line 2027. *)
Definition Chk_MasterComp : stmt :=
  IF fsiz < 0x400
  THEN
    RETURN 0
  END;;
  j ::= (-1);;
  FOR k ::= 0 ; k < (fsiz - 0x300) ; k ::= k + 1 DO
    IF ((u32_at p (k + 0x02)) == 0x29D404AD) &&
       ((u32_at p (k + 0x06)) == 0xD4048DFE) &&
       ((u32_at p (k + 0x12)) == 0x29D412AD) &&
       (((u32_at p (k + 0x16)) .& 0xff00ffff) == 0xD4008DFE) &&
       ((u16_at p (k + 0x9c)) == (to_u16 (k + loadaddr)))
    THEN
      j ::= k;;
      break
    END
  DONE;;
  IF j != (-1)
  THEN
    pointer_p ::= pointer_p + j;;
    fsiz ::= fsiz - j;;
    loadaddr ::= loadaddr + j;;
    initaddr ::= loadaddr - 0x0d;;
    playaddr ::= loadaddr - 0x06;;
    extrabytes.[0] ::= initaddr .& 0xff;;
    extrabytes.[1] ::= initaddr >> 8;;
    memmove extrabytes 2 aPatchMastCm (sizeof aPatchMastCm);;
    extrabytes.[5] ::= (loadaddr - 0x05) .& 0xff;;
    extrabytes.[6] ::= (loadaddr - 0x05) >> 8;;
    p.[0] ::= 0x60;;
    p.[1] ::= 0x00;;
    extra ::= 13;;
    j ::= 0;;
    psidh.[P_TIMING] ::= 1;;
    k ::= j + 0x18;;
    IF p.[k] == 0x04
    THEN
      p.[k] ::= 0x12
    END;;
    k ::= j + 0x1a;;
    memset p k 0x60 3;;
    k ::= j + 0x36;;
    memset p k 0x60 3;;
    k ::= j + 0x85;;
    p.[k] ::= 0xea;;
    k ::= j + 0x90;;
    memset p k 0xea 0x0b;;
    p.[k] ::= 0xa9;; k ::= k + 1;;
    p.[k] ::= 0x00;; k ::= k + 1;;
    p.[k] ::= 0x8d;; k ::= k + 1;;
    p.[k] ::= (loadaddr - 0x05) .& 0xff;; k ::= k + 1;;
    p.[k] ::= (loadaddr - 0x05) >> 8;; k ::= k + 1;;
    k ::= j + 0x24c;;
    memset p k 0x60 3;;
    k ::= j + 0x25a;;
    p.[k] ::= 0xea;; k ::= k + 1;;
    p.[k] ::= 0x4c;; k ::= k + 1;;
    p.[k] ::= (loadaddr + 0x26b) .& 0xff;; k ::= k + 1;;
    p.[k] ::= (loadaddr + 0x26b) >> 8;; k ::= k + 1;;
    k ::= j + 0x265;;
    p.[k] ::= 0xea;;
    k ::= j + 0x289;;
    memset p k 0xea 0x0c;;
    strcpy_ids "Master Composer";;
    RETURN 1
  END;;
  RETURN 0.

(** [Chk_Ubik], p2s.c line 2095. *)
Definition Chk_Ubik : stmt :=
  IF fsiz < 0x400
  THEN
    RETURN 0
  END;;
  j ::= (-1);;
  FOR k ::= 0x68 ; k < (fsiz - 0x300) ; k ::= k + 1 DO
    IF (p.[k] == 0xad) &&
       ((u32_at p (k + 0x03)) == 0x22D00330) &&
       ((u32_at p (k + 0x07)) == 0x7F291860) &&
       ((u32_at p (k + 0x30)) == 0xA8306918)
    THEN
      j ::= k;;
      break
    END
  DONE;;
  IF j != (-1)
  THEN
    k ::= j - 0x66;;
    initaddr ::= k + loadaddr - 2;;
    playaddr ::= initaddr + 3;;
    memset p k 0 0x66;;
    memmove p k aPatchUbiksM (sizeof aPatchUbiksM);;
    k ::= k + 1;;
    p.[k] ::= (playaddr + 3) .& 0xff;; k ::= k + 1;;
    p.[k] ::= (playaddr + 3) >> 8;; k ::= k + 1;;
    k ::= k + 1;;
    p.[k] ::= (playaddr + 22) .& 0xff;; k ::= k + 1;;
    p.[k] ::= (playaddr + 22) >> 8;; k ::= k + 1;;
    k ::= k + 4;;
    p.[k] ::= p.[j + 1];; k ::= k + 1;;
    p.[k] ::= p.[j + 2];; k ::= k + 1;;
    k ::= k + 21;;
    p.[k] ::= (j + loadaddr - 2) .& 0xff;; k ::= k + 1;;
    p.[k] ::= (j + loadaddr - 2) >> 8;; k ::= k + 1;;
    psidh.[P_SUBTUNES] ::= 9;;
    strcpy_ids "Ubik's Music";;
    RETURN 1
  END;;
  RETURN 0.

(** [Chk_AMP1], p2s.c line 2136. *)
Definition Chk_AMP1 : stmt :=
  IF fsiz < 0x600
  THEN
    RETURN 0
  END;;
  j ::= (-1);;
  FOR k ::= 0x300 ; k < 0x400 ; k ::= k + 1 DO
    IF ((u32_at p (k)) == 0x0BB015E0) &&
       (p.[k + 0x4] == 0xad) &&
       (p.[k + 0x7] == 0x3d) &&
       (p.[k + 0xa] == 0xf0)
    THEN
      playaddr ::= k;;
      j ::= 8;;
      WHILE (j > 0) && (p.[playaddr] != 0x60) DO
        playaddr ::= playaddr - 1;;
        j ::= j - 1
      DONE;;
      IF j > 0
      THEN
        j ::= (-1);;
        FOR skip ; k < 0x400 ; k ::= k + 1 DO
          IF (p.[k] == 0x60) &&
             (p.[k + 1] == 0xa9)
          THEN
            j ::= k + 1;;
            break
          END
        DONE;;
        IF j > 0
        THEN
          playaddr ::= playaddr + 1;;
          playaddr ::= playaddr + (loadaddr - 2);;
          initaddr ::= j;;
          initaddr ::= initaddr + (loadaddr - 2)
        ELSE
          playaddr ::= initaddr + 3
        END
      END;;
      break
    END
  DONE;;
  IF j > 0
  THEN
    strcpy_ids "AMP 1.x";;
    RETURN 1
  END;;
  RETURN 0.

(** [Chk_Boogaloo], p2s.c line 2189. *)
Definition Chk_Boogaloo : stmt :=
  IF fsiz < 0x200
  THEN
    RETURN 0
  END;;
  IF (p.[0x2] == 0x4c) &&
     (p.[0xd] == 0xd4) &&
     ((u32_at p (0x05)) == 0x9DAA0029)
  THEN
    initaddr ::= loadaddr + 3;;
    playaddr ::= loadaddr + 0;;
    strcpy_ids "Boogaloo";;
    RETURN 1
  END;;
  RETURN 0.

(** [Chk_Bjerregaard1], p2s.c line 2204. *)
Definition Chk_Bjerregaard1 : stmt :=
  IF fsiz < 0x200
  THEN
    RETURN 0
  END;;
  j ::= (-1);;
  IF p.[2] == 0x4c
  THEN
    FOR k ::= 0x00 ; k < 0x100 ; k ::= k + 1 DO
      IF (p.[k] == 0xad) &&
         ((u32_at p (k + 3)) == 0xCE600110) &&
         (p.[k + 0x9] == 0x10)
      THEN
        j ::= k;;
        break
      END
    DONE
  END;;
  IF j > 0
  THEN
    initaddr ::= loadaddr - 1;;
    extrabytes.[0] ::= initaddr .& 0xff;;
    extra ::= 1;;
    p.[0] ::= initaddr >> 8;;
    p.[1] ::= 0xaa;;
    j ::= k + loadaddr - 2;;
    IF p.[5] == 0x4c
    THEN
      k ::= p.[6] .| (p.[7] << 8);;
      IF j != k
      THEN
        playaddr ::= j
      END
    ELSE
      playaddr ::= j
    END;;
    strcpy_ids "Bjerregaard";;
    strcat_ids " v1";;
    RETURN 1
  END;;
  RETURN 0.

(** [Chk_Bjerregaard2], p2s.c line 2247. *)
Definition Chk_Bjerregaard2 : stmt :=
  IF fsiz < 0x200
  THEN
    RETURN 0
  END;;
  j ::= (-1);;
  FOR k ::= 0 ; k <= 0xff ; k ::= k + 1 DO
    IF (p.[k + 0x00] == 0x4c) &&
       (p.[k + 0x03] == 0x4c) &&
       (p.[k + 0x06] == 0x4c) &&
       (p.[k + 0x1b] == 0xa9) &&
       ((u32_at p (k + 0x1d)) == 0xA26001D0) &&
       ((u32_at p (k + 0x21)) == 0xA5DDC602)
    THEN
      j ::= k;;
      break
    END
  DONE;;
  IF j > 0
  THEN
    initaddr ::= loadaddr + k - 2;;
    playaddr ::= initaddr + 6;;
    strcpy_ids "Bjerregaard";;
    strcat_ids " v2";;
    RETURN 1
  END;;
  RETURN 0.

(** [Chk_ReflexTrk], p2s.c line 2274. *)
Definition Chk_ReflexTrk : stmt :=
  IF ((fsiz + loadaddr) > 0xc500) &&
     ((fsiz + loadaddr) < 0xd000)
  THEN
    IF ((u32_at p (0xc000 - loadaddr + 2)) == 0x4CC02C4C) &&
       ((u16_at p (0xc004 - loadaddr + 2)) == 0xC016) &&
       ((u32_at p (0xc00a - loadaddr + 2)) == 0xC02C2001)
    THEN
      initaddr ::= 0xc006;;
      playaddr ::= 0;;
      psidh.[P_MARKER] ::= 82;;
      strcpy_ids "ReflexTracker";;
      RETURN 1
    END
  END;;
  RETURN 0.

(** [Chk_FAME], p2s.c line 2292. *)
Definition Chk_FAME : stmt :=
  IF fsiz < 0x300
  THEN
    RETURN 0
  END;;
  j ::= (-1);;
  FOR k ::= 0 ; k < 0x80 ; k ::= k + 1 DO
    IF (p.[k + 0x00] == 0xaa) &&
       (p.[k + 0x01] == 0xbd) &&
       (p.[k + 0x04] == 0x8d) &&
       (p.[k + 0x35] == 0x4c) &&
       (p.[k + 0x38] == 0xa2) &&
       ((u32_at p (k + 0x07)) == 0x50850A8A) &&
       ((u32_at p (k + 0x0b)) == 0x5065180A)
    THEN
      j ::= k;;
      initaddr ::= j + loadaddr - 2;;
      playaddr ::= j + loadaddr - 2 + 0x38;;
      break
    END
  DONE;;
  IF j > 0
  THEN
    strcpy_ids "FAME";;
    strcat_ids " v1";;
    RETURN 1
  END;;
  j ::= (-1);;
  FOR k ::= 0 ; k < 0xff ; k ::= k + 1 DO
    IF (u32_at p (k + 0x00)) == 0xA959A2A8
    THEN
      j ::= k;;
      FOR skip ; k < 0x200 ; k ::= k + 1 DO
        IF ((u32_at p (k + 0x00)) == 0x7D1898C8) &&
           (p.[k + 0x0e] == 0x4c) &&
           (p.[k + 0x11] == 0x4c) &&
           (p.[k + 0x14] == 0xa2)
        THEN
          initaddr ::= j + loadaddr - 2;;
          playaddr ::= k + loadaddr - 2 + 0x14;;
          break
        END
      DONE;;
      IF k == 0x200
      THEN
        j ::= (-1)
      END;;
      break
    END
  DONE;;
  IF j > 0
  THEN
    strcpy_ids "FAME";;
    strcat_ids " v2";;
    RETURN 1
  END;;
  IF (p.[0x2] == 0x4c) &&
     (p.[0x9] == 0x8d) &&
     ((u32_at p (0x05)) == 0x00A959A2)
  THEN
    initaddr ::= loadaddr + 3;;
    playaddr ::= loadaddr + 0;;
    strcpy_ids "FAME";;
    strcat_ids " v3";;
    RETURN 1
  END;;
  RETURN 0.

(** [Chk_20CC], p2s.c line 2359. *)
Definition Chk_20CC : stmt :=
  IF fsiz < 0x300
  THEN
    RETURN 0
  END;;
  j ::= (-1);;
  FOR k ::= 0 ; k <= 0xff ; k ::= k + 1 DO
    IF (p.[k + 0x00] == 0xa9) &&
       (p.[k + 0x02] == 0x30) &&
       (p.[k + 0x04] == 0xf0) &&
       (p.[k + 0x0a] == 0xb9) &&
       (p.[k + 0x10] == 0xb9) &&
       (p.[k + 0x0d] == 0x8d) &&
       (p.[k + 0x13] == 0x8d) &&
       ((u32_at p (k + 0x06)) == 0xa80a0a0a)
    THEN
      j ::= k;;
      break
    END;;
    IF (p.[k + 0x00] == 0xa0) &&
       (p.[k + 0x02] == 0x30) &&
       (p.[k + 0x04] == 0xf0) &&
       (p.[k + 0x06] == 0x88) &&
       (p.[k + 0x07] == 0x98) &&
       (p.[k + 0x0c] == 0xb9) &&
       ((u32_at p (k + 0x08)) == 0xa80a0a0a)
    THEN
      j ::= k;;
      break
    END;;
    IF (p.[k + 0x00] == 0xa0) &&
       (p.[k + 0x02] == 0x30) &&
       (p.[k + 0x04] == 0xf0) &&
       (p.[k + 0x06] == 0xA2) &&
       (p.[k + 0x07] == 0x17) &&
       (p.[k + 0x15] == 0x8E) &&
       (p.[k + 0x22] == 0xb9)
    THEN
      j ::= k;;
      break
    END
  DONE;;
  IF j > 0
  THEN
    extra ::= 6;;
    initaddr ::= loadaddr - extra;;
    playaddr ::= j + loadaddr - 2;;
    k ::= 0;;
    extrabytes.[k] ::= initaddr .& 0xff;; k ::= k + 1;;
    extrabytes.[k] ::= initaddr >> 8;; k ::= k + 1;;
    extrabytes.[k] ::= 0xa9;; k ::= k + 1;;
    extrabytes.[k] ::= 0x01;; k ::= k + 1;;
    extrabytes.[k] ::= 0x8d;; k ::= k + 1;;
    extrabytes.[k] ::= (playaddr + 1) .& 0xff;; k ::= k + 1;;
    p.[0] ::= (playaddr + 1) >> 8;;
    p.[1] ::= 0x60;;
    strcpy_ids "20CC";;
    strcat_ids " v1";;
    RETURN 1
  END;;
  IF (p.[2] == 0xa4) &&
     (p.[8] == 0x4c) &&
     ((u32_at p (0x04)) == 0x03F00930) &&
     ((u32_at p (0x0c)) == 0xA260D418)
  THEN
    extra ::= 5;;
    initaddr ::= loadaddr - extra;;
    playaddr ::= loadaddr;;
    k ::= 0;;
    extrabytes.[k] ::= initaddr .& 0xff;; k ::= k + 1;;
    extrabytes.[k] ::= initaddr >> 8;; k ::= k + 1;;
    extrabytes.[k] ::= 0xa9;; k ::= k + 1;;
    extrabytes.[k] ::= 0x01;; k ::= k + 1;;
    extrabytes.[k] ::= 0x85;; k ::= k + 1;;
    p.[0] ::= p.[3];;
    p.[1] ::= 0x60;;
    strcpy_ids "20CC";;
    strcat_ids " v2";;
    RETURN 1
  END;;
  RETURN 0.

(** [Chk_CTExe], p2s.c line 2439. *)
Definition Chk_CTExe : stmt :=
  IF (loadaddr == 0x800) &&
     (fsiz > 0x4000) &&
     ((u32_at p (0x3ee1)) == 0x9AFFA278) &&
     ((u32_at p (0x4001)) == 0x4C4A7D4C) &&
     ((u32_at p (0x40dc)) == 0x4a4a4a4a)
  THEN
    initaddr ::= 0x53A2;;
    playaddr ::= 0x53E2;;
    IF p.[0x4be7] == 0x20
    THEN
      p.[0x4be7] ::= 0x2c
    END;;
    strcpy_ids "Cybertracker/EXE";;
    RETURN 1
  END;;
  RETURN 0.

(** [Chk_System6581], p2s.c line 2456. *)
Definition Chk_System6581 : stmt :=
  IF fsiz < 0x200
  THEN
    RETURN 0
  END;;
  j ::= (-1);;
  IF (((u32_at p (0x02)) .& 0x0fffffff) == 0x092CF0AA) &&
     ((u32_at p (0x17)) == 0xD4009DAA) &&
     ((u32_at p (0x22)) == 0x8E01A2F5)
  THEN
    j ::= 7;;
    strcpy_ids "System6581";;
    strcat_ids " v1"
  ELSE
    IF ((u32_at p (0x02)) == 0xC930F0A8) &&
       ((u32_at p (0x06)) == 0x4C35D001) &&
       (((u32_at p (0x43)) .& 0xff1fffff) == 0xD4009DAA) &&
       ((u32_at p (0x4d)) == 0x3898F5D0)
    THEN
      j ::= 7;;
      strcpy_ids "System6581";;
      strcat_ids " v2"
    END
  END;;
  IF j > 0
  THEN
    extra ::= j;;
    initaddr ::= loadaddr - extra;;
    playaddr ::= loadaddr - 2;;
    k ::= 0;;
    extrabytes.[k] ::= initaddr .& 0xff;; k ::= k + 1;;
    extrabytes.[k] ::= initaddr >> 8;; k ::= k + 1;;
    extrabytes.[k] ::= 0x18;; k ::= k + 1;;
    extrabytes.[k] ::= 0x69;; k ::= k + 1;;
    extrabytes.[k] ::= 0x02;; k ::= k + 1;;
    extrabytes.[k] ::= 0xd0;; k ::= k + 1;;
    extrabytes.[k] ::= 0x02;; k ::= k + 1;;
    p.[0] ::= 0xa9;;
    p.[1] ::= 0x01;;
    RETURN 1
  END;;
  RETURN 0.

(** [Chk_MattGray], p2s.c line 2495. *)
Definition Chk_MattGray : stmt :=
  IF fsiz < 0x200
  THEN
    RETURN 0
  END;;
  IF (p.[0x04] == 0xa2) &&
     (p.[0x05] == 0x00) &&
     (p.[0x06] == 0x20) &&
     (p.[0x13] == 0x60) &&
     (p.[0x14] == 0xad) &&
     (p.[0x15] == (loadaddr .& 0xff)) &&
     (p.[0x16] == (loadaddr >> 8)) &&
     (p.[0x1d] == 0xc9) &&
     (p.[0x1e] == 0xab)
  THEN
    extra ::= 6;;
    initaddr ::= loadaddr - extra;;
    playaddr ::= loadaddr + 2;;
    k ::= 0;;
    extrabytes.[k] ::= initaddr .& 0xff;; k ::= k + 1;;
    extrabytes.[k] ::= initaddr >> 8;; k ::= k + 1;;
    extrabytes.[k] ::= 0xa9;; k ::= k + 1;;
    extrabytes.[k] ::= 0x01;; k ::= k + 1;;
    extrabytes.[k] ::= 0x8d;; k ::= k + 1;;
    extrabytes.[k] ::= loadaddr .& 0xff;; k ::= k + 1;;
    p.[0] ::= loadaddr >> 8;;
    p.[1] ::= 0x60;;
    strcpy_ids "Matt Gray";;
    RETURN 1
  END;;
  RETURN 0.

(** [Chk_PowerMus], p2s.c line 2526. *)
Definition Chk_PowerMus : stmt :=
  IF fsiz < 0x200
  THEN
    RETURN 0
  END;;
  IF (p.[0x03] == 0xad) &&
     (p.[0x04] == 0x00) &&
     (p.[0x05] == (loadaddr >> 8)) &&
     ((u32_at p (0x06)) == 0x01103AF0) &&
     ((u32_at p (0x0a)) == 0x01E93860)
  THEN
    extra ::= 7;;
    initaddr ::= loadaddr - extra;;
    playaddr ::= loadaddr + 1;;
    k ::= 0;;
    extrabytes.[k] ::= initaddr .& 0xff;; k ::= k + 1;;
    extrabytes.[k] ::= initaddr >> 8;; k ::= k + 1;;
    extrabytes.[k] ::= 0x18;; k ::= k + 1;;
    extrabytes.[k] ::= 0x69;; k ::= k + 1;;
    extrabytes.[k] ::= 0x01;; k ::= k + 1;;
    extrabytes.[k] ::= 0x8d;; k ::= k + 1;;
    extrabytes.[k] ::= loadaddr .& 0xff;; k ::= k + 1;;
    p.[0] ::= loadaddr >> 8;;
    p.[1] ::= 0x60;;
    strcpy_ids "Power Music";;
    RETURN 1
  END;;
  RETURN 0.

(** [Chk_GRGTiny2], p2s.c line 2554. *)
Definition Chk_GRGTiny2 : stmt :=
  IF fsiz < 0x100
  THEN
    RETURN 0
  END;;
  j ::= 0;;
  FOR k ::= 0 ; k < (fsiz - 0x20) ; k ::= k + 1 DO
    IF (p.[k] == 0xa2) &&
       (p.[k + 1] == 0x0e) &&
       (p.[k + 2] == 0x86)
    THEN
      playaddr ::= k + loadaddr - 2;;
      j ::= j .| 1
    END;;
    IF (p.[k] == 0xa9) &&
       (p.[k + 1] == 0x60)
    THEN
      IF ((p.[k + 2] == 0x8d) && (p.[k + 5] == 0xa2)) || ((p.[k + 2] == 0x85) && (p.[k + 4] == 0xa2))
      THEN
        initaddr ::= k + loadaddr - 2;;
        FOR i ::= k - 4 ; i > (k - 0x20) ; i ::= i - 1 DO
          IF ((u32_at p (i)) .& 0xffffffac) == 0xD002A6Ac
          THEN
            initaddr ::= i + loadaddr - 2;;
            break
          END
        DONE;;
        j ::= j .| 2
      END
    END;;
    IF j == 3
    THEN
      break
    END
  DONE;;
  IF j == 3
  THEN
    strcpy_ids "GRG Tiny2";;
    RETURN 1
  END;;
  initaddr ::= loadaddr;;
  playaddr ::= initaddr + 3;;
  RETURN 0.

(** [Chk_GRGTiny4], p2s.c line 2602. *)
Definition Chk_GRGTiny4 : stmt :=
  IF fsiz < 0x100
  THEN
    RETURN 0
  END;;
  j ::= 0;;
  FOR k ::= 0 ; k < (fsiz - 0x20) ; k ::= k + 1 DO
    IF (p.[k] == 0xa2) &&
       (p.[k + 1] == 0x0e) &&
       (p.[k + 2] == 0xb5) &&
       (p.[k + 4] == 0xf0) &&
       (p.[k + 6] == 0xd6) &&
       (p.[k + 8] == 0xd0)
    THEN
      playaddr ::= k + loadaddr - 2;;
      j ::= j .| 1
    END;;
    IF (p.[k] == 0xa2) &&
       (p.[k + 1] == 0x0e) &&
       (p.[k + 2] == 0xb4) &&
       (p.[k + 4] == 0xb5) &&
       (p.[k + 6] == 0x10) &&
       (p.[k + 8] == 0xa5)
    THEN
      playaddr ::= k + loadaddr - 2;;
      j ::= j .| 1
    END;;
    IF (p.[k] == 0xa9) &&
       (p.[k + 1] == 0x00) &&
       (p.[k + 2] == 0xa2) &&
       ((p.[k + 3] == 0x14) || (p.[k + 3] == 0x16)) &&
       (p.[k + 6] == 0xd4)
    THEN
      initaddr ::= k + loadaddr - 2;;
      j ::= j .| 2
    END;;
    IF j == 3
    THEN
      break
    END
  DONE;;
  IF j == 3
  THEN
    strcpy_ids "GRG Tiny4";;
    RETURN 1
  END;;
  initaddr ::= loadaddr;;
  playaddr ::= initaddr + 3;;
  RETURN 0.

(** [Chk_Yip], p2s.c line 2655. *)
Definition Chk_Yip : stmt :=
  IF fsiz < 0x200
  THEN
    RETURN 0
  END;;
  j ::= 0;;
  FOR k ::= 0 ; k < 0x4f ; k ::= k + 1 DO
    IF (p.[k] == 0xa9) &&
       (p.[k + 0x01] == 0x01) &&
       (p.[k + 0x02] == 0x8d) &&
       (p.[k + 0x28] == 0xa9) &&
       (p.[k + 0x2e] == 0xad) &&
       (p.[k + 0x31] == 0xd0) &&
       (p.[k + 0x32] == 0x20) &&
       (p.[k + 0x33] == 0x60)
    THEN
      j ::= 1;;
      initaddr ::= k + loadaddr - 2;;
      playaddr ::= initaddr + 0x2e;;
      break
    END
  DONE;;
  IF j == 1
  THEN
    strcpy_ids "Yip Megasound"
  END;;
  RETURN j.

(** [Chk_TFX1], p2s.c line 2684. *)
Definition Chk_TFX1 : stmt :=
  IF fsiz < 0x200
  THEN
    RETURN 0
  END;;
  IF (p.[0x102] == 0x4c) &&
     (p.[0x105] == 0x4c) &&
     (p.[0x10e] == 0xa8) &&
     (p.[0x10f] == 0xb9) &&
     ((u32_at p (0x108)) == 0x8d0a0a0a)
  THEN
    initaddr ::= loadaddr + 0x106;;
    playaddr ::= loadaddr + 0x100;;
    strcpy_ids "TFX 1.0";;
    RETURN 1
  END;;
  RETURN 0.

(** [Chk_Griff1], p2s.c line 2702. *)
Definition Chk_Griff1 : stmt :=
  IF fsiz < 0x200
  THEN
    RETURN 0
  END;;
  IF ((u32_at p (0x48 + 0x02)) == 0x00A900A2) &&
     ((u32_at p (0x4E + 0x02)) == 0x033C9DD4) &&
     ((u32_at p (0x92 + 0x02)) == 0x6003808D) &&
     ((u32_at p (0xe0 + 0x02)) == 0xF0039CAD)
  THEN
    k ::= 2;;
    p.[k] ::= 0x4c;; k ::= k + 1;;
    p.[k] ::= (loadaddr + 0x47) .& 0xff;; k ::= k + 1;;
    p.[k] ::= (loadaddr + 0x47) >> 8;; k ::= k + 1;;
    p.[k] ::= 0x4c;; k ::= k + 1;;
    p.[k] ::= (loadaddr + 0xe0) .& 0xff;; k ::= k + 1;;
    p.[k] ::= (loadaddr + 0xe0) >> 8;; k ::= k + 1;;
    p.[0x47 + 2] ::= 0xa8;;
    initaddr ::= loadaddr;;
    playaddr ::= loadaddr + 3;;
    strcpy_ids "Griff";;
    RETURN 1
  END;;
  RETURN 0.

(** [Chk_Griff2], p2s.c line 2727. *)
Definition Chk_Griff2 : stmt :=
  IF fsiz < 0x200
  THEN
    RETURN 0
  END;;
  IF (p.[2] == 0x4c) &&
     ((u32_at p (0x00 + 0x05)) == 0xF003A8AD) &&
     ((u32_at p (0x04 + 0x05)) == 0x50AD6001) &&
     ((u32_at p (0x08 + 0x05)) == 0xD4188D03) &&
     ((u32_at p (0x0C + 0x05)) == 0x8D0351AD)
  THEN
    initaddr ::= loadaddr - 1;;
    extrabytes.[0] ::= initaddr .& 0xff;;
    extra ::= 1;;
    p.[0] ::= initaddr >> 8;;
    p.[1] ::= 0xa8;;
    strcpy_ids "Griff";;
    strcat_ids "/LightVoices";;
    RETURN 1
  END;;
  RETURN 0.

(** [Chk_Ariston], p2s.c line 2749. *)
Definition Chk_Ariston : stmt :=
  IF fsiz < 0x200
  THEN
    RETURN 0
  END;;
  j ::= (-1);;
  FOR k ::= 0 ; k < 5 ; k ::= k + 1 DO
    IF (p.[k + 0x03] == 0xad) &&
       ((p.[k + 0x04] .| (p.[k + 0x05] << 8)) == (loadaddr + k)) &&
       (p.[k + 0x06] == 0xd0) &&
       (p.[k + 0x07] == 0x09) &&
       (p.[k + 0x08] == 0x8d) &&
       (p.[k + 0x0b] == 0x20) &&
       (p.[k + 0x0e] == 0x4c) &&
       (p.[k + 0x0d] == p.[k + 0x10])
    THEN
      j ::= k;;
      break
    END;;
    IF (p.[k + 0x03] == 0xad) &&
       ((p.[k + 0x04] .| (p.[k + 0x05] << 8)) == (loadaddr + k)) &&
       (p.[k + 0x06] == 0xc9) &&
       (p.[k + 0x07] == 0xff) &&
       (p.[k + 0x08] == 0xf0) &&
       (p.[k + 0x09] == 0x3c) &&
       (p.[k + 0x17] == 0x20) &&
       (p.[k + 0x1a] == 0x4c) &&
       (p.[k + 0x1c] == p.[k + 0x19])
    THEN
      j ::= k;;
      break
    END
  DONE;;
  IF j >= 0
  THEN
    playaddr ::= loadaddr + k + 1;;
    initaddr ::= loadaddr - 6;;
    extrabytes.[0] ::= initaddr .& 0xff;;
    extrabytes.[1] ::= initaddr >> 8;;
    extrabytes.[2] ::= 0xaa;;
    extrabytes.[3] ::= 0xe8;;
    extrabytes.[4] ::= 0x8e;;
    extrabytes.[5] ::= p.[k + 0x04];;
    extra ::= 6;;
    p.[0] ::= p.[k + 0x05];;
    p.[1] ::= 0x60;;
    strcpy_ids "Ariston";;
    RETURN 1
  END;;
  RETURN 0.

(** [Chk_Winterberg], p2s.c line 2803. *)
Definition Chk_Winterberg : stmt :=
  IF fsiz < 0x200
  THEN
    RETURN 0
  END;;
  j ::= (-1);;
  FOR i ::= 2 ; i < 0x30 ; i ::= i + 1 DO
    IF ((u32_at p (i)) == 0x9D8A00A2) &&
       ((u16_at p (0x04 + i)) == (loadaddr .& 0xff00)) &&
       ((u32_at p (0x06 + i)) == 0xD02AE0E8) &&
       ((u32_at p (0x37 + i)) == 0x4C03F000)
    THEN
      j ::= i;;
      break
    END
  DONE;;
  IF j >= 0
  THEN
    initaddr ::= loadaddr + i - 2;;
    playaddr ::= initaddr + 0x30;;
    psidh.[P_TIMING] ::= 1;;
    j ::= i + 0x10;;
    memset p j 0xea 10;;
    p.[j + 0] ::= 0xa9;;
    p.[j + 1] ::= 0x25;;
    p.[j + 2] ::= 0x8d;;
    p.[j + 3] ::= 0x04;;
    p.[j + 4] ::= 0xdc;;
    p.[0x143 + i] ::= 0x60;;
    strcpy_ids "Winterberg";;
    RETURN 1
  END;;
  RETURN 0.

(** [Chk_Jensen], p2s.c line 2838. *)
Definition Chk_Jensen : stmt :=
  IF fsiz < 0x800
  THEN
    RETURN 0
  END;;
  k ::= (-1);;
  FOR i ::= 0 ; i < 0x10 ; i ::= i + 1 DO
    IF (p.[0x0e + i] == 0x4c) &&
       (p.[0x11 + i] == 0x4c) &&
       (p.[0x14 + i] == 0x4c) &&
       (p.[0x17 + i] == 0xce) &&
       (p.[0x1a + i] == 0xce) &&
       (p.[0x20 + i] == 0xa9) &&
       ((u32_at p (0x5b + i)) == 0x0AD00F30)
    THEN
      k ::= i;;
      break
    END
  DONE;;
  IF k >= 0
  THEN
    initaddr ::= loadaddr + 0x0f + k;;
    playaddr ::= loadaddr + 0x15 + k;;
    strcpy_ids "Henrik Jensen";;
    RETURN 1
  END;;
  RETURN 0.

(** [Chk_MegaVision], p2s.c line 2866. *)
Definition Chk_MegaVision : stmt :=
  IF fsiz < 0xb00
  THEN
    RETURN 0
  END;;
  IF (p.[0x0f] == 0xad) &&
     (p.[0x10] == 0x2d) &&
     ((u32_at p (0x05c)) == 0xD40099A8) &&
     ((u32_at p (0x060)) == 0xD018C0C8) &&
     ((u32_at p (0x1e0)) == 0x60E93809)
  THEN
    k ::= 2;;
    p.[k] ::= 0xa9;; k ::= k + 1;;
    p.[k] ::= 0x80;; k ::= k + 1;;
    p.[k] ::= 0x8d;; k ::= k + 1;;
    p.[k] ::= 0x28;; k ::= k + 1;;
    p.[k] ::= loadaddr >> 8;; k ::= k + 1;;
    memset p 7 0xea 8;;
    p.[0x26] ::= 0x60;;
    p.[0x36] ::= 0x60;;
    p.[0x904] ::= 0x60;;
    psidh.[P_TIMING] ::= 1;;
    initaddr ::= loadaddr;;
    playaddr ::= loadaddr + 0x3e;;
    strcpy_ids "MegaVision";;
    RETURN 1
  END;;
  RETURN 0.

(** [Chk_SkylineTech_Danne], p2s.c line 2894. *)
Definition Chk_SkylineTech_Danne : stmt :=
  IF fsiz < 0x600
  THEN
    RETURN 0
  END;;
  i ::= loadaddr + 0x5d;;
  i ::= i << 8;;
  i ::= to_s32 (i .| 0xad00004c);;
  IF ((u32_at p (0x02)) == to_u32 i) &&
     ((u32_at p (0x08)) == 0xA903418D) &&
     ((u32_at p (0x4a)) == 0xD4009DAA) &&
     ((u32_at p (0x90)) == 0x0341AD03)
  THEN
    initaddr ::= loadaddr + 3;;
    playaddr ::= loadaddr + 0;;
    strcpy_ids "SkylineTech/Danne";;
    LET lenbuff := fsiz - 2 IN call_assign i (fixsklstack 2 lenbuff);;
    IF i == 0x100
    THEN
      strcat_ids " (fixed)"
    END;;
    RETURN 1
  END;;
  RETURN 0.

(** [Chk_Deflemask], p2s.c line 2920. *)
Definition Chk_Deflemask : stmt :=
  IF fsiz < 0x200
  THEN
    RETURN 0
  END;;
  FOR i ::= 2 ; i <= 8 ; i ::= i + 6 DO
    IF ((u32_at p (0x00c - 6 + i)) == 0x02D013E6) &&
       ((u32_at p (0x010 - 6 + i)) == 0x84AD14E6) &&
       ((u32_at p (0x049 - 6 + i)) == 0xCAD40099)
    THEN
      initaddr ::= loadaddr .& 0xff00;;
      playaddr ::= initaddr + 3;;
      j ::= ((initaddr >> 8) .& 0xff) + 1;;
      IF i == 8
      THEN
        i ::= 2;;
        p.[i] ::= 0x4c;; i ::= i + 1;;
        p.[i] ::= 0x0f;; i ::= i + 1;;
        p.[i] ::= j;; i ::= i + 1;;
        p.[i] ::= 0x4c;; i ::= i + 1;;
        p.[i] ::= 0x17;; i ::= i + 1;;
        p.[i] ::= j;; i ::= i + 1
      ELSE
        extra ::= 6;;
        extrabytes.[0] ::= initaddr .& 0xff;;
        extrabytes.[1] ::= initaddr >> 8;;
        extrabytes.[2] ::= 0x4c;;
        extrabytes.[3] ::= 0x0f;;
        extrabytes.[4] ::= j;;
        extrabytes.[5] ::= 0x4c;;
        p.[0] ::= 0x17;;
        p.[1] ::= j
      END;;
      strcpy_ids "Deflemask v2";;
      RETURN 1
    END
  DONE;;
  FOR i ::= 2 ; i <= 8 ; i ::= i + 6 DO
    IF (((u32_at p (0x006 - 6 + i)) .& 0x00ffffff) == 0x00B518A2) &&
       ((u32_at p (0x00a - 6 + i)) == 0xCAD4009D) &&
       ((u32_at p (0x05d - 6 + i)) == 0xA500FF60)
    THEN
      initaddr ::= loadaddr .& 0xff00;;
      playaddr ::= initaddr + 6;;
      j ::= ((initaddr >> 8) .& 0xff) + 1;;
      IF i == 8
      THEN
        i ::= 2;;
        p.[i] ::= 0x4c;; i ::= i + 1;;
        p.[i] ::= 0x03;; i ::= i + 1;;
        p.[i] ::= j;; i ::= i + 1;;
        p.[i] ::= 0x4c;; i ::= i + 1;;
        p.[i] ::= playaddr .& 0xff;; i ::= i + 1;;
        p.[i] ::= playaddr >> 8;; i ::= i + 1
      ELSE
        extra ::= 6;;
        extrabytes.[0] ::= initaddr .& 0xff;;
        extrabytes.[1] ::= initaddr >> 8;;
        extrabytes.[2] ::= 0x4c;;
        extrabytes.[3] ::= 0x03;;
        extrabytes.[4] ::= j;;
        extrabytes.[5] ::= 0x4c;;
        p.[0] ::= playaddr .& 0xff;;
        p.[1] ::= playaddr >> 8
      END;;
      strcpy_ids "Deflemask v12";;
      RETURN 1
    END
  DONE;;
  IF (((u32_at p (0x002)) .& 0x00ffffff) == 0x00B518A2) &&
     ((u32_at p (0x06)) == 0xCAD4009D) &&
     ((u32_at p (0x60)) == 0xA500FF60)
  THEN
    initaddr ::= loadaddr + 0x106;;
    playaddr ::= loadaddr;;
    strcpy_ids "Deflemask v12";;
    strcat_ids "/bank-switched";;
    RETURN 1
  END;;
  RETURN 0.

(** [Chk_SidFactory], p2s.c line 3013. *)
Definition Chk_SidFactory : stmt :=
  IF fsiz < 0x200
  THEN
    RETURN 0
  END;;
  IF p.[0x2] == 0x4c
  THEN
    FOR k ::= 6 ; k <= 9 ; k ::= k + 3 DO
      IF (p.[k + 2 + 0x00] == 0x2c) &&
         (p.[k + 2 + 0x03] == 0x30) &&
         (p.[k + 2 + 0x05] == 0x70) &&
         (p.[k + 2 + 0x07] == 0xa9) &&
         (p.[k + 2 + 0x08] == 0x00) &&
         (p.[k + 2 + 0x09] == 0xa2) &&
         (p.[k + 2 + 0x0b] == 0xca)
      THEN
        initaddr ::= loadaddr;;
        playaddr ::= loadaddr + k;;
        strcpy_ids "SidFactory";;
        RETURN 1
      END
    DONE
  END;;
  RETURN 0.

(** [Chk_Mssiah], p2s.c line 3072. *)
Definition Chk_Mssiah : stmt :=
  IF fsiz < 0x5000
  THEN
    RETURN 0
  END;;
  IF loadaddr > 0x5c7c
  THEN
    RETURN 0
  END;;
  j ::= 0x5c7c - loadaddr + 2;;
  IF ((u32_at p (j + 0x0)) == 0x5A8D80A9) &&
     ((u32_at p (j + 0x4)) == 0x5EF32071) &&
     ((u32_at p (j + 0x8)) == 0x205F1C20) &&
     ((u32_at p (j + 0xc)) == 0xF6A25E9B)
  THEN
    psidh.[P_MARKER] ::= 82;;
    initaddr ::= 0x5c20;;
    playaddr ::= 0;;
    pointer_p ::= pointer_p + j;;
    fsiz ::= fsiz - j;;
    loadaddr ::= loadaddr + j;;
    p.[0x02aa] ::= 0x60;;
    p.[0x030d] ::= 0xA2;;
    j ::= 0x0503;;
    p.[j] ::= 0xea;; j ::= j + 1;;
    p.[j] ::= 0xea;; j ::= j + 1;;
    p.[j] ::= 0xea;; j ::= j + 1;;
    j ::= 0x0509;;
    p.[j] ::= 0xea;; j ::= j + 1;;
    p.[j] ::= 0xea;; j ::= j + 1;;
    p.[j] ::= 0xea;; j ::= j + 1;;
    p.[0x028A] ::= 0x5B;;
    p.[0x0979] ::= 0x5B;;
    p.[0x097F] ::= 0x5B;;
    p.[0x0FAF] ::= 0x5B;;
    p.[0x0FB5] ::= 0x5B;;
    p.[0x10E6] ::= 0x5B;;
    p.[0x10EF] ::= 0x5B;;
    psidh.[P_FREEPAGE] ::= 0x04;;
    psidh.[P_FREEPMAX] ::= 0x57;;
    j ::= 0x150a;;
    IF p.[j] > 0
    THEN
      p.[j] ::= 3;;
      psidh.[P_SIDVER] ::= 3;;
      psidh.[P_STEREOAD] ::= 0x50;;
      k ::= (psidh.[P_SIDMODEL] .& 0x30) << 2;;
      psidh.[P_SIDMODEL] ::= psidh.[P_SIDMODEL] .| k
    END;;
    extrabytes.[0] ::= initaddr .& 0xff;;
    extrabytes.[1] ::= initaddr >> 8;;
    memmove extrabytes 2 aPatchMssiah (sizeof aPatchMssiah);;
    extra ::= 2 + (sizeof aPatchMssiah);;
    strcpy_ids "Mssiah";;
    RETURN 1
  END;;
  RETURN 0.

(** [Chk_GoatMultispeed], p2s.c line 3134.  The local [speed] (a
    [double]) only carries the quotient to the text. *)
Definition Chk_GoatMultispeed : stmt :=
  IF fsiz < 0x500
  THEN
    RETURN 0
  END;;
  k ::= 2;;
  IF (p.[k + 0x00] == 0xa2) &&
     (p.[k + 0x0D] == 0x4C) &&
     ((u32_at p (k + 0x02)) == 0xA2DC048E) &&
     ((u32_at p (k + 0x07)) == 0x4CDC058E)
  THEN
    psidh.[P_TIMING] ::= 1;;
    playaddr ::= initaddr + 0xd;;
    LET divisor := p.[k + 1] .| (p.[k + 6] << 8) IN
      strcpy_ids_from_pspeed
        ("GoatTracker+MultiSpeed: " ++ printf_2_1f 0x4cc8 divisor ++ "x");;
    RETURN 1
  END;;
  RETURN 0.

(** [Chk_FlexSid], p2s.c line 3156. *)
Definition Chk_FlexSid : stmt :=
  IF fsiz < 0x100
  THEN
    RETURN 0
  END;;
  j ::= 0;;
  FOR k ::= 0 ; k < (fsiz - 0x20) ; k ::= k + 1 DO
    IF ((u32_at p (k + 0x00)) == 0xC19500AB) &&
       ((u32_at p (k + 0x0C)) == 0x60D4188E) &&
       ((u32_at p (k + 0x10)) == 0xFF860EA2)
    THEN
      j ::= 1;;
      initaddr ::= k + loadaddr - 2;;
      playaddr ::= k + loadaddr - 2 + 0x10;;
      strcpy_ids "FlexSid";;
      break
    END;;
    IF ((u32_at p (k + 0x00)) == 0x00A93FA2) &&
       ((u32_at p (k + 0x06)) == 0x60FB10CA) &&
       ((u32_at p (k + 0x0a)) == 0xFF860EA2)
    THEN
      j ::= 2;;
      initaddr ::= k + loadaddr - 2;;
      playaddr ::= k + loadaddr - 2 + 0x0a;;
      strcpy_ids "FlexSid-Bare";;
      break
    END
  DONE;;
  IF j != 0
  THEN
    RETURN 1
  END;;
  RETURN 0.

(** [Chk_StarBars], p2s.c line 3190. *)
Definition Chk_StarBars : stmt :=
  IF fsiz < 0x1000
  THEN
    RETURN 0
  END;;
  IF (loadaddr >= 0x0800) &&
     (loadaddr <= 0x080d)
  THEN
    IF ((u32_at p ((0 - loadaddr) + 2 + 0x80d)) == 0x0009BB4C) &&
       ((u32_at p ((0 - loadaddr) + 2 + 0x89c)) == 0x4E494541) &&
       ((u32_at p ((0 - loadaddr) + 2 + 0x1000)) == 0x8D1504AD)
    THEN
      j ::= p.[(0 - loadaddr) + 2 + 0x9be];;
      IF (j == 0x42) || (j == 0x49)
      THEN
        psidh.[P_MARKER] ::= 82;;
        psidh.[P_SIDMODEL] ::= 0x34;;
        strcpy_ids "StarBars ";;
        initaddr ::= 0x09bb;;
        playaddr ::= 0;;
        k ::= 0x08B1 - loadaddr + 2;;
        memset p k 0 0x99;;
        k ::= 0x09c0 - loadaddr + 2;;
        memset p k 0xea 0x6b;;
        k ::= 0x0a5b - loadaddr + 2;;
        p.[k] ::= 0x60;; k ::= k + 1;;
        memset p k 0 0x05a4;;
        k ::= 0x1300 - loadaddr + 2;;
        memset p k 00 0x100;;
        IF j == 0x42
        THEN
          k ::= 0x10b1 - loadaddr + 2;;
          memset p k 0x60 0x1e;;
          k ::= 0x11e1 - loadaddr + 2;;
          memset p k 0xea 0x29;;
          k ::= 0x122b - loadaddr + 2;;
          memset p k 0x60 0x17;;
          k ::= 0x1271 - loadaddr + 2;;
          memset p k 0x60 0x12;;
          k ::= 0x129c - loadaddr + 2;;
          memset p k 0x60 0x20;;
          strcat_ids "v1.1"
        ELSE
          k ::= 0x10a1 - loadaddr + 2;;
          memset p k 0x60 0x1e;;
          k ::= 0x11e8 - loadaddr + 2;;
          memset p k 0xea 0x29;;
          k ::= 0x1232 - loadaddr + 2;;
          memset p k 0x60 0x17;;
          k ::= 0x1278 - loadaddr + 2;;
          memset p k 0x60 0x12;;
          k ::= 0x12a3 - loadaddr + 2;;
          memset p k 0x60 0x20;;
          strcat_ids "v1.2"
        END;;
        RETURN 1
      END
    END;;
    IF ((u32_at p ((0 - loadaddr) + 2 + 0x80d)) == 0x0920D878) &&
       ((u32_at p ((0 - loadaddr) + 2 + 0xb0b)) == 0x4E494541) &&
       ((u32_at p ((0 - loadaddr) + 2 + 0x930)) == 0x8D1504AD)
    THEN
      j ::= p.[(0 - loadaddr) + 2 + 0x0810];;
      IF j == 0x09
      THEN
        psidh.[P_MARKER] ::= 82;;
        psidh.[P_SIDMODEL] ::= 0x34;;
        strcpy_ids "StarBars ";;
        initaddr ::= 0x080d;;
        playaddr ::= 0;;
        k ::= 0x0812 - loadaddr + 2;;
        memset p k 0xea 0x90;;
        k ::= 0x08d8 - loadaddr + 2;;
        p.[k] ::= 0x60;; k ::= k + 1;;
        memset p k 0 0x057;;
        k ::= 0x09d1 - loadaddr + 2;;
        memset p k 0x60 0x1e;;
        k ::= 0x0b20 - loadaddr + 2;;
        memset p k 0 0x4e0;;
        k ::= 0x10a5 - loadaddr + 2;;
        memset p k 0xea 0x29;;
        k ::= 0x10f2 - loadaddr + 2;;
        memset p k 0x60 0x17;;
        k ::= 0x1138 - loadaddr + 2;;
        memset p k 0x60 0x98;;
        k ::= 0x11e8 - loadaddr + 2;;
        memset p k 0x60 0x21;;
        k ::= 0x120a - loadaddr + 2;;
        memset p k 0 0x1f6;;
        k ::= 0x141c - loadaddr + 2;;
        memset p k 0 0xe4;;
        strcat_ids "v1.3";;
        strcat_ids "beta";;
        RETURN 1
      END
    END;;
    IF ((u32_at p ((0 - loadaddr) + 2 + 0x80d)) == 0x00A9D878) &&
       ((u32_at p ((0 - loadaddr) + 2 + 0xb1d)) == 0x4E494541) &&
       ((u32_at p ((0 - loadaddr) + 2 + 0x92f)) == 0x8D1504AD)
    THEN
      j ::= p.[(0 - loadaddr) + 2 + 0x0819];;
      IF j == 0x04
      THEN
        psidh.[P_MARKER] ::= 82;;
        psidh.[P_SIDMODEL] ::= 0x34;;
        strcpy_ids "StarBars ";;
        initaddr ::= 0x080d;;
        playaddr ::= 0;;
        k ::= 0x0818 - loadaddr + 2;;
        memset p k 0xea 0x7b;;
        k ::= 0x08e6 - loadaddr + 2;;
        memset p k 0x60 0x49;;
        k ::= 0x09E3 - loadaddr + 2;;
        memset p k 0x60 0x1e;;
        k ::= 0x0b32 - loadaddr + 2;;
        memset p k 0 0x4ce;;
        k ::= 0x10b4 - loadaddr + 2;;
        memset p k 0xea 0x1c;;
        k ::= 0x10d7 - loadaddr + 2;;
        memset p k 0x60 0x3e;;
        k ::= 0x111c - loadaddr + 2;;
        memset p k 0x60 0x10;;
        k ::= 0x113f - loadaddr + 2;;
        memset p k 0x60 0x92;;
        k ::= 0x1204 - loadaddr + 2;;
        memset p k 0x60 0x20;;
        k ::= 0x128d - loadaddr + 2;;
        memset p k 0 0x173;;
        k ::= 0x141c - loadaddr + 2;;
        memset p k 0 0xe4;;
        strcat_ids "v1.3";;
        RETURN 1
      END
    END;;
    IF ((u32_at p ((0 - loadaddr) + 2 + 0x80d)) == 0x00A9D878) &&
       ((u32_at p ((0 - loadaddr) + 2 + 0xb21)) == 0x4E494541) &&
       ((u32_at p ((0 - loadaddr) + 2 + 0x929)) == 0x8D1504AD)
    THEN
      j ::= p.[(0 - loadaddr) + 2 + 0x0819];;
      IF j == 0x04
      THEN
        psidh.[P_MARKER] ::= 82;;
        psidh.[P_SIDMODEL] ::= 0x34;;
        strcpy_ids "StarBars ";;
        initaddr ::= 0x080d;;
        playaddr ::= 0;;
        k ::= 0x0818 - loadaddr + 2;;
        memset p k 0xea 0x75;;
        k ::= 0x08e0 - loadaddr + 2;;
        memset p k 0x60 0x48;;
        k ::= 0x09E7 - loadaddr + 2;;
        memset p k 0x60 0x1e;;
        k ::= 0x0b36 - loadaddr + 2;;
        memset p k 0 0x4ca;;
        k ::= 0x10b4 - loadaddr + 2;;
        memset p k 0xea 0x1c;;
        k ::= 0x10d7 - loadaddr + 2;;
        memset p k 0x60 0x3e;;
        k ::= 0x111c - loadaddr + 2;;
        memset p k 0x60 0x10;;
        k ::= 0x113f - loadaddr + 2;;
        memset p k 0x60 0x92;;
        k ::= 0x1204 - loadaddr + 2;;
        memset p k 0x60 0x20;;
        k ::= 0x128d - loadaddr + 2;;
        memset p k 0 0x173;;
        k ::= 0x141c - loadaddr + 2;;
        memset p k 0 0xe4;;
        strcat_ids "v1.4";;
        strcat_ids "beta";;
        RETURN 1
      END
    END;;
    IF ((u32_at p ((0 - loadaddr) + 2 + 0x80d)) == 0xAA00A978) &&
       ((u32_at p ((0 - loadaddr) + 2 + 0xb20)) == 0x4E494541) &&
       ((u32_at p ((0 - loadaddr) + 2 + 0x901)) == 0x8D1504AD)
    THEN
      j ::= p.[(0 - loadaddr) + 2 + 0x0818];;
      IF j == 0x04
      THEN
        psidh.[P_MARKER] ::= 82;;
        psidh.[P_SIDMODEL] ::= 0x34;;
        strcpy_ids "StarBars ";;
        initaddr ::= 0x080d;;
        playaddr ::= 0;;
        k ::= 0x0817 - loadaddr + 2;;
        memset p k 0xea 0x4e;;
        k ::= 0x08b8 - loadaddr + 2;;
        memset p k 0x60 0x48;;
        k ::= 0x09D6 - loadaddr + 2;;
        memset p k 0x60 0x1e;;
        k ::= 0x0b35 - loadaddr + 2;;
        memset p k 0 0x4cb;;
        k ::= 0x10b4 - loadaddr + 2;;
        memset p k 0xea 0x1c;;
        k ::= 0x10d7 - loadaddr + 2;;
        memset p k 0x60 0x3e;;
        k ::= 0x111c - loadaddr + 2;;
        memset p k 0x60 0x10;;
        k ::= 0x113f - loadaddr + 2;;
        memset p k 0x60 0x92;;
        k ::= 0x1204 - loadaddr + 2;;
        memset p k 0x60 0x20;;
        k ::= 0x128d - loadaddr + 2;;
        memset p k 0 0x173;;
        k ::= 0x141c - loadaddr + 2;;
        memset p k 0 0x95;;
        strcat_ids "v1.4";;
        RETURN 1
      END
    END
  END;;
  RETURN 0.

(** [Chk_QuantumSndTrk], p2s.c line 3422. *)
Definition Chk_QuantumSndTrk : stmt :=
  IF fsiz < (0xdd8f + 0x3c + 2 - loadaddr)
  THEN
    RETURN 0
  END;;
  IF (loadaddr >= 0x0800) &&
     (loadaddr <= 0x080d)
  THEN
    IF ((u32_at p ((0 - loadaddr) + 2 + 0x80f)) == 0x8534A90D) &&
       ((u32_at p ((0 - loadaddr) + 2 + 0x89b)) == 0x4A4A4A8A) &&
       ((u32_at p ((0 - loadaddr) + 2 + 0x9AF)) == 0xEDF0DD0D)
    THEN
      j ::= p.[(0 - loadaddr) + 2 + 0x80e];;
      IF (j == 0x6a) || (j == 0x6c)
      THEN
        psidh.[P_MARKER] ::= 82;;
        psidh.[P_FREEPAGE] ::= 4;;
        psidh.[P_FREEPMAX] ::= 4;;
        strcpy_ids "Quantum SoundTracker 1.0";;
        k ::= 0x0821 - loadaddr + 2;;
        memset p k 0xea 0x03;;
        k ::= 0x082c - loadaddr + 2;;
        memset p k 0x78 0x0c;;
        k ::= 0x08e7 - loadaddr + 2;;
        memset p k 0x60 0x56;;
        k ::= 0x0fc0 - loadaddr + 2;;
        memset p k 0x60 0x3f;;
        k ::= 0xdd6d - loadaddr + 2;;
        memset p k 0xea 0x03;;
        k ::= 0xdd73 - loadaddr + 2;;
        memset p k 0xea 0x03;;
        k ::= 0xdd8f - loadaddr + 2;;
        memset p k 0x60 0x3c;;
        IF j == 0x6c
        THEN
          strcat_ids "/demo";;
          k ::= 0x0a3e - loadaddr + 2;;
          memset p k 0x60 0x2e6;;
          k ::= 0x0d8a - loadaddr + 2;;
          memset p k 0x60 0xb9
        ELSE
          k ::= 0x0a3e - loadaddr + 2;;
          memset p k 0x60 0x2e4;;
          k ::= 0x0d88 - loadaddr + 2;;
          memset p k 0x60 0xb9
        END;;
        initaddr ::= 0x080d;;
        playaddr ::= 0;;
        RETURN 1
      END
    END
  END;;
  RETURN 0.

(** [Chk_Whittaker], p2s.c line 3492. *)
Definition Chk_Whittaker : stmt :=
  IF fsiz < 0x800
  THEN
    RETURN 0
  END;;
  i ::= 0;;
  FOR k ::= 0 ; k < 0x800 ; k ::= k + 1 DO
    IF (u32_at p (k)) == 0x8D00A9AA
    THEN
      i ::= k;;
      break
    END
  DONE;;
  IF i > 0
  THEN
    FOR j ::= i ; j < 0x800 ; j ::= j + 1 DO
      IF ((u32_at p (j)) == 0xA548F8A5) &&
         (p.[j + 0x06] == 0xCE) &&
         (p.[j + 0x09] == 0xD0) &&
         (p.[j + 0x10] == 0xD0) &&
         (p.[j + 0x12] == 0x20)
      THEN
        initaddr ::= loadaddr + k - 2;;
        playaddr ::= loadaddr + j - 2;;
        strcpy_ids "Whittaker";;
        strcat_ids " v1";;
        RETURN 1
      END;;
      IF ((u32_at p (j)) == 0xA548F8A5) &&
         (p.[j + 0x06] == 0x20) &&
         (p.[j + 0x0f] == 0x60) &&
         (p.[j + 0x15] == 0xCE) &&
         (p.[j + 0x18] == 0xD0) &&
         (p.[j + 0x1C] == 0x20)
      THEN
        initaddr ::= loadaddr + k - 2;;
        playaddr ::= loadaddr + j - 2;;
        strcpy_ids "Whittaker";;
        strcat_ids " v2";;
        RETURN 1
      END
    DONE
  END;;
  RETURN 0.



(** [ScanFunc], p2s.c line 3543. *)
Definition ScanFunc : list stmt :=
  [ Chk_FC; Chk_FCAlt; Chk_MusAss; Chk_MusMix;
    Chk_GMC; Chk_Bappalander; Chk_TrkPl3; Chk_Groovy;
    Chk_Parsec; Chk_Sosperec; Chk_SoedeSoft; Chk_Prosonix1;
    Chk_4JMPS; Chk_Heathcliff; Chk_3JMPs1; Chk_ArneAFL;
    Chk_ArneSndMk; Chk_Digitalizer; Chk_Soundmon; Chk_AMP2;
    Chk_FC3x; Chk_MoN_JTS; Chk_3JMPs2; Chk_JOv2;
    Chk_2JMPs; Chk_LaxityV2; Chk_HubbardV5; Chk_HubbardV4;
    Chk_HubbardV3; Chk_HubbardV2; Chk_HubbardV1; Chk_MikeLSD;
    Chk_Comptech; Chk_SoundMaker; Chk_Electrosound; Chk_PollyTracker;
    Chk_MasterComp; Chk_Ubik; Chk_AMP1; Chk_Boogaloo;
    Chk_Bjerregaard1; Chk_Bjerregaard2; Chk_ReflexTrk; Chk_FAME;
    Chk_20CC; Chk_CTExe; Chk_System6581; Chk_MattGray;
    Chk_PowerMus; Chk_GRGTiny2; Chk_GRGTiny4; Chk_Yip;
    Chk_TFX1; Chk_Griff1; Chk_Griff2; Chk_Ariston;
    Chk_Winterberg; Chk_Jensen; Chk_MegaVision; Chk_SkylineTech_Danne;
    Chk_Deflemask; Chk_Polyanna; Chk_SidFactory; Chk_Mssiah;
    Chk_GoatMultispeed; Chk_FlexSid; Chk_StarBars; Chk_Whittaker;
    Chk_QuantumSndTrk ].

(** The loop of [Scanners] from entry [x] of the table on: call the check,
    stop at the first result that is not zero. *)
Fixpoint scan (table : list stmt) : stmt :=
  match table with
  | [] => RETURN 0
  | check :: rest =>
      call_assign z check;;
      IF z THEN RETURN z ELSE scan rest END
  end.

(** [Scanners], p2s.c line 3616; its local [z] is the [z] of the state. *)
Definition Scanners : stmt :=
  z ::= 0;;
  scan ScanFunc.

(** [fwrite(a, n, 1, hout)]: [n] converts to [size_t], so a negative [n]
    asks for more bytes than any object has. *)
Definition fwrite (a : array) (n : expr) : stmt :=
  fun s =>
    match n s with
    | Ok len =>
        if in_bounds (cells a s) (base a s) len
        then Normal (with_hout
                       (G.hout s ++ firstn (Z.to_nat len)
                                      (skipn (Z.to_nat (base a s)) (cells a s))) s)
        else Fault (OutOfBounds (name a) (base a s + len))
    | Err f => Fault f
    end.

(** The [printf] of the result line: ID, Init and Play. *)
Definition printf_result : stmt :=
  fun s => Normal (with_shown (Some (G.ids s, G.initaddr s, G.playaddr s)) s).

(** The end of [main], p2s.c lines 3787 to 3806: header, extra bytes,
    and the file cut to end at 0x10000. *)
Definition write_output : stmt :=
  fwrite psidh 0x7c;;
  IF extra
  THEN
    fwrite extrabytes extra;;
    IF extra == 1
    THEN
      loadaddr ::= extrabytes.[0] .| (p.[0] << 8)
    ELSE
      loadaddr ::= extrabytes.[0] .| (extrabytes.[1] << 8)
    END
  END;;
  j ::= fsiz + loadaddr + extra - 2;;
  IF j > 0xffff
  THEN
    fsiz ::= fsiz - (j - 0x10000)
  END;;
  fwrite p fsiz.

(** The test of [main] for a file that is a SID file already. *)
Definition already_sid : expr :=
  (((p.[P_MARKER + 0] == psidh.[P_MARKER + 0]) || (p.[P_MARKER + 0] == 82)) &&
   (p.[P_MARKER + 1] == psidh.[P_MARKER + 1]) &&
   (p.[P_MARKER + 2] == psidh.[P_MARKER + 2]) &&
   (p.[P_MARKER + 3] == psidh.[P_MARKER + 3]))%E.

(** [main] up to the header it patches, p2s.c lines 3630 to 3786, run
    with the file name as its only argument on a file that can be read and
    an output that can be created; the state it starts in is
    [initial_state]. *)
Definition identify : stmt :=
  IF already_sid
  THEN
    RETURN 2
  END;;
  loadaddr ::= p.[0] .| (p.[1] << 8);;
  initaddr ::= loadaddr;;
  playaddr ::= initaddr + 3;;
  call Scanners;;
  printf_result;;
  psidh.[P_INITADDR + 0] ::= initaddr >> 8;;
  psidh.[P_INITADDR + 1] ::= initaddr .& 0xff;;
  psidh.[P_PLAYADDR + 0] ::= playaddr >> 8;;
  psidh.[P_PLAYADDR + 1] ::= playaddr .& 0xff.

(** [main], p2s.c line 3630. *)
Definition main : stmt :=
  identify;;
  write_output;;
  RETURN 0.

End Checks.

(** The globals as the program starts, with the file read into the buffer
    [main] allocates for it, in a run that allows each loop [fuel]
    iterations. *)
Definition initial_state (fuel : nat) (file : list byte) : state :=
  G.mk file 0 (Z.of_nat (List.length file)) 0 0 0 0 0 0 0 0
    (repeat x00 128) psidh_template "Generic" [] [] None fuel.

(** ** Concrete files *)

(** [l] with the bytes listed put at their indices. *)
Fixpoint patched (l : list byte) (bytes : list (nat * byte)) : list byte :=
  match bytes with
  | [] => l
  | (n, v) :: rest => patched (firstn n l ++ v :: skipn (S n) l) rest
  end.

(** Scenario S1 of the specification: load address $1000 and 64 zero
    bytes. *)
Definition generic_file : list byte := x00 :: x10 :: repeat x00 64.

(** A file at $1000 that carries the signature of [Chk_FC] and that of
    [Chk_FCAlt]. *)
Definition fc_file : list byte :=
  patched (repeat x00 (Z.to_nat 0x202))
    [(0x01, x10); (0x02, x4c); (0x03, x08); (0x08, xad); (0x0b, xc9);
     (0x0d, xf0); (0x0e, x07); (0x0f, xc9); (0x2c, xee); (0x2d, x42);
     (0x2f, xee); (0x30, x43)]%nat.

(** A file of 0x2B01 bytes at $A000: [JMP $C012; JMP ...] at $C000 and the
    bytes D4 8D 14 03 at $C025, the first two words [Chk_Soundmon] asks
    for before it looks at $CBDD. *)
Definition soundmon_file : list byte :=
  patched (repeat x00 (Z.to_nat 0x2b01))
    [(0x0001, xa0); (0x2002, x4c); (0x2003, x12); (0x2004, xc0);
     (0x2005, x4c); (0x2027, xd4); (0x2028, x8d); (0x2029, x14);
     (0x202a, x03)]%nat.

(** A file of 0x200 bytes at $0003 with the signature of [Chk_MattGray]. *)
Definition matt_gray_file : list byte :=
  patched (repeat x00 (Z.to_nat 0x200))
    [(0x00, x03); (0x04, xa2); (0x05, x00); (0x06, x20); (0x13, x60);
     (0x14, xad); (0x15, x03); (0x16, x00); (0x1d, xc9); (0x1e, xab)]%nat.

(** A file of 66 bytes at $FFF0: the image would end at $10030. *)
Definition high_file : list byte := xf0 :: xff :: repeat x00 64.

(** More iterations than any loop makes on the files above. *)
Definition plenty : nat := 4096.

(** A stand-in for the C library's formatting of the speed. *)
Definition no_speed_text (n d : Z) : string := EmptyString.

(** ** Vocabulary of the statements about the scanner and the writer *)

(** The checks of [table], called in order from state [s] as [scan] calls
    them, all return 0 and leave state [s']. *)
Inductive all_decline : list stmt -> state -> state -> Prop :=
| decline_nil (s : state) : all_decline [] s s
| decline_cons (check : stmt) (rest : list stmt) (s s1 s' : state) :
    run check s = Ok (0, s1) ->
    all_decline rest (with_z 0 s1) s' ->
    all_decline (check :: rest) s s'.

(** The load address of a PRG file: [p[0]|p[1]<<8]. *)
Definition load_address (file : list byte) : Z :=
  Z.lor (b2z (nth 0 file x00)) (Z.shiftl (b2z (nth 1 file x00)) 8).

(** The state in which the first check is called: the load address read,
    the two addresses at their defaults, and [z] zero. *)
Definition scan_entry (fuel : nat) (file : list byte) : state :=
  with_z 0
    (with_playaddr (load_address file + 3)
       (with_initaddr (load_address file)
          (with_loadaddr (load_address file) (initial_state fuel file)))).

(** The header template with the two addresses stored big-endian at
    offsets 0x0a to 0x0d. *)
Definition header_for (init play : Z) : list byte :=
  firstn 10 psidh_template
    ++ [z2b (Z.shiftr init 8); z2b (Z.land init 0xff);
        z2b (Z.shiftr play 8); z2b (Z.land play 0xff)]
    ++ skipn 14 psidh_template.

(** How many bytes of a file at load address [L] end up in the output
    when nothing is put before them. *)
Definition written_length (file : list byte) : Z :=
  Z.of_nat (List.length file)
  - Z.max 0 (Z.of_nat (List.length file) + load_address file - 2 - 0x10000).

(** The file as [p] and [fsiz] delimit it: [fsiz] bytes from [p] on. *)
Definition payload (s : state) : list byte :=
  firstn (Z.to_nat (G.fsiz s)) (skipn (Z.to_nat (G.p s)) (G.realp s)).

Definition byte_at (l : list byte) (n : Z) : Z := b2z (nth (Z.to_nat n) l x00).

(** The load address the written image has: taken from the extra bytes
    when there are two or more, from the extra byte and [p[0]] when there
    is one, and the load address of the PRG otherwise. *)
Definition new_load_addr (s : state) : Z :=
  if G.extra s =? 0 then G.loadaddr s
  else if G.extra s =? 1
  then Z.lor (byte_at (G.extrabytes s) 0)
             (Z.shiftl (byte_at (payload s) 0) 8)
  else Z.lor (byte_at (G.extrabytes s) 0)
             (Z.shiftl (byte_at (G.extrabytes s) 1) 8).

(** By how much the image ends past 0x10000. *)
Definition excess (s : state) : Z :=
  G.fsiz s + new_load_addr s + G.extra s - 2 - 0x10000.

(** The arrays have the sizes they are declared with, [extra] counts
    bytes of [extrabytes], and [p] and [fsiz] delimit a part of the buffer
    (one that is not empty when [p[0]] is needed). *)
Definition writer_ready (s : state) : Prop :=
  List.length (G.psidh s) = 124%nat /\
  List.length (G.extrabytes s) = 128%nat /\
  0 <= G.extra s <= 128 /\
  0 <= G.p s /\ 0 <= G.fsiz s /\
  G.p s + G.fsiz s <= Z.of_nat (List.length (G.realp s)) /\
  (G.extra s = 1 -> 1 <= G.fsiz s).

End P2S.


(** * Core A: what a check that declines leaves behind *)

Module P2SFrame.
Import P2S.

(** The part of the state the writer and the result line depend on, without
    and with the two addresses. *)
Definition hard (s : state) :=
  (G.realp s, G.p s, G.fsiz s, G.loadaddr s, G.extra s, G.extrabytes s,
   G.psidh s, G.ids s, G.hout s, G.shown s).

Definition strict (s : state) := (hard s, G.initaddr s, G.playaddr s).

(** The two addresses are the ones [main] sets before the scan. *)
Definition default (s : state) : Prop :=
  G.initaddr s = G.loadaddr s /\ G.playaddr s = G.loadaddr s + 3.

(** A relation between the state a statement starts in and the one it
    ends in. *)
Class Frame (R : state -> state -> Prop) : Prop := {
  frame_refl : forall s, R s s;
  frame_trans : forall a b c, R a b -> R b c -> R a c
}.

(** Nothing the writer or the result line depend on has changed. *)
Definition Rstrict (s s' : state) : Prop := strict s' = strict s.

(** The same, the two addresses apart. *)
Definition Rhard (s s' : state) : Prop := hard s' = hard s.

(** The same, and the two addresses are unchanged or back at their
    defaults. *)
Definition Rreset (s s' : state) : Prop :=
  hard s' = hard s /\ (strict s' = strict s \/ default s').

(** As long as the flag is clear, nothing has changed. *)
Definition Rflag (clear : state -> Prop) (s s' : state) : Prop :=
  clear s' -> clear s /\ strict s' = strict s.

(** [c] ends in a state related to the one it started in, unless it
    returns a result that is not zero. *)
Definition pres (R : state -> state -> Prop) (c : stmt) : Prop :=
  forall s,
    match c s with
    | Normal s' | Break s' | Continue s' => R s s'
    | Return r s' => r = 0 -> R s s'
    | Fault _ => True
    end.

(** [c] goes on to the next statement or returns a result that is not
    zero. *)
Definition noisy (c : stmt) : Prop :=
  forall s,
    match c s with
    | Normal _ | Fault _ => True
    | Return r _ => r <> 0
    | Break _ | Continue _ => False
    end.

(** [c] never returns zero. *)
Definition loopy (c : stmt) : Prop :=
  forall s, match c s with Return r _ => r <> 0 | _ => True end.

(** [c] returns a result that is not zero. *)
Definition matching (c : stmt) : Prop :=
  forall s,
    match c s with
    | Return r _ => r <> 0
    | Fault _ => True
    | _ => False
    end.

(** [c] ends with the two addresses at their defaults, unless it returns a
    result that is not zero. *)
Definition ends_default (c : stmt) : Prop :=
  forall s,
    match c s with
    | Normal s' | Break s' | Continue s' => default s'
    | Return r s' => r = 0 -> default s'
    | Fault _ => True
    end.

(** [initaddr=loadaddr; playaddr=initaddr+3;]. *)
Definition reset : stmt :=
  (initaddr ::= loadaddr;; playaddr ::= initaddr + 3)%C.

(** Whenever [c] returns zero, the state it returns in is related to the
    one it was called in. *)
Definition declines (R : state -> state -> Prop) (c : stmt) : Prop :=
  forall s s', run c s = Ok (0, s') -> R s s'.

(** The file is long enough for the check to have looked at it, or
    nothing has changed. *)
Definition Rleak (n : Z) (s s' : state) : Prop :=
  hard s' = hard s /\ (strict s' = strict s \/ n <= G.fsiz s).

(** The file is too short for the check and nothing has changed, or the
    two addresses are back at their defaults. *)
Definition Rforce (n : Z) (s s' : state) : Prop :=
  hard s' = hard s /\
  (default s' \/ (G.fsiz s < n /\ strict s' = strict s)).

(** From a state where [P] holds, a check that declines leaves one where
    [Q] holds once [Scanners] has stored its result. *)
Definition step_ok (P Q : state -> Prop) (c : stmt) : Prop :=
  forall s s', P s -> run c s = Ok (0, s') -> Q (with_z 0 s').

(** What holds before [Chk_GRGTiny2] has run, and after. *)
Definition Inv_pre (s0 s : state) : Prop :=
  hard s = hard s0 /\ (default s \/ 0x100 <= G.fsiz s0).

Definition Inv_post (s0 s : state) : Prop :=
  hard s = hard s0 /\ default s.

(** What is left of a check after the loop that sets the flag: it returns
    zero only when the flag is clear, and then changes nothing. *)
Definition fin_ok (clear : state -> Prop) (fin : stmt) : Prop :=
  forall s,
    match fin s with
    | Return r s' => r = 0 -> clear s /\ strict s' = strict s
    | _ => True
    end.

(** The checks before and after [Chk_GRGTiny2] in [ScanFunc]. *)
Section Tables.

Variable printf_2_1f : Z -> Z -> string.

Definition checks_before : list stmt :=
  [Chk_FC; Chk_FCAlt; Chk_MusAss; Chk_MusMix; Chk_GMC; Chk_Bappalander;
    Chk_TrkPl3; Chk_Groovy; Chk_Parsec; Chk_Sosperec; Chk_SoedeSoft;
    Chk_Prosonix1; Chk_4JMPS; Chk_Heathcliff; Chk_3JMPs1; Chk_ArneAFL;
    Chk_ArneSndMk; Chk_Digitalizer; Chk_Soundmon; Chk_AMP2; Chk_FC3x;
    Chk_MoN_JTS; Chk_3JMPs2; Chk_JOv2; Chk_2JMPs; Chk_LaxityV2;
    Chk_HubbardV5; Chk_HubbardV4; Chk_HubbardV3; Chk_HubbardV2;
    Chk_HubbardV1; Chk_MikeLSD; Chk_Comptech; Chk_SoundMaker;
    Chk_Electrosound; Chk_PollyTracker; Chk_MasterComp; Chk_Ubik; Chk_AMP1;
    Chk_Boogaloo; Chk_Bjerregaard1; Chk_Bjerregaard2; Chk_ReflexTrk;
    Chk_FAME; Chk_20CC; Chk_CTExe; Chk_System6581; Chk_MattGray;
    Chk_PowerMus ].

Definition checks_after : list stmt :=
  [Chk_GRGTiny4; Chk_Yip; Chk_TFX1; Chk_Griff1; Chk_Griff2; Chk_Ariston;
    Chk_Winterberg; Chk_Jensen; Chk_MegaVision; Chk_SkylineTech_Danne;
    Chk_Deflemask; Chk_Polyanna; Chk_SidFactory; Chk_Mssiah;
    Chk_GoatMultispeed printf_2_1f; Chk_FlexSid; Chk_StarBars;
    Chk_Whittaker; Chk_QuantumSndTrk ].

End Tables.

End P2SFrame.

(** * sf2pack: the PSID file and the command-line tool *)

Module SF2PackTool.
Import SF2Pack.

(** ** c64memory.cpp: [LoadFromData] *)

(** [LoadFromData(load_address, data, data_size)], c64memory.cpp line 42;
    the pointer and its length are one list. *)
Definition LoadFromData (m : C64Memory) (load_address : Z) (data : list byte)
  : bool * C64Memory :=
  let data_size := Z.of_nat (List.length data) in
  if data_size =? 0 then (false, m)
  else if u32 (load_address + data_size) >? 0x10000 then (false, m)
  else (true, memcpy_in m load_address data data_size).

(** A configuration that relocates nothing: the code stays where it is and
    the zero page base is kept. *)
Definition identity_config : DriverConfig := {|
  driver_code_top := 0x1000;
  driver_code_size := 0x0800;
  current_lowest_zp := 0x02;
  target_lowest_zp := 0x02;
  destination_address := 0x1000
|}.

(** A destination less than the code size below the end of memory. *)
Definition high_config : DriverConfig := {|
  driver_code_top := 0x0D7E;
  driver_code_size := 0x0800;
  current_lowest_zp := 0x02;
  target_lowest_zp := 0x02;
  destination_address := 0xF900
|}.

(** The default region with a destination above 0x3000, away from the
    data. *)
Definition far_config : DriverConfig := {|
  driver_code_top := 0x0D7E;
  driver_code_size := 0x0800;
  current_lowest_zp := 0x02;
  target_lowest_zp := 0x02;
  destination_address := 0x4000
|}.

(** ** Vocabulary of the statements about the packer *)

(** [x] is an operand byte the visit of the instruction at [a] may write:
    one of the two after the opcode for ABS, ABX, ABY and IND, the one
    after the opcode for ZP, ZPX, ZPY, IZX and IZY. *)
Definition touches (m : C64Memory) (a x : Z) : Prop :=
  (RequiresRelocation (GetOpcodeAddressingMode (m a)) = true /\
   (x = a + 1 \/ x = a + 2)) \/
  (RequiresZeroPageAdjustment (GetOpcodeAddressingMode (m a)) = true /\
   x = a + 1).

(** [x] is such an operand byte of an instruction of the code region. *)
Definition relocated_operand_byte (cfg : DriverConfig) (m : C64Memory)
  (x : Z) : Prop :=
  exists a, In a (region_instructions cfg m) /\ touches m a x.

(** The value [Pack] computes for [data_end] on the patched memory [m]:
    the end of the code region, moved up to one past the last byte below
    0x3000 that is not zero. *)
Definition packed_data_end (cfg : DriverConfig) (m : C64Memory) : Z :=
  scan_loop (Z.to_nat 0x3000) m
    (u16 (driver_code_top cfg + driver_code_size cfg))
    (u16 (driver_code_top cfg + driver_code_size cfg)).

(** The two containers agree on the addresses [0 .. 0xFFFF]. *)
Definition same_bytes (m1 m2 : C64Memory) : Prop :=
  forall x, 0 <= x < 0x10000 -> m1 x = m2 x.

(** ** psidfile.h / psidfile.cpp *)

(** [struct PSIDHeader], packed: 124 bytes.  The 16-bit and 32-bit fields
    hold host integers. *)
Record PSIDHeader : Type := {
  magic : list byte;         (* char[4], offset 0x00 *)
  version : Z;               (* unsigned short, 0x04 *)
  data_offset : Z;           (* unsigned short, 0x06 *)
  load_address : Z;          (* unsigned short, 0x08 *)
  init_address : Z;          (* unsigned short, 0x0A *)
  play_address : Z;          (* unsigned short, 0x0C *)
  song_count : Z;            (* unsigned short, 0x0E *)
  default_song : Z;          (* unsigned short, 0x10 *)
  speed_flags : Z;           (* unsigned int, 0x12 *)
  title : list byte;         (* char[32], 0x16 *)
  author : list byte;        (* char[32], 0x36 *)
  copyright : list byte;     (* char[32], 0x56 *)
  flags : Z;                 (* unsigned short, 0x76 *)
  start_page : Z;            (* unsigned char, 0x78 *)
  page_length : Z;           (* unsigned char, 0x79 *)
  second_sid : Z;            (* unsigned char, 0x7A *)
  third_sid : Z              (* unsigned char, 0x7B *)
}.

(** The bytes of an [unsigned short] and of an [unsigned int] in the memory
    of a little-endian host. *)
Definition le16 (v : Z) : list byte := [z2b v; z2b (Z.shiftr v 8)].

Definition le32 (v : Z) : list byte :=
  [z2b v; z2b (Z.shiftr v 8); z2b (Z.shiftr v 16); z2b (Z.shiftr v 24)].

(** [reinterpret_cast<const unsigned char*>(&header_)]: the object
    representation of the packed struct on a little-endian host. *)
Definition header_bytes (h : PSIDHeader) : list byte :=
  magic h ++ le16 (version h) ++ le16 (data_offset h)
    ++ le16 (load_address h) ++ le16 (init_address h)
    ++ le16 (play_address h) ++ le16 (song_count h)
    ++ le16 (default_song h) ++ le32 (speed_flags h)
    ++ title h ++ author h ++ copyright h
    ++ le16 (flags h)
    ++ [z2b (start_page h); z2b (page_length h); z2b (second_sid h);
        z2b (third_sid h)].

(** [EndianConvert], psidfile.cpp line 131: the operands are promoted to
    [int] and the result converts back to [unsigned short]. *)
Definition EndianConvert (value : Z) : Z :=
  u16 (Z.lor (Z.shiftr value 8) (Z.shiftl value 8)).

(** [CopyString(src, dest, size)], psidfile.cpp line 123: the [size] bytes
    it stores at [dest]. *)
Definition CopyString (src : list byte) (size : nat) : list byte :=
  map (fun i => if (i <? List.length src)%nat then nth i src x00 else x00)
      (seq 0 size).

(** [InitializeHeader], psidfile.cpp line 92. *)
Definition InitializeHeader : PSIDHeader := {|
  magic := list_byte_of_string "PSID";
  version := EndianConvert 0x0002;
  data_offset := EndianConvert 0x007C;
  load_address := 0;
  init_address := 0;
  play_address := 0;
  song_count := EndianConvert 1;
  default_song := EndianConvert 1;
  speed_flags := 0;
  title := repeat x00 32;
  author := repeat x00 32;
  copyright := repeat x00 32;
  flags := EndianConvert 0x0014;
  start_page := 0;
  page_length := 0;
  second_sid := 0;
  third_sid := 0
|}.

(** [class PSIDFile]: [header_] and [prg_data_]. *)
Record PSIDFile : Type := {
  header_ : PSIDHeader;
  prg_data_ : list byte
}.

(** The constructor. *)
Definition new_PSIDFile : PSIDFile :=
  {| header_ := InitializeHeader; prg_data_ := [] |}.

Definition with_addresses (h : PSIDHeader) (load init play : Z) : PSIDHeader :=
  {| magic := magic h; version := version h; data_offset := data_offset h;
     load_address := load; init_address := init; play_address := play;
     song_count := song_count h; default_song := default_song h;
     speed_flags := speed_flags h; title := title h; author := author h;
     copyright := copyright h; flags := flags h; start_page := start_page h;
     page_length := page_length h; second_sid := second_sid h;
     third_sid := third_sid h |}.

Definition with_texts (h : PSIDHeader) (t a c : list byte) : PSIDHeader :=
  {| magic := magic h; version := version h; data_offset := data_offset h;
     load_address := load_address h; init_address := init_address h;
     play_address := play_address h; song_count := song_count h;
     default_song := default_song h; speed_flags := speed_flags h;
     title := t; author := a; copyright := c; flags := flags h;
     start_page := start_page h; page_length := page_length h;
     second_sid := second_sid h; third_sid := third_sid h |}.

(** [CreateFromPRG], psidfile.cpp line 23. *)
Definition CreateFromPRG (p : PSIDFile) (prg_data : list byte)
  (init_offset play_offset : Z) : bool * PSIDFile :=
  if Z.of_nat (List.length prg_data) <? 3 then (false, p)
  else
    let load_address :=
      u16 (Z.lor (b2z (nth 0 prg_data x00))
                 (Z.shiftl (b2z (nth 1 prg_data x00)) 8)) in
    (true,
     {| header_ :=
          with_addresses (header_ p) 0x0000
            (EndianConvert (u16 (load_address + init_offset)))
            (EndianConvert (u16 (load_address + play_offset)));
        prg_data_ := prg_data |}).

(** [SetTitle], [SetAuthor] and [SetCopyright], psidfile.cpp lines 45 to
    57. *)
Definition SetTitle (p : PSIDFile) (text : list byte) : PSIDFile :=
  {| header_ := with_texts (header_ p) (CopyString text 32)
                  (author (header_ p)) (copyright (header_ p));
     prg_data_ := prg_data_ p |}.

Definition SetAuthor (p : PSIDFile) (text : list byte) : PSIDFile :=
  {| header_ := with_texts (header_ p) (title (header_ p))
                  (CopyString text 32) (copyright (header_ p));
     prg_data_ := prg_data_ p |}.

Definition SetCopyright (p : PSIDFile) (text : list byte) : PSIDFile :=
  {| header_ := with_texts (header_ p) (title (header_ p))
                  (author (header_ p)) (CopyString text 32);
     prg_data_ := prg_data_ p |}.

(** [GetPSIDData], psidfile.cpp line 78. *)
Definition GetPSIDData (p : PSIDFile) : list byte :=
  header_bytes (header_ p) ++ prg_data_ p.

(** [WriteToFile], psidfile.cpp line 60: what the file holds when the
    stream can be opened ([can_open]) and every write succeeds. *)
Definition WriteToFile (can_open : bool) (p : PSIDFile)
  : bool * option (list byte) :=
  if can_open
  then (true,
        Some (header_bytes (header_ p)
                ++ (if Nat.eqb (List.length (prg_data_ p)) 0 then []
                    else prg_data_ p)))
  else (false, None).

(** ** sf2pack.cpp *)

(** [DefaultDriverConfig]. *)
Definition DRIVER_CODE_TOP : Z := 0x0D7E.
Definition DRIVER_CODE_SIZE : Z := 0x0800.
Definition CURRENT_LOWEST_ZP : Z := 0x02.
Definition INIT_OFFSET : Z := 0x0000.
Definition PLAY_OFFSET : Z := 0x0003.

(** [struct Options]. *)
Record Options : Type := {
  input_file : string;
  output_file : string;
  address : Z;               (* unsigned short *)
  zp : Z;                    (* unsigned char *)
  opt_title : string;
  opt_author : string;
  opt_copyright : string;
  verbose : bool
}.

Definition initial_options (input output : string) : Options := {|
  input_file := input; output_file := output; address := 0x1000; zp := 0x02;
  opt_title := EmptyString; opt_author := EmptyString;
  opt_copyright := EmptyString; verbose := false
|}.

Definition set_address (o : Options) (v : Z) : Options :=
  {| input_file := input_file o; output_file := output_file o; address := v;
     zp := zp o; opt_title := opt_title o; opt_author := opt_author o;
     opt_copyright := opt_copyright o; verbose := verbose o |}.

Definition set_zp (o : Options) (v : Z) : Options :=
  {| input_file := input_file o; output_file := output_file o;
     address := address o; zp := v; opt_title := opt_title o;
     opt_author := opt_author o; opt_copyright := opt_copyright o;
     verbose := verbose o |}.

Definition set_title (o : Options) (t : string) : Options :=
  {| input_file := input_file o; output_file := output_file o;
     address := address o; zp := zp o; opt_title := t;
     opt_author := opt_author o; opt_copyright := opt_copyright o;
     verbose := verbose o |}.

Definition set_author (o : Options) (t : string) : Options :=
  {| input_file := input_file o; output_file := output_file o;
     address := address o; zp := zp o; opt_title := opt_title o;
     opt_author := t; opt_copyright := opt_copyright o;
     verbose := verbose o |}.

Definition set_copyright (o : Options) (t : string) : Options :=
  {| input_file := input_file o; output_file := output_file o;
     address := address o; zp := zp o; opt_title := opt_title o;
     opt_author := opt_author o; opt_copyright := t; verbose := verbose o |}.

Definition set_verbose (o : Options) : Options :=
  {| input_file := input_file o; output_file := output_file o;
     address := address o; zp := zp o; opt_title := opt_title o;
     opt_author := opt_author o; opt_copyright := opt_copyright o;
     verbose := true |}.

(** How [ParseArguments] ends: it returns [true] with the options filled
    in, it returns [false], after a line on the error stream for an option
    it does not know, or [std::stoul] throws. *)
Inductive parse_result : Type :=
| Parsed (o : Options)
| Refused (cerr : option string)
| ParseThrew.

(** How [main] ends: with an exit code, what it wrote to the error stream
    and the output file it left, by behaviour that is not defined, or not
    at all. *)
Inductive main_result : Type :=
| Exit (code : Z) (cerr : option string) (file : option (list byte))
| MainUndefined
| MainDiverged.

Section Tool.

(** [std::stoul(text, nullptr, 0)]: the number, or nothing when it
    throws; [stoul_what] is the text of that exception. *)
Variable stoul : string -> option Z.
Variable stoul_what : string.

(** The input file, when it can be opened and read, and whether the
    output file can be opened. *)
Variable read_file : string -> option (list byte).
Variable can_open_output : bool.

(** The loop of [ParseArguments], sf2pack.cpp line 71, over [argv[i]],
    [argv[i + 1]], ... *)
Fixpoint parse_options (args : list string) (o : Options) : parse_result :=
  match args with
  | [] => Parsed o
  | arg :: rest =>
      let flag_or_unknown :=
        if String.eqb arg "-v" || String.eqb arg "--verbose"
        then parse_options rest (set_verbose o)
        else if String.eqb arg "--help" || String.eqb arg "-h"
        then Refused None
        else Refused (Some ("Unknown option: " ++ arg)%string) in
      match rest with
      | value :: rest' =>
          if String.eqb arg "--address" then
            match stoul value with
            | Some v => parse_options rest' (set_address o (u16 v))
            | None => ParseThrew
            end
          else if String.eqb arg "--zp" then
            match stoul value with
            | Some v => parse_options rest' (set_zp o (u8 v))
            | None => ParseThrew
            end
          else if String.eqb arg "--title"
          then parse_options rest' (set_title o value)
          else if String.eqb arg "--author"
          then parse_options rest' (set_author o value)
          else if String.eqb arg "--copyright"
          then parse_options rest' (set_copyright o value)
          else flag_or_unknown
      | [] => flag_or_unknown
      end
  end.

(** [ParseArguments], sf2pack.cpp line 63; [argv] with the program name
    first. *)
Definition ParseArguments (argv : list string) : parse_result :=
  match argv with
  | _ :: input :: output :: rest =>
      parse_options rest (initial_options input output)
  | _ => Refused None
  end.

(** The configuration [main] builds, sf2pack.cpp lines 161 to 166. *)
Definition config_of (o : Options) : DriverConfig := {|
  driver_code_top := DRIVER_CODE_TOP;
  driver_code_size := DRIVER_CODE_SIZE;
  current_lowest_zp := CURRENT_LOWEST_ZP;
  target_lowest_zp := zp o;
  destination_address := address o
|}.

(** "Set metadata", sf2pack.cpp lines 193 to 201. *)
Definition set_metadata (o : Options) (psid : PSIDFile) : PSIDFile :=
  let psid :=
    if Nat.eqb (String.length (opt_title o)) 0 then psid
    else SetTitle psid (list_byte_of_string (opt_title o)) in
  let psid :=
    if Nat.eqb (String.length (opt_author o)) 0 then psid
    else SetAuthor psid (list_byte_of_string (opt_author o)) in
  if Nat.eqb (String.length (opt_copyright o)) 0 then psid
  else SetCopyright psid (list_byte_of_string (opt_copyright o)).

(** [main] from "Step 1: Load SF2 file" on, sf2pack.cpp lines 140 to 215,
    with the [catch] of line 217; [fuel] bounds the iterations of the loop
    of [ProcessDriverCode]. *)
Definition convert (fuel : nat) (o : Options) : main_result :=
  match read_file (input_file o) with
  | None =>
      Exit 1 (Some ("Error: Cannot open file: " ++ input_file o)%string) None
  | Some sf2_data =>
      if Z.of_nat (List.length sf2_data) <? 3
      then Exit 1 (Some "Error: SF2 file too small"%string) None
      else
        match LoadFromPRG Clear sf2_data with
        | (false, _) =>
            Exit 1 (Some "Error: Failed to load SF2 data into memory"%string)
              None
        | (true, loaded) =>
            match Pack fuel (config_of o) (fun _ => loaded) with
            | Returned packed_data _ =>
                match CreateFromPRG new_PSIDFile packed_data
                        INIT_OFFSET PLAY_OFFSET with
                | (false, _) =>
                    Exit 1 (Some "Error: Failed to create PSID file"%string)
                      None
                | (true, psid) =>
                    match WriteToFile can_open_output (set_metadata o psid)
                    with
                    | (false, _) =>
                        Exit 1
                          (Some "Error: Failed to write output file"%string)
                          None
                    | (true, file) => Exit 0 None file
                    end
                end
            | Threw what _ =>
                Exit 1 (Some ("Error: " ++ what)%string) None
            | UndefinedBehaviour => MainUndefined
            | Diverged => MainDiverged
            end
        end
  end.

(** [main], sf2pack.cpp line 117. *)
Definition main (fuel : nat) (argv : list string) : main_result :=
  match ParseArguments argv with
  | Refused cerr => Exit 1 cerr None
  | ParseThrew => Exit 1 (Some ("Error: " ++ stoul_what)%string) None
  | Parsed o => convert fuel o
  end.

End Tool.

End SF2PackTool.

(** * Facts about bytes *)

Lemma b2z_range (b : byte) : 0 <= b2z b < 256.
Proof. unfold b2z. pose proof (Byte.to_N_bounded b). lia. Qed.

Lemma b2z_z2b (z : Z) : b2z (z2b z) = z mod 256.
Proof.
  unfold b2z, z2b.
  pose proof (Z.mod_pos_bound z 256 eq_refl) as Hz.
  destruct (Byte.of_N (Z.to_N (z mod 256))) as [b|] eqn:E.
  - apply Byte.to_of_N in E. rewrite E. lia.
  - apply Byte.of_N_None_iff in E. lia.
Qed.

Lemma z2b_b2z (b : byte) : z2b (b2z b) = b.
Proof.
  unfold z2b, b2z. pose proof (Byte.to_N_bounded b).
  rewrite Z.mod_small by lia.
  now rewrite N2Z.id, Byte.of_to_N.
Qed.


(** * Core B: the relocator and the memory container *)

Module SF2PackFacts.
Import SF2Pack.

(** ** Words and bytes *)

Lemma lor_shiftl_8 (lo hi : Z) :
  0 <= lo < 256 -> 0 <= hi -> Z.lor lo (Z.shiftl hi 8) = lo + 256 * hi.
Proof.
  intros Hlo Hhi.
  assert (Hd : Z.land lo (Z.shiftl hi 8) = 0).
  { apply Z.bits_inj'. intros n Hn.
    rewrite Z.land_spec, Z.bits_0.
    destruct (Z.ltb_spec n 8).
    - rewrite (Z.shiftl_spec_low hi 8 n) by lia. apply andb_false_r.
    - destruct (Z.eq_dec lo 0) as [->|Hz]; [now rewrite Z.bits_0|].
      rewrite (Z.bits_above_log2 lo n); [reflexivity|lia|].
      apply Z.log2_lt_pow2; [lia|].
      pose proof (Z.pow_le_mono_r 2 8 n). change (2 ^ 8) with 256 in *. lia. }
  rewrite <- Z.lxor_lor by exact Hd.
  rewrite <- Z.add_nocarry_lxor by exact Hd.
  rewrite Z.shiftl_mul_pow2 by lia. change (2 ^ 8) with 256. lia.
Qed.

Lemma word_bytes (v : Z) :
  0 <= v < 65536 ->
  Z.lor (b2z (z2b (Z.land v 255)))
        (Z.shiftl (b2z (z2b (Z.land (Z.shiftr v 8) 255))) 8) = v.
Proof.
  intros Hv. rewrite !b2z_z2b.
  change 255 with (Z.ones 8). rewrite !Z.land_ones by lia.
  rewrite Z.shiftr_div_pow2 by lia. change (2 ^ 8) with 256.
  rewrite !Z.mod_mod by lia.
  rewrite lor_shiftl_8.
  - rewrite (Z.mod_small (v / 256) 256).
    + pose proof (Z.div_mod v 256). lia.
    + split; [apply Z.div_pos; lia | apply Z.div_lt_upper_bound; lia].
  - apply Z.mod_pos_bound; lia.
  - apply Z.mod_pos_bound; lia.
Qed.

Lemma operand16_range (m : C64Memory) (a : Z) : 0 <= operand16 m a < 65536.
Proof.
  unfold operand16.
  pose proof (b2z_range (m (a + 1))). pose proof (b2z_range (m (a + 2))).
  rewrite lor_shiftl_8 by lia. lia.
Qed.

(** ** The opcode matrix *)

Lemma opcode_matrix (opcode : byte) :
  (GetOpcodeSize opcode = 1 \/ GetOpcodeSize opcode = 2 \/ GetOpcodeSize opcode = 3) /\
  (RequiresRelocation (GetOpcodeAddressingMode opcode) = true ->
   GetOpcodeSize opcode = 3) /\
  (RequiresZeroPageAdjustment (GetOpcodeAddressingMode opcode) = true ->
   GetOpcodeSize opcode = 2) /\
  (RequiresRelocation (GetOpcodeAddressingMode opcode) = true ->
   RequiresZeroPageAdjustment (GetOpcodeAddressingMode opcode) = false).
Proof.
  destruct opcode; vm_compute; intuition discriminate.
Qed.

(** ** One visited instruction *)

Lemma poke_same (m : C64Memory) (i : Z) (v : byte) : poke m i v i = v.
Proof. unfold poke. now rewrite Z.eqb_refl. Qed.

Lemma poke_other (m : C64Memory) (i x : Z) (v : byte) :
  x <> i -> poke m i v x = m x.
Proof. unfold poke. intros H. now destruct (Z.eqb_spec x i). Qed.

Lemma u16_small (z : Z) : 0 <= z < 65536 -> u16 z = z.
Proof. intros H. unfold u16. now apply Z.mod_small. Qed.

Lemma relocated_value (cfg : DriverConfig) (V : Z) :
  (if (V >=? 0xD000) && (V <=? 0xDFFF) then V
   else u16 (V + GetAddressDelta cfg)) =
  (if (0xD000 <=? V) && (V <=? 0xDFFF) then V
   else (V + (destination_address cfg - driver_code_top cfg)) mod 0x10000).
Proof.
  rewrite Z.geb_leb.
  destruct ((0xD000 <=? V) && (V <=? 0xDFFF)); [reflexivity|].
  unfold u16, GetAddressDelta, u16. now rewrite Zplus_mod_idemp_r.
Qed.

Lemma visit_spec (cfg : DriverConfig) (m : C64Memory) (a : Z) :
  0 <= a -> a + 3 < 0x10000 ->
  exists m',
    visit cfg m a = Next m' (a + GetOpcodeSize (m a)) /\
    (forall x, x <= a \/ a + GetOpcodeSize (m a) <= x -> m' x = m x) /\
    (RequiresRelocation (GetOpcodeAddressingMode (m a)) = true ->
     operand16 m' a =
       if (0xD000 <=? operand16 m a) && (operand16 m a <=? 0xDFFF)
       then operand16 m a
       else (operand16 m a + (destination_address cfg - driver_code_top cfg))
              mod 0x10000) /\
    (RequiresZeroPageAdjustment (GetOpcodeAddressingMode (m a)) = true ->
     operand8 m' a =
       (target_lowest_zp cfg + (operand8 m a - current_lowest_zp cfg)) mod 256).
Proof.
  intros Ha0 Ha.
  destruct (opcode_matrix (m a)) as (Hsz & Habs & Hzp & Hex).
  assert (Hnext : u16 (a + GetOpcodeSize (m a)) = a + GetOpcodeSize (m a))
    by (apply u16_small; lia).
  assert (H1 : u16 (a + 1) = a + 1) by (apply u16_small; lia).
  unfold visit, relocate_absolute, relocate_zero_page.
  rewrite Hnext, H1.
  destruct (RequiresRelocation (GetOpcodeAddressingMode (m a))) eqn:Erel.
  - (* absolute operand *)
    rewrite (Habs eq_refl), (Hex eq_refl). cbn [Z.eqb negb Pos.eqb].
    unfold GetWord.
    replace (a + 1 + 1 <? 65536) with true by (symmetry; apply Z.ltb_lt; lia).
    replace (a + 1 + 1) with (a + 2) by lia.
    fold (operand16 m a).
    rewrite relocated_value.
    set (V := operand16 m a).
    set (V' := if (0xD000 <=? V) && (V <=? 0xDFFF) then V
               else (V + (destination_address cfg - driver_code_top cfg))
                      mod 0x10000).
    assert (HV' : 0 <= V' < 65536).
    { subst V'. pose proof (operand16_range m a).
      destruct ((0xD000 <=? V) && (V <=? 0xDFFF)); [exact H|].
      apply Z.mod_pos_bound. lia. }
    destruct (Z.eqb_spec V V') as [E|E]; cbn [negb].
    + exists m. repeat split; try congruence. intros _. exact E.
    + unfold SetWord.
      replace (a + 1 + 1 <? 65536) with true by (symmetry; apply Z.ltb_lt; lia).
      eexists. split; [reflexivity|]. repeat split.
      * intros x Hx. rewrite !poke_other by lia. reflexivity.
      * intros _. unfold operand16 at 1.
        replace (a + 1 + 1) with (a + 2) by lia.
        rewrite poke_other by lia. rewrite !poke_same.
        apply word_bytes. exact HV'.
      * discriminate.
  - destruct (RequiresZeroPageAdjustment (GetOpcodeAddressingMode (m a))) eqn:Ezp.
    + (* zero-page operand *)
      rewrite (Hzp eq_refl). cbn [Z.eqb negb Pos.eqb].
      eexists. split; [reflexivity|]. repeat split.
      * intros x Hx. unfold SetByte. rewrite poke_other by lia. reflexivity.
      * discriminate.
      * intros _. unfold operand8, SetByte, GetByte. rewrite poke_same.
        rewrite b2z_z2b. unfold u8. rewrite Z.mod_mod by lia.
        now rewrite Zplus_mod_idemp_r.
    + exists m. repeat split; discriminate.
Qed.

(** ** The whole walk *)

Lemma opcode_size_pos (opcode : byte) : 1 <= GetOpcodeSize opcode <= 3.
Proof. destruct (opcode_matrix opcode) as (H & _). lia. Qed.

Lemma instr_starts_bounds (n : nat) (m : C64Memory) (a B x : Z) :
  In x (instr_starts n m a B) -> a <= x < B.
Proof.
  revert a. induction n as [|n IH]; intros a; cbn [instr_starts]; [easy|].
  destruct (Z.ltb_spec a B); [|easy].
  intros [<-|Hin]; [lia|].
  apply IH in Hin. pose proof (opcode_size_pos (m a)). lia.
Qed.

Lemma instr_starts_ext (n : nat) (m1 m : C64Memory) (a B : Z) :
  (forall x, a <= x -> m1 x = m x) ->
  instr_starts n m1 a B = instr_starts n m a B.
Proof.
  revert a. induction n as [|n IH]; intros a Hext; cbn [instr_starts]; [easy|].
  destruct (Z.ltb_spec a B); [|easy].
  rewrite (Hext a) by lia. f_equal. apply IH.
  intros x Hx. apply Hext. pose proof (opcode_size_pos (m a)). lia.
Qed.

Lemma walk_spec (cfg : DriverConfig) (B : Z) :
  B + 2 < 0x10000 ->
  forall (fuel : nat) (m : C64Memory) (a : Z),
    0 <= a -> (Z.to_nat (B - a) < fuel)%nat ->
    exists m' e, walk fuel cfg B m a = Done m' e /\ walk_post cfg B m a m' e.
Proof.
  intros HB. induction fuel as [|fuel IH]; intros m a Ha Hfuel; [lia|].
  cbn [walk]. destruct (Z.ltb_spec a B) as [Hlt|Hge].
  - destruct (visit_spec cfg m a Ha ltac:(lia)) as (m1 & Hv & Hframe & Habs & Hzp).
    pose proof (opcode_size_pos (m a)) as Hsz.
    rewrite Hv.
    destruct (IH m1 (a + GetOpcodeSize (m a)) ltac:(lia) ltac:(lia))
      as (m' & e & Hw & Hlate & Hstop & Hfr & Hops).
    exists m', e. split; [exact Hw|].
    split; [lia|]. split; [lia|]. split.
    + intros x Hx. rewrite Hfr by lia. apply Hframe. lia.
    + intros n x Hin. destruct n as [|n]; [easy|]. cbn [instr_starts] in Hin.
      destruct (Z.ltb_spec a B); [|lia].
      destruct (opcode_matrix (m a)) as (_ & Habs3 & Hzp2 & _).
      destruct Hin as [<-|Hin].
      * split.
        -- intros Hrel. rewrite <- (Habs Hrel). specialize (Habs3 Hrel).
           unfold operand16. rewrite !Hfr by lia. reflexivity.
        -- intros Hz. rewrite <- (Hzp Hz). specialize (Hzp2 Hz).
           unfold operand8. rewrite !Hfr by lia. reflexivity.
      * rewrite <- (instr_starts_ext n m1 m) in Hin
          by (intros y Hy; apply Hframe; lia).
        pose proof (instr_starts_bounds _ _ _ _ _ Hin) as Hb.
        destruct (Hops n x Hin) as (Hx16 & Hx8).
        assert (E0 : m1 x = m x) by (apply Hframe; lia).
        assert (E1 : m1 (x + 1) = m (x + 1)) by (apply Hframe; lia).
        assert (E2 : m1 (x + 2) = m (x + 2)) by (apply Hframe; lia).
        assert (E16 : operand16 m1 x = operand16 m x)
          by (unfold operand16; now rewrite E1, E2).
        assert (E8 : operand8 m1 x = operand8 m x)
          by (unfold operand8; now rewrite E1).
        rewrite E0, E16 in Hx16. rewrite E0, E8 in Hx8. now split.
  - exists m, a. split; [reflexivity|].
    split; [lia|]. split; [lia|]. split; [reflexivity|].
    intros n x Hin. destruct n; cbn [instr_starts] in Hin; [easy|].
    destruct (Z.ltb_spec a B); [lia|easy].
Qed.

Lemma walk_more_fuel (cfg : DriverConfig) (B : Z) (fuel extra : nat)
  (m : C64Memory) (a : Z) (m' : C64Memory) (e : Z) :
  walk fuel cfg B m a = Done m' e ->
  walk (fuel + extra) cfg B m a = Done m' e.
Proof.
  revert m a. induction fuel as [|fuel IH]; intros m a; cbn [walk Nat.add];
    [discriminate|].
  destruct (a <? B); [|exact (fun H => H)].
  destruct (visit cfg m a); try discriminate. apply IH.
Qed.

Lemma process_driver_code_spec (cfg : DriverConfig) (m : C64Memory)
  (fuel : nat) :
  config_ok cfg -> region_fits cfg ->
  (Z.to_nat (driver_code_size cfg) < fuel)%nat ->
  exists m' e,
    ProcessDriverCode fuel cfg m = Done m' e /\
    walk_post cfg (driver_code_top cfg + driver_code_size cfg) m
      (driver_code_top cfg) m' e.
Proof.
  intros (Htop & Hsize & _) Hfit Hfuel. unfold region_fits in Hfit.
  unfold ProcessDriverCode. rewrite u16_small by lia.
  apply walk_spec; [exact Hfit|lia|].
  replace (driver_code_top cfg + driver_code_size cfg - driver_code_top cfg)
    with (driver_code_size cfg) by lia.
  exact Hfuel.
Qed.

(** ** C1: absolute operands *)

(** C1, as stated, fails when the region runs past 0xFFFF: for the region
    [0xFFF0 .. 0xFFF0 + 0x20) the 16-bit end address is 0x0010, the loop is
    never entered, and the instruction [LDA $0E00] at 0xFFF0 keeps its
    operand 0x0E00, where the specification asks for
    0x0E00 + (0x1000 - 0xFFF0). *)
Lemma C1_unrelocated_past_end_of_memory :
  exists m',
    (forall fuel, ProcessDriverCode (S fuel) wrapping_config
       (image [(0xFFF0, xad); (0xFFF1, x00); (0xFFF2, x0e)]) = Done m' 0xFFF0) /\
    ~ absolute_operands_relocated wrapping_config
        (image [(0xFFF0, xad); (0xFFF1, x00); (0xFFF2, x0e)]) m'.
Proof.
  eexists. split; [intros fuel; reflexivity|].
  intros H. specialize (H 0xFFF0).
  assert (Hin : In 0xFFF0 (region_instructions wrapping_config
            (image [(0xFFF0, xad); (0xFFF1, x00); (0xFFF2, x0e)])))
    by (vm_compute; left; reflexivity).
  specialize (H Hin eq_refl). vm_compute in H. discriminate.
Qed.

(** C1 (amended): when the region and the two operand bytes after it lie
    below 0x10000, [ProcessDriverCode] returns (any fuel above
    [driver_code_size] is enough) and every ABS, ABX, ABY or IND instruction
    of the region has its 16-bit operand [V] kept if [V] is in
    [[0xD000, 0xDFFF]] and replaced by
    [(V + (destination_address - driver_code_top)) mod 0x10000] otherwise. *)
Theorem C1_absolute_operands_relocated (cfg : DriverConfig) (m : C64Memory)
  (fuel : nat) :
  config_ok cfg -> region_fits cfg ->
  (Z.to_nat (driver_code_size cfg) < fuel)%nat ->
  exists m' e,
    ProcessDriverCode fuel cfg m = Done m' e /\
    absolute_operands_relocated cfg m m'.
Proof.
  intros Hok Hfit Hfuel.
  destruct (process_driver_code_spec cfg m fuel Hok Hfit Hfuel)
    as (m' & e & Hrun & _ & _ & _ & Hops).
  exists m', e. split; [exact Hrun|].
  intros a Hin Hrel. exact (proj1 (Hops _ a Hin) Hrel).
Qed.

(** The default configuration on an image that starts with [LDA $0E00]. *)
Lemma C1_absolute_operands_relocated_witness :
  config_ok default_config /\ region_fits default_config /\
  exists m' e,
    ProcessDriverCode 2049 default_config
      (image [(0x0D7E, xad); (0x0D7F, x00); (0x0D80, x0e)]) = Done m' e /\
    absolute_operands_relocated default_config
      (image [(0x0D7E, xad); (0x0D7F, x00); (0x0D80, x0e)]) m'.
Proof.
  assert (Hok : config_ok default_config) by (vm_compute; intuition discriminate).
  assert (Hfit : region_fits default_config) by reflexivity.
  split; [exact Hok|]. split; [exact Hfit|].
  apply (C1_absolute_operands_relocated default_config _ 2049 Hok Hfit).
  vm_compute. lia.
Defined.

(** ** C2: zero-page operands *)

(** C2, as stated, fails on the same kind of region: [LDA $05] at 0xFFF0 is
    never visited and keeps the operand 0x05, not 0x40 + (0x05 - 0x02). *)
Lemma C2_unrebased_past_end_of_memory :
  exists m',
    (forall fuel, ProcessDriverCode (S fuel) wrapping_config
       (image [(0xFFF0, xa5); (0xFFF1, x05)]) = Done m' 0xFFF0) /\
    ~ zero_page_operands_rebased wrapping_config
        (image [(0xFFF0, xa5); (0xFFF1, x05)]) m'.
Proof.
  eexists. split; [intros fuel; reflexivity|].
  intros H. specialize (H 0xFFF0).
  assert (Hin : In 0xFFF0 (region_instructions wrapping_config
            (image [(0xFFF0, xa5); (0xFFF1, x05)])))
    by (vm_compute; left; reflexivity).
  specialize (H Hin eq_refl). vm_compute in H. discriminate.
Qed.

(** C2 (amended): when the region and the two bytes after it lie below
    0x10000, [ProcessDriverCode] returns and every ZP, ZPX, ZPY, IZX or IZY
    instruction of the region has its operand [z] replaced by
    [(target_lowest_zp + (z - current_lowest_zp)) mod 256]. *)
Theorem C2_zero_page_operands_rebased (cfg : DriverConfig) (m : C64Memory)
  (fuel : nat) :
  config_ok cfg -> region_fits cfg ->
  (Z.to_nat (driver_code_size cfg) < fuel)%nat ->
  exists m' e,
    ProcessDriverCode fuel cfg m = Done m' e /\
    zero_page_operands_rebased cfg m m'.
Proof.
  intros Hok Hfit Hfuel.
  destruct (process_driver_code_spec cfg m fuel Hok Hfit Hfuel)
    as (m' & e & Hrun & _ & _ & _ & Hops).
  exists m', e. split; [exact Hrun|].
  intros a Hin Hz. exact (proj2 (Hops _ a Hin) Hz).
Qed.

(** Scenario S6 of the specification: target zero page 0x40, [LDA $05]. *)
Lemma C2_zero_page_operands_rebased_witness :
  config_ok zero_page_config /\ region_fits zero_page_config /\
  exists m' e,
    ProcessDriverCode 2049 zero_page_config
      (image [(0x0D7E, xa5); (0x0D7F, x05)]) = Done m' e /\
    zero_page_operands_rebased zero_page_config
      (image [(0x0D7E, xa5); (0x0D7F, x05)]) m'.
Proof.
  assert (Hok : config_ok zero_page_config)
    by (vm_compute; intuition discriminate).
  assert (Hfit : region_fits zero_page_config) by reflexivity.
  split; [exact Hok|]. split; [exact Hfit|].
  apply (C2_zero_page_operands_rebased zero_page_config _ 2049 Hok Hfit).
  vm_compute. lia.
Defined.

(** ** C3: termination and the final address *)

(** C3, as stated, fails for the default configuration: with [JMP] (0x4C,
    three bytes) as the last byte of the region, at 0x157D, the walk ends at
    0x1580, two bytes past [driver_code_top + driver_code_size = 0x157E]. *)
Lemma C3_walk_overshoots_region :
  exists m',
    (forall extra, ProcessDriverCode (2049 + extra) default_config
       (image [(0x157D, x4c)]) = Done m' 0x1580) /\
    0x1580 <> driver_code_top default_config + driver_code_size default_config.
Proof.
  eexists. split; [|discriminate].
  intros extra. apply walk_more_fuel. vm_compute. reflexivity.
Qed.

(** C3 (amended): for a region of positive size that, with two bytes of
    slack, lies below 0x10000, the walk terminates within
    [driver_code_size] iterations (each advances the address by the table
    size of its opcode, which is 1, 2 or 3) and ends at an address between
    [driver_code_top + driver_code_size] and two bytes past it. *)
Theorem C3_walk_terminates_near_region_end (cfg : DriverConfig)
  (m : C64Memory) (fuel : nat) :
  config_ok cfg -> 0 < driver_code_size cfg -> region_fits cfg ->
  (Z.to_nat (driver_code_size cfg) < fuel)%nat ->
  (forall opcode, 1 <= GetOpcodeSize opcode <= 3) /\
  exists m' e,
    ProcessDriverCode fuel cfg m = Done m' e /\
    driver_code_top cfg + driver_code_size cfg <= e
      <= driver_code_top cfg + driver_code_size cfg + 2.
Proof.
  intros Hok Hpos Hfit Hfuel. split; [exact opcode_size_pos|].
  destruct (process_driver_code_spec cfg m fuel Hok Hfit Hfuel)
    as (m' & e & Hrun & Hend & _).
  exists m', e. split; [exact Hrun|]. apply Hend. lia.
Qed.

Lemma C3_walk_terminates_near_region_end_witness :
  config_ok default_config /\ 0 < driver_code_size default_config /\
  region_fits default_config /\
  (forall opcode, 1 <= GetOpcodeSize opcode <= 3) /\
  exists m' e,
    ProcessDriverCode 2049 default_config (image [(0x157D, x4c)])
      = Done m' e /\
    driver_code_top default_config + driver_code_size default_config <= e
      <= driver_code_top default_config + driver_code_size default_config + 2.
Proof.
  assert (Hok : config_ok default_config) by (vm_compute; intuition discriminate).
  assert (Hfit : region_fits default_config) by reflexivity.
  split; [exact Hok|]. split; [reflexivity|]. split; [exact Hfit|].
  apply (C3_walk_terminates_near_region_end default_config _ 2049 Hok
           eq_refl Hfit).
  vm_compute. lia.
Defined.

(** ** C4: the size checks never fire *)

Lemma visit_never_throws (cfg : DriverConfig) (m : C64Memory) (a : Z)
  (what : string) (m' : C64Memory) :
  visit cfg m a <> Thrown what m'.
Proof.
  destruct (opcode_matrix (m a)) as (_ & Habs & Hzp & Hex).
  unfold visit, relocate_absolute, relocate_zero_page.
  destruct (RequiresRelocation (GetOpcodeAddressingMode (m a))).
  - rewrite (Habs eq_refl), (Hex eq_refl). cbn [Z.eqb negb Pos.eqb].
    destruct (GetWord m (u16 (a + 1))) as [V|]; [|discriminate].
    destruct (negb _); [|discriminate].
    destruct (SetWord _ _ _); discriminate.
  - destruct (RequiresZeroPageAdjustment (GetOpcodeAddressingMode (m a))).
    + rewrite (Hzp eq_refl). discriminate.
    + discriminate.
Qed.

(** C4: every opcode whose mode is ABS, ABX, ABY or IND has table size 3,
    every opcode whose mode is ZP, ZPX, ZPY, IZX or IZY has table size 2,
    and [ProcessDriverCode] never throws its two "Expected n-byte
    instruction" errors, whatever the memory image and configuration. *)
Theorem C4_sizes_match_modes_and_no_malformed_instruction
  (opcode : byte) (fuel : nat) (cfg : DriverConfig) (m : C64Memory)
  (what : string) (m' : C64Memory) :
  (if RequiresRelocation (GetOpcodeAddressingMode opcode)
   then GetOpcodeSize opcode = 3 else True) /\
  (if RequiresZeroPageAdjustment (GetOpcodeAddressingMode opcode)
   then GetOpcodeSize opcode = 2 else True) /\
  ProcessDriverCode fuel cfg m <> RuntimeError what m'.
Proof.
  destruct (opcode_matrix opcode) as (_ & Habs & Hzp & _).
  split; [destruct (RequiresRelocation _); auto|].
  split; [destruct (RequiresZeroPageAdjustment _); auto|].
  unfold ProcessDriverCode.
  generalize (u16 (driver_code_top cfg + driver_code_size cfg)) as B.
  generalize (driver_code_top cfg) as a. revert m.
  induction fuel as [|fuel IH]; intros m a B; cbn [walk]; [discriminate|].
  destruct (a <? B); [|discriminate].
  destruct (visit cfg m a) as [m1 a1|w m1|] eqn:Ev.
  - apply IH.
  - exfalso. exact (visit_never_throws _ _ _ _ _ Ev).
  - discriminate.
Qed.

(** ** C9: ExportToPRG followed by LoadFromPRG *)

Lemma zrange_length (start n : Z) : List.length (zrange start n) = Z.to_nat n.
Proof. unfold zrange. now rewrite length_map, length_seq. Qed.

Lemma zrange_nth (start n : Z) (i : nat) :
  (i < Z.to_nat n)%nat -> nth i (zrange start n) 0 = start + Z.of_nat i.
Proof.
  intros Hi. unfold zrange.
  set (f := fun k : nat => start + Z.of_nat k).
  transitivity (nth i (map f (seq 0 (Z.to_nat n))) (f O)).
  - apply nth_indep. now rewrite length_map, length_seq.
  - rewrite (map_nth f), seq_nth by exact Hi. reflexivity.
Qed.

Lemma export_window_nth (m : C64Memory) (start n : Z) (i : nat) :
  (i < Z.to_nat n)%nat ->
  nth i (map m (zrange start n)) x00 = m (start + Z.of_nat i).
Proof.
  intros Hi.
  transitivity (nth i (map m (zrange start n)) (m 0)).
  - apply nth_indep. now rewrite length_map, zrange_length.
  - rewrite (map_nth m), zrange_nth by exact Hi. reflexivity.
Qed.

(** C9: for every range [top < bottom] of 16-bit addresses, [ExportToPRG]
    returns a PRG whose first two bytes are [top], low byte first, and
    [LoadFromPRG] of that PRG into any container succeeds and leaves, at
    every address of [[top, bottom)], the byte the exported container held. *)
Theorem C9_export_then_load_reproduces_window (m target : C64Memory)
  (top bottom : Z) :
  0 <= top -> top < bottom -> bottom < 0x10000 ->
  exists prg target',
    ExportToPRG m top bottom = inr prg /\
    b2z (nth 0 prg x00) = top mod 256 /\
    b2z (nth 1 prg x00) = top / 256 /\
    LoadFromPRG target prg = (true, target') /\
    forall a, top <= a < bottom -> target' a = m a.
Proof.
  intros Htop Hlt Hbot.
  unfold ExportToPRG.
  destruct (Z.geb_spec top bottom) as [Hge|_]; [lia|].
  eexists. eexists. split; [reflexivity|].
  assert (Hlo : b2z (z2b (Z.land top 255)) = top mod 256).
  { rewrite b2z_z2b. change 255 with (Z.ones 8).
    rewrite Z.land_ones by lia. change (2 ^ 8) with 256.
    now rewrite Z.mod_mod by lia. }
  assert (Hhi : b2z (z2b (Z.land (Z.shiftr top 8) 255)) = top / 256).
  { rewrite b2z_z2b. change 255 with (Z.ones 8).
    rewrite Z.land_ones by lia. rewrite Z.shiftr_div_pow2 by lia.
    change (2 ^ 8) with 256. rewrite Z.mod_mod by lia.
    apply Z.mod_small. split; [apply Z.div_pos; lia|].
    apply Z.div_lt_upper_bound; lia. }
  split; [exact Hlo|]. split; [exact Hhi|].
  unfold LoadFromPRG. cbn [List.length nth skipn].
  rewrite length_map, zrange_length.
  replace (Z.of_nat (S (S (Z.to_nat (bottom - top))))) with (bottom - top + 2)
    by lia.
  destruct (Z.ltb_spec (bottom - top + 2) 3) as [Hs|_]; [lia|].
  rewrite (word_bytes top) by lia.
  replace (bottom - top + 2 - 2) with (bottom - top) by lia.
  unfold u32. rewrite (Z.mod_small (bottom - top)) by lia.
  rewrite (Z.mod_small (top + (bottom - top))) by lia.
  destruct (Z.gtb_spec (top + (bottom - top)) 65536) as [Hbig|_]; [lia|].
  split; [reflexivity|].
  intros a Ha. unfold memcpy_in.
  destruct (Z.leb_spec top a); [|lia].
  destruct (Z.ltb_spec a (top + (bottom - top))); [|lia].
  cbn [andb]. rewrite export_window_nth by lia. f_equal. lia.
Qed.

(** The window [0x1000 .. 0x1003) of an image, loaded into an empty
    container. *)
Lemma C9_export_then_load_reproduces_window_witness :
  0 <= 0x1000 /\ 0x1000 < 0x1003 /\ 0x1003 < 0x10000 /\
  exists prg target',
    ExportToPRG (image [(0x1000, xad); (0x1001, x82); (0x1002, x10)])
      0x1000 0x1003 = inr prg /\
    b2z (nth 0 prg x00) = 0x1000 mod 256 /\
    b2z (nth 1 prg x00) = 0x1000 / 256 /\
    LoadFromPRG Clear prg = (true, target') /\
    forall a, 0x1000 <= a < 0x1003 ->
      target' a = image [(0x1000, xad); (0x1001, x82); (0x1002, x10)] a.
Proof.
  split; [lia|]. split; [lia|]. split; [lia|].
  apply (C9_export_then_load_reproduces_window
           (image [(0x1000, xad); (0x1001, x82); (0x1002, x10)]) Clear
           0x1000 0x1003); lia.
Defined.

(** ** C10: Pack and the caller's container *)

Lemma copy_loop_input (n : nat) (i : Z) (h : heap) :
  copy_loop n i h input_memory = h input_memory.
Proof.
  revert i h. induction n as [|n IH]; intros i h; [reflexivity|].
  cbn [copy_loop move_loop]. now rewrite IH.
Qed.

Lemma move_loop_input (n : nat) (cfg : DriverConfig) (i : Z) (h : heap) :
  move_loop n cfg i h input_memory = h input_memory.
Proof.
  revert i h. induction n as [|n IH]; intros i h; [reflexivity|].
  cbn [copy_loop move_loop]. now rewrite IH.
Qed.

Lemma clear_loop_input (n : nat) (addr : Z) (h : heap) :
  clear_loop n addr h input_memory = h input_memory.
Proof.
  revert addr h. induction n as [|n IH]; intros a h; [reflexivity|].
  cbn [clear_loop]. now rewrite IH.
Qed.

(** C10: whenever [Pack] returns or throws, the caller's container holds
    what it held before the call: the copy, the patches, the move and the
    zeroing all go to the local [memory]. *)
Theorem C10_pack_leaves_input_memory_unchanged (fuel : nat)
  (cfg : DriverConfig) (h : heap) :
  match Pack fuel cfg h with
  | Returned _ h' | Threw _ h' => h' input_memory = h input_memory
  | UndefinedBehaviour | Diverged => True
  end.
Proof.
  unfold Pack.
  destruct (ProcessDriverCode _ _ _) as [m e|what m| |]; try exact I.
  - destruct (ExportToPRG _ _ _) as [what|packed];
      (destruct (negb _);
       [rewrite clear_loop_input, move_loop_input|];
       cbn [store object_eqb]; now rewrite copy_loop_input).
  - cbn [store object_eqb]. now rewrite copy_loop_input.
Qed.

End SF2PackFacts.

(** * Core A: the scanner and the writer *)

Module P2SFacts.
Import P2S.

(** Projections of updated states. *)
Ltac state_simpl :=
  cbn [G.realp G.p G.fsiz G.initaddr G.playaddr G.loadaddr G.i G.j G.k G.z
       G.extra G.extrabytes G.psidh G.ids G.af G.hout G.shown G.fuel
       with_realp with_p with_fsiz with_initaddr with_playaddr with_loadaddr
       with_i with_j with_k with_z with_extra with_extrabytes with_psidh
       with_ids with_af with_hout with_shown
       get set fsiz initaddr playaddr loadaddr i j k z extra pointer_p
       name cells base put p extrabytes psidh cell_array cell_index].

Ltac state_simpl_in H :=
  cbn [G.realp G.p G.fsiz G.initaddr G.playaddr G.loadaddr G.i G.j G.k G.z
       G.extra G.extrabytes G.psidh G.ids G.af G.hout G.shown G.fuel
       with_realp with_p with_fsiz with_initaddr with_playaddr with_loadaddr
       with_i with_j with_k with_z with_extra with_extrabytes with_psidh
       with_ids with_af with_hout with_shown
       get set fsiz initaddr playaddr loadaddr i j k z extra pointer_p
       name cells base put p extrabytes psidh cell_array cell_index] in H.

(** ** The scanner stops at the first check that matches *)

Lemma scan_first_match (pre post : list stmt) (check : stmt)
  (s s1 s2 : state) (r : Z) :
  all_decline pre s s1 -> run check s1 = Ok (r, s2) -> r <> 0 ->
  scan (pre ++ check :: post) s = Return r (with_z r s2).
Proof.
  intros Hpre Hrun Hr. induction Hpre as [s|c rest s sa sb Hc Hrest IH].
  - cbn [app scan]. unfold seq, call_assign, run in *.
    destruct (check s) as [| | |r' s'|]; try discriminate.
    injection Hrun as -> ->. cbn [set z].
    unfold ifte, rv. cbn [get z G.z with_z].
    destruct (Z.eqb_spec r 0); [contradiction|]. reflexivity.
  - cbn [app scan]. unfold seq, call_assign, run in Hc |- *.
    destruct (c s) as [| | |r' s'|]; try discriminate.
    injection Hc as -> ->. cbn [set z].
    unfold ifte at 1, rv. cbn [get z G.z with_z Z.eqb].
    exact (IH Hrun).
Qed.

(** ** The writer *)

Lemma in_bounds_true (l : list byte) (first n : Z) :
  0 <= first -> 0 <= n -> first + n <= Z.of_nat (List.length l) ->
  in_bounds l first n = true.
Proof.
  intros H1 H2 H3. unfold in_bounds.
  rewrite !andb_true_iff, !Z.leb_le. auto.
Qed.

Lemma payload_length (s : state) :
  0 <= G.p s -> 0 <= G.fsiz s ->
  G.p s + G.fsiz s <= Z.of_nat (List.length (G.realp s)) ->
  Z.of_nat (List.length (payload s)) = G.fsiz s.
Proof.
  intros Hp Hf Hlen. unfold payload.
  rewrite length_firstn, length_skipn. lia.
Qed.

Lemma firstn_payload (s : state) (n : Z) :
  n <= G.fsiz s ->
  firstn (Z.to_nat n) (skipn (Z.to_nat (G.p s)) (G.realp s))
  = firstn (Z.to_nat n) (payload s).
Proof.
  intros Hn. unfold payload. rewrite firstn_firstn.
  f_equal. lia.
Qed.

Lemma payload_full (s : state) :
  payload s = firstn (Z.to_nat (G.fsiz s)) (payload s).
Proof. unfold payload. rewrite firstn_firstn. f_equal. lia. Qed.

Lemma byte_at_payload (s : state) :
  0 <= G.p s -> 1 <= G.fsiz s ->
  byte_at (payload s) 0 = b2z (nth (Z.to_nat (G.p s + 0)) (G.realp s) x00).
Proof.
  intros Hp Hf. unfold byte_at, payload.
  change (Z.to_nat 0) with 0%nat.
  rewrite nth_firstn.
  destruct (Nat.ltb_spec 0 (Z.to_nat (G.fsiz s))); [|lia].
  rewrite nth_skipn. do 2 f_equal. lia.
Qed.

Lemma write_tail_spec (t : state) :
  0 <= G.p t -> 0 <= G.fsiz t ->
  G.p t + G.fsiz t <= Z.of_nat (List.length (G.realp t)) ->
  G.fsiz t + G.loadaddr t + G.extra t - 2 - 0x10000 <= G.fsiz t ->
  (j ::= fsiz + loadaddr + extra - 2;;
   IF j > 0xffff THEN fsiz ::= fsiz - (j - 0x10000) END;;
   fwrite p fsiz)%C t
  = let e := G.fsiz t + G.loadaddr t + G.extra t - 2 - 0x10000 in
    Normal
      (with_hout
         (G.hout t ++ firstn (Z.to_nat (G.fsiz t - Z.max 0 e)) (payload t))
         (with_fsiz (G.fsiz t - Z.max 0 e) (with_j (e + 0x10000) t))).
Proof.
  intros Hp Hf Hlen Hexc.
  pose proof (firstn_payload t) as Hpay.
  destruct t as [realp0 p0 fsiz0 ia pa la i0 j0 k0 z0 extra0 xb ph ids0 af0
                 hout0 shown0 fuel0].
  unfold payload in *. state_simpl_in Hpay.
  state_simpl_in Hp. state_simpl_in Hf. state_simpl_in Hlen.
  state_simpl_in Hexc.
  unfold seq, assign, store_var, lift2, rv, lit, ifte, skip. state_simpl.
  replace (fsiz0 + la + extra0 - 2 - 65536 + 65536)
    with (fsiz0 + la + extra0 - 2) by lia.
  unfold Z.gtb.
  destruct (Z.compare_spec (fsiz0 + la + extra0 - 2) 65535) as [E|E|E];
    cbn [b2i Z.eqb]; unfold fwrite, rv; state_simpl;
    rewrite in_bounds_true by lia; cbv zeta.
  - rewrite Z.max_l by lia. rewrite Z.sub_0_r, <- (Hpay fsiz0) by lia. reflexivity.
  - rewrite Z.max_l by lia. rewrite Z.sub_0_r, <- (Hpay fsiz0) by lia. reflexivity.
  - rewrite Z.max_r by lia. rewrite <- Hpay by lia. reflexivity.
Qed.

Lemma write_output_spec (s : state) :
  writer_ready s -> excess s <= G.fsiz s ->
  write_output s
  = Normal
      (with_hout
         (G.hout s ++ G.psidh s
            ++ firstn (Z.to_nat (G.extra s)) (G.extrabytes s)
            ++ firstn (Z.to_nat (G.fsiz s - Z.max 0 (excess s))) (payload s))
         (with_fsiz (G.fsiz s - Z.max 0 (excess s))
            (with_j (excess s + 0x10000)
               (with_loadaddr (new_load_addr s) s)))).
Proof.
  intros (Hh & Hx & He & Hp & Hf & Hlen & Hone) Hexc.
  pose proof (byte_at_payload s Hp) as Hb0.
  unfold excess in *. remember (new_load_addr s) as nla eqn:Hnla.
  unfold new_load_addr in Hnla.
  unfold write_output.
  remember (j ::= fsiz + loadaddr + extra - 2;;
            IF j > 0xffff THEN fsiz ::= fsiz - (j - 0x10000) END;;
            fwrite p fsiz)%C as tail eqn:Htail.
  assert (Hpl : forall h l, payload (with_hout h (with_loadaddr l s)) = payload s)
    by reflexivity.
  remember (payload s) as pl eqn:Epl. clear Epl.
  destruct s as [realp0 p0 fsiz0 ia pa la i0 j0 k0 z0 extra0 xb ph ids0 af0
                 hout0 shown0 fuel0].
  state_simpl_in Hh. state_simpl_in Hx. state_simpl_in He. state_simpl_in Hp.
  state_simpl_in Hf. state_simpl_in Hlen. state_simpl_in Hone.
  state_simpl_in Hnla. state_simpl_in Hexc. state_simpl_in Hb0.
  assert (Hph : firstn 124 ph = ph) by (rewrite <- Hh; apply firstn_all).
  unfold seq, fwrite, ifte, rv, lit, skip. state_simpl.
  rewrite in_bounds_true by (cbn; lia). cbv beta iota. state_simpl.
  change (Z.to_nat 0x7c) with 124%nat.
  change (Z.to_nat 0) with 0%nat. cbn [skipn]. rewrite !Hph.
  destruct (Z.eqb_spec extra0 0) as [E0|E0].
  - subst tail.
    rewrite write_tail_spec; state_simpl; try lia.
    cbv zeta. state_simpl. subst nla extra0.
    change (Z.to_nat 0) with 0%nat. cbn [firstn app].
    rewrite <- (Hpl hout0 la). unfold with_hout, with_loadaddr. state_simpl.
    now rewrite <- !app_assoc.
  - rewrite in_bounds_true by lia. cbv beta iota. state_simpl.
    unfold lift2 at 1. state_simpl.
    assert (Hnla' : nla = if extra0 =? 1
                          then Z.lor (b2z (nth 0 xb x00) + 256 * 0)
                                 (Z.shiftl (byte_at pl 0 + 256 * 0) 8)
                          else Z.lor (b2z (nth 0 xb x00) + 256 * 0)
                                 (Z.shiftl (b2z (nth 1 xb x00) + 256 * 0) 8)).
    { rewrite !Z.add_0_r. subst nla. destruct (Z.eqb_spec extra0 0); [lia|].
      reflexivity. }
    clear Hnla.
    destruct (Z.eqb_spec extra0 1) as [E1|E1]; cbn [b2i Z.eqb];
      unfold assign, store_var, lift2, rc, read; state_simpl;
      rewrite !in_bounds_true by lia; cbn [le_value];
      change (Z.to_nat (0 + 0)) with 0%nat;
      change (Z.to_nat (0 + 0 + 1)) with 1%nat;
      change (Z.to_nat (0 + 1)) with 1%nat;
      rewrite <- ?Hb0 by lia; rewrite <- Hnla'; subst tail;
      (rewrite write_tail_spec; state_simpl; try lia);
      cbv zeta; state_simpl;
      rewrite <- (Hpl hout0 la); unfold with_hout, with_loadaddr; state_simpl;
      now rewrite <- !app_assoc.
Qed.

End P2SFacts.

(** * Core A: rules for what a statement leaves behind *)

Module P2SFrameFacts.
Import P2S P2SFrame.

#[export] Instance Frame_strict : Frame Rstrict.
Proof. split; unfold Rstrict; [reflexivity|congruence]. Qed.

#[export] Instance Frame_hard : Frame Rhard.
Proof. split; unfold Rhard; [reflexivity|congruence]. Qed.

Lemma hard_loadaddr s s' : hard s' = hard s -> G.loadaddr s' = G.loadaddr s.
Proof. unfold hard. congruence. Qed.

#[export] Instance Frame_reset : Frame Rreset.
Proof.
  split; unfold Rreset.
  - intros s. auto.
  - intros a b c [Hab Ab] [Hbc Bc]. split; [congruence|].
    destruct Bc as [Bc|Bc]; [|now right].
    destruct Ab as [Ab|Ab]; [left; congruence|right].
    unfold default, strict in *. pose proof (hard_loadaddr _ _ Hbc).
    destruct Ab. split; congruence.
Qed.

#[export] Instance Frame_flag clear : Frame (Rflag clear).
Proof.
  split; unfold Rflag.
  - intros s. auto.
  - intros a b c Hab Hbc Hc. destruct (Hbc Hc) as [Hb Ebc].
    destruct (Hab Hb) as [Ha Eab]. split; [assumption|congruence].
Qed.

Lemma strict_hard s s' : Rstrict s s' -> Rhard s s'.
Proof. unfold Rstrict, Rhard, strict. congruence. Qed.

Lemma strict_reset s s' : Rstrict s s' -> Rreset s s'.
Proof. intros H. split; [now apply strict_hard|now left]. Qed.

Lemma reset_hard s s' : Rreset s s' -> Rhard s s'.
Proof. now intros [H _]. Qed.

Section Frame.

Context (R : state -> state -> Prop) `{HR : Frame R}.

Local Abbreviation pres := (pres R).

Lemma matching_noisy c : matching c -> noisy c.
Proof. intros H s. specialize (H s). destruct (c s); auto. Qed.

Lemma noisy_loopy c : noisy c -> loopy c.
Proof. intros H s. specialize (H s). destruct (c s); auto. Qed.

Lemma matching_pres c : matching c -> pres c.
Proof.
  intros H s. specialize (H s).
  destruct (c s); try contradiction; auto.
Qed.

(** *** Statements that return a result that is not zero *)

Lemma matching_ret (n : Z) : n <> 0 -> matching (ret (lit n)).
Proof. intros H s. exact H. Qed.

Lemma matching_seq c1 c2 : noisy c1 -> matching c2 -> matching (seq c1 c2).
Proof.
  intros H1 H2 s. unfold seq. specialize (H1 s).
  destruct (c1 s); try contradiction; auto. apply H2.
Qed.

Lemma matching_if e c1 c2 : matching c1 -> matching c2 -> matching (ifte e c1 c2).
Proof.
  intros H1 H2 s. unfold ifte. destruct (e s) as [v|]; [|exact I].
  destruct (v =? 0); [apply H2|apply H1].
Qed.

Lemma matching_bind e (f : Z -> stmt) :
  (forall v, matching (f v)) -> matching (bind e f).
Proof.
  intros H s. unfold bind. destruct (e s) as [v|]; [apply H|exact I].
Qed.

(** *** Statements that go on *)

Lemma noisy_skip : noisy skip.
Proof. intros s. exact I. Qed.

Lemma noisy_assign l e : noisy (assign l e).
Proof.
  intros s. destruct l as [x|c]; cbn [assign]; unfold store_var, write.
  - destruct (e s); exact I.
  - destruct (cell_index c s); [|exact I]. destruct (e s); [|exact I].
    destruct in_bounds; exact I.
Qed.

Lemma noisy_memmove a e src n : noisy (memmove a e src n).
Proof.
  intros s. unfold memmove. destruct (e s); [|exact I].
  destruct (n s); [|exact I]. destruct negb; [exact I|].
  destruct in_bounds; exact I.
Qed.

Lemma noisy_memset a e v n : noisy (memset a e v n).
Proof.
  intros s. unfold memset. destruct (e s); [|exact I].
  destruct in_bounds; exact I.
Qed.

Lemma noisy_strcpy_ids t : noisy (strcpy_ids t).
Proof. intros s. exact I. Qed.

Lemma noisy_strcpy_ids_from_pspeed t : noisy (strcpy_ids_from_pspeed t).
Proof.
  intros s. unfold strcpy_ids_from_pspeed.
  destruct (32 <=? _); [exact I|]. destruct (30 <=? _); exact I.
Qed.

Lemma noisy_strcat_ids t : noisy (strcat_ids t).
Proof. intros s. exact I. Qed.

Lemma noisy_sprintf_ids f a : noisy (sprintf_ids f a).
Proof. intros s. unfold sprintf_ids. destruct eval_args; exact I. Qed.

Lemma noisy_set_af e : noisy (set_af e).
Proof.
  intros s. unfold set_af. destruct (e s) as [n|]; [|exact I].
  destruct (if 0 <=? n then _ else _); exact I.
Qed.

Lemma noisy_call_assign x f : noisy (call_assign x f).
Proof. intros s. unfold call_assign. destruct (f s); exact I. Qed.

Lemma noisy_call f : noisy (call f).
Proof. intros s. unfold call. destruct (f s); exact I. Qed.

Lemma noisy_seq c1 c2 : noisy c1 -> noisy c2 -> noisy (seq c1 c2).
Proof.
  intros H1 H2 s. unfold seq. specialize (H1 s).
  destruct (c1 s); try contradiction; auto. apply H2.
Qed.

Lemma noisy_if e c1 c2 : noisy c1 -> noisy c2 -> noisy (ifte e c1 c2).
Proof.
  intros H1 H2 s. unfold ifte. destruct (e s) as [v|]; [|exact I].
  destruct (v =? 0); [apply H2|apply H1].
Qed.

Lemma noisy_bind e (f : Z -> stmt) :
  (forall v, noisy (f v)) -> noisy (bind e f).
Proof.
  intros H s. unfold bind. destruct (e s) as [v|]; [apply H|exact I].
Qed.

Lemma noisy_loop fuel cond body step :
  loopy body -> noisy step -> noisy (loop fuel cond body step).
Proof.
  intros Hb Hs. induction fuel as [|fuel IH]; intros s; cbn [loop]; [exact I|].
  destruct (cond s) as [v|]; [|exact I]. destruct (v =? 0); [exact I|].
  specialize (Hb s). destruct (body s) as [s1|s1|s1|r s1|f]; auto.
  - specialize (Hs s1). destruct (step s1); try contradiction; auto. apply IH.
  - specialize (Hs s1). destruct (step s1); try contradiction; auto. apply IH.
Qed.

Lemma noisy_for init cond step body :
  noisy init -> loopy body -> noisy step -> noisy (for_ init cond step body).
Proof.
  intros Hi Hb Hs s. unfold for_. specialize (Hi s).
  destruct (init s); try contradiction; auto.
  apply noisy_loop; assumption.
Qed.

Lemma noisy_while cond body : loopy body -> noisy (while cond body).
Proof.
  intros Hb s. unfold while.
  apply noisy_loop; [assumption|apply noisy_skip].
Qed.

(** *** Loop bodies on the way to a result that is not zero *)

Lemma loopy_break : loopy break.
Proof. intros s. exact I. Qed.

Lemma loopy_continue : loopy continue.
Proof. intros s. exact I. Qed.

Lemma loopy_seq c1 c2 : loopy c1 -> loopy c2 -> loopy (seq c1 c2).
Proof.
  intros H1 H2 s. unfold seq. specialize (H1 s).
  destruct (c1 s); auto. apply H2.
Qed.

Lemma loopy_if e c1 c2 : loopy c1 -> loopy c2 -> loopy (ifte e c1 c2).
Proof.
  intros H1 H2 s. unfold ifte. destruct (e s) as [v|]; [|exact I].
  destruct (v =? 0); [apply H2|apply H1].
Qed.

Lemma loopy_bind e (f : Z -> stmt) :
  (forall v, loopy (f v)) -> loopy (bind e f).
Proof.
  intros H s. unfold bind. destruct (e s) as [v|]; [apply H|exact I].
Qed.

(** *** Statements that keep the relation *)

Lemma pres_skip : pres skip.
Proof. intros s. apply frame_refl. Qed.

Lemma pres_break : pres break.
Proof. intros s. apply frame_refl. Qed.

Lemma pres_continue : pres continue.
Proof. intros s. apply frame_refl. Qed.

Lemma pres_ret e : pres (ret e).
Proof. intros s. unfold ret. destruct (e s); auto. intros _. apply frame_refl. Qed.

Lemma pres_assign (x : var) e :
  (forall v s, R s (set x v s)) -> pres (assign x e).
Proof.
  intros H s. cbn [assign]. unfold store_var. destruct (e s); auto.
Qed.

Lemma pres_set_af e :
  (forall t s, R s (with_af t s)) -> pres (set_af e).
Proof.
  intros H s. unfold set_af. destruct (e s) as [n|]; [|exact I].
  destruct (if 0 <=? n then _ else _); auto.
Qed.

Lemma pres_seq c1 c2 : pres c1 -> pres c2 -> pres (seq c1 c2).
Proof.
  intros H1 H2 s. unfold seq. specialize (H1 s).
  destruct (c1 s) as [s1| | | |]; auto.
  specialize (H2 s1).
  destruct (c2 s1); auto; try (eapply frame_trans; eassumption).
  intros E. eapply frame_trans; eauto.
Qed.

Lemma pres_if e c1 c2 : pres c1 -> pres c2 -> pres (ifte e c1 c2).
Proof.
  intros H1 H2 s. unfold ifte. destruct (e s) as [v|]; [|exact I].
  destruct (v =? 0); [apply H2|apply H1].
Qed.

Lemma pres_bind e (f : Z -> stmt) :
  (forall v, pres (f v)) -> pres (bind e f).
Proof.
  intros H s. unfold bind. destruct (e s) as [v|]; [apply H|exact I].
Qed.

Lemma pres_loop fuel cond body step :
  pres body -> pres step -> pres (loop fuel cond body step).
Proof.
  intros Hb Hs. induction fuel as [|fuel IH]; intros s; cbn [loop]; [exact I|].
  destruct (cond s) as [v|]; [|exact I].
  destruct (v =? 0); [apply frame_refl|].
  specialize (Hb s). destruct (body s) as [s1|s1|s1|r s1|f]; auto.
  - specialize (Hs s1).
    destruct (step s1) as [s2| | | |]; auto;
      try (eapply frame_trans; eassumption);
      try (intros E; eapply frame_trans; eauto).
    specialize (IH s2).
    destruct (loop fuel cond body step s2); auto;
      try (eapply frame_trans; [eassumption|]; eapply frame_trans; eassumption).
    intros E. eapply frame_trans; [eassumption|]. eapply frame_trans; eauto.
  - specialize (Hs s1).
    destruct (step s1) as [s2| | | |]; auto;
      try (eapply frame_trans; eassumption);
      try (intros E; eapply frame_trans; eauto).
    specialize (IH s2).
    destruct (loop fuel cond body step s2); auto;
      try (eapply frame_trans; [eassumption|]; eapply frame_trans; eassumption).
    intros E. eapply frame_trans; [eassumption|]. eapply frame_trans; eauto.
Qed.

Lemma pres_for init cond step body :
  pres init -> pres body -> pres step -> pres (for_ init cond step body).
Proof.
  intros Hi Hb Hs s. unfold for_. specialize (Hi s).
  destruct (init s) as [s0| | | |]; auto.
  pose proof (pres_loop (loop_fuel s0) cond body step Hb Hs s0) as H.
  destruct (loop (loop_fuel s0) cond body step s0); auto;
    try (eapply frame_trans; eassumption).
  intros E. eapply frame_trans; eauto.
Qed.

Lemma pres_while cond body : pres body -> pres (while cond body).
Proof.
  intros Hb s. unfold while.
  apply pres_loop; [assumption|apply pres_skip].
Qed.

End Frame.

(** Rule application along the syntax of a statement. *)
Ltac prove_matching :=
  lazymatch goal with
  | |- matching (seq _ _) => apply matching_seq; [prove_noisy | prove_matching]
  | |- matching (ifte _ _ _) => apply matching_if; prove_matching
  | |- matching (bind _ _) => apply matching_bind; intro; prove_matching
  | |- matching (ret (lit _)) => apply matching_ret; discriminate
  end
with prove_noisy :=
  lazymatch goal with
  | |- noisy (seq _ _) => apply noisy_seq; prove_noisy
  | |- noisy (ifte _ _ _) => apply noisy_if; prove_noisy
  | |- noisy (bind _ _) => apply noisy_bind; intro; prove_noisy
  | |- noisy (for_ _ _ _ _) =>
      apply noisy_for; [prove_noisy | prove_loopy | prove_noisy]
  | |- noisy (while _ _) => apply noisy_while; prove_loopy
  | |- noisy skip => apply noisy_skip
  | |- noisy (assign _ _) => apply noisy_assign
  | |- noisy (memmove _ _ _ _) => apply noisy_memmove
  | |- noisy (memset _ _ _ _) => apply noisy_memset
  | |- noisy (strcpy_ids _) => apply noisy_strcpy_ids
  | |- noisy (strcpy_ids_from_pspeed _) => apply noisy_strcpy_ids_from_pspeed
  | |- noisy (strcat_ids _) => apply noisy_strcat_ids
  | |- noisy (sprintf_ids _ _) => apply noisy_sprintf_ids
  | |- noisy (set_af _) => apply noisy_set_af
  | |- noisy (call_assign _ _) => apply noisy_call_assign
  | |- noisy (call _) => apply noisy_call
  | |- noisy AdjFC => unfold AdjFC; prove_noisy
  | |- noisy (ret _) => apply matching_noisy; prove_matching
  end
with prove_loopy :=
  lazymatch goal with
  | |- loopy (seq _ _) => apply loopy_seq; prove_loopy
  | |- loopy (ifte _ _ _) => apply loopy_if; prove_loopy
  | |- loopy (bind _ _) => apply loopy_bind; intro; prove_loopy
  | |- loopy break => apply loopy_break
  | |- loopy continue => apply loopy_continue
  | |- loopy _ => apply noisy_loopy; prove_noisy
  end.

(** ** Checks that put the two addresses back *)

Lemma strict_default s s' : Rstrict s s' -> default s -> default s'.
Proof.
  unfold Rstrict, strict, hard, default. intros E [Hi Hp].
  injection E. intros. split; congruence.
Qed.

Lemma ends_default_reset : ends_default reset.
Proof. intros s. split; reflexivity. Qed.

Lemma ends_default_matching c : matching c -> ends_default c.
Proof.
  intros H s. specialize (H s).
  destruct (c s); try contradiction; auto.
Qed.

Lemma ends_default_seq_noisy c1 c2 :
  noisy c1 -> ends_default c2 -> ends_default (seq c1 c2).
Proof.
  intros H1 H2 s. unfold seq. specialize (H1 s).
  destruct (c1 s) as [s1| | | |]; try contradiction; auto.
  apply H2.
Qed.

Lemma ends_default_seq_keep c1 c2 :
  ends_default c1 -> pres Rstrict c2 -> ends_default (seq c1 c2).
Proof.
  intros H1 H2 s. unfold seq. specialize (H1 s).
  destruct (c1 s) as [s1| | | |]; auto.
  specialize (H2 s1).
  destruct (c2 s1); auto; try (eapply strict_default; eassumption).
  intros E. eapply strict_default; eauto.
Qed.

Lemma ends_default_reset_then c :
  pres Rstrict c ->
  ends_default (initaddr ::= loadaddr;; playaddr ::= initaddr + 3;; c)%C.
Proof.
  intros H s.
  assert (D : default (with_playaddr (G.loadaddr s + 3)
                         (with_initaddr (G.loadaddr s) s)))
    by (split; reflexivity).
  change ((initaddr ::= loadaddr;; playaddr ::= initaddr + 3;; c)%C s)
    with (c (with_playaddr (G.loadaddr s + 3) (with_initaddr (G.loadaddr s) s))).
  specialize (H (with_playaddr (G.loadaddr s + 3) (with_initaddr (G.loadaddr s) s))).
  destruct (c _); auto; try (eapply strict_default; eassumption).
  intros E. eapply strict_default; eauto.
Qed.

Lemma ends_default_if e c1 c2 :
  ends_default c1 -> ends_default c2 -> ends_default (ifte e c1 c2).
Proof.
  intros H1 H2 s. unfold ifte. destruct (e s) as [v|]; [|exact I].
  destruct (v =? 0); [apply H2|apply H1].
Qed.

Lemma pres_weaken (R1 R2 : state -> state -> Prop) c :
  (forall s s', R1 s s' -> R2 s s') -> pres R1 c -> pres R2 c.
Proof.
  intros HR H s. specialize (H s). destruct (c s); auto.
Qed.

Lemma reset_of_hard_default c :
  pres Rhard c -> ends_default c -> pres Rreset c.
Proof.
  intros H1 H2 s. specialize (H1 s). specialize (H2 s).
  destruct (c s); try exact I; try intros E;
    (split; [now apply H1 | right; now apply H2]).
Qed.

(** ** Checks that decline *)

Lemma pres_declines R c : pres R c -> declines R c.
Proof.
  intros H s s' E. specialize (H s). unfold run in E.
  destruct (c s); try discriminate. injection E as -> ->. auto.
Qed.

Lemma declines_weaken (R1 R2 : state -> state -> Prop) c :
  (forall s s', R1 s s' -> R2 s s') -> declines R1 c -> declines R2 c.
Proof. intros HR H s s' E. auto. Qed.

Lemma guard_cases (n : Z) (rest : stmt) (s s' : state) :
  run (seq (ifte (lift2 (fun x y => b2i (x <? y)) (rv fsiz) (lit n))
                 (ret (lit 0)) skip) rest) s = Ok (0, s') ->
  (G.fsiz s < n /\ s' = s) \/ (n <= G.fsiz s /\ run rest s = Ok (0, s')).
Proof.
  unfold run, seq, ifte, lift2, rv, lit, ret, skip. cbn [get fsiz].
  destruct (Z.ltb_spec (G.fsiz s) n) as [Hlt|Hge]; cbn [b2i Z.eqb].
  - intros E. injection E as ->. now left.
  - intros E. right. auto.
Qed.

Lemma declines_leak (n : Z) (rest : stmt) :
  pres Rhard rest ->
  declines (Rleak n)
    (seq (ifte (lift2 (fun x y => b2i (x <? y)) (rv fsiz) (lit n))
               (ret (lit 0)) skip) rest).
Proof.
  intros H s s' E. destruct (guard_cases _ _ _ _ E) as [[Hlt ->]|[Hge E']].
  - split; [reflexivity|now left].
  - split; [|now right]. exact (pres_declines _ _ H _ _ E').
Qed.

Lemma declines_force (n : Z) (rest : stmt) :
  pres Rhard rest -> ends_default rest ->
  declines (Rforce n)
    (seq (ifte (lift2 (fun x y => b2i (x <? y)) (rv fsiz) (lit n))
               (ret (lit 0)) skip) rest).
Proof.
  intros H D s s' E. destruct (guard_cases _ _ _ _ E) as [[Hlt ->]|[Hge E']].
  - split; [reflexivity|right; auto].
  - split; [exact (pres_declines _ _ H _ _ E')|left].
    specialize (D s). unfold run in E'.
    destruct (rest s); try discriminate. injection E' as -> ->. auto.
Qed.

(** ** Along the list of checks *)

Lemma hard_fsiz s s' : hard s' = hard s -> G.fsiz s' = G.fsiz s.
Proof. unfold hard. congruence. Qed.

Lemma reset_default s s' : Rreset s s' -> default s -> default s'.
Proof.
  intros [_ [E|D]] Hd; [|assumption]. eapply strict_default; eassumption.
Qed.

Lemma step_reset_pre s0 c :
  declines Rreset c -> step_ok (Inv_pre s0) (Inv_pre s0) c.
Proof.
  intros H s s' [Hh Hd] E. specialize (H _ _ E).
  pose proof (reset_hard _ _ H) as Hh'. unfold Rhard in Hh'.
  split; [change (hard s' = hard s0); congruence|].
  destruct Hd as [Hd|Hd]; [left|now right].
  change (default s'). eapply reset_default; eassumption.
Qed.

Lemma step_reset_post s0 c :
  declines Rreset c -> step_ok (Inv_post s0) (Inv_post s0) c.
Proof.
  intros H s s' [Hh Hd] E. specialize (H _ _ E).
  pose proof (reset_hard _ _ H) as Hh'. unfold Rhard in Hh'.
  split; [change (hard s' = hard s0); congruence|].
  change (default s'). eapply reset_default; eassumption.
Qed.

Lemma step_strict_pre s0 c :
  declines Rstrict c -> step_ok (Inv_pre s0) (Inv_pre s0) c.
Proof.
  intros H. apply step_reset_pre.
  eapply declines_weaken; [exact strict_reset|exact H].
Qed.

Lemma step_strict_post s0 c :
  declines Rstrict c -> step_ok (Inv_post s0) (Inv_post s0) c.
Proof.
  intros H. apply step_reset_post.
  eapply declines_weaken; [exact strict_reset|exact H].
Qed.

Lemma step_leak_pre n s0 c :
  0x100 <= n -> declines (Rleak n) c -> step_ok (Inv_pre s0) (Inv_pre s0) c.
Proof.
  intros Hn H s s' [Hh Hd] E. destruct (H _ _ E) as [Hh' Hc].
  split; [change (hard s' = hard s0); congruence|].
  destruct Hd as [Hd|Hd]; [|now right].
  destruct Hc as [Hc|Hc].
  - left. change (default s'). eapply strict_default; eassumption.
  - right. rewrite <- (hard_fsiz _ _ Hh). lia.
Qed.

Lemma step_force s0 c :
  declines (Rforce 0x100) c -> step_ok (Inv_pre s0) (Inv_post s0) c.
Proof.
  intros H s s' [Hh Hd] E. destruct (H _ _ E) as [Hh' Hc].
  split; [change (hard s' = hard s0); congruence|].
  change (default s').
  destruct Hc as [Hc|[Hlt Hc]]; [assumption|].
  destruct Hd as [Hd|Hd].
  - eapply strict_default; eassumption.
  - rewrite <- (hard_fsiz _ _ Hh) in Hd. lia.
Qed.

Lemma all_decline_keep (P : state -> Prop) (checks : list stmt) (s s' : state) :
  Forall (step_ok P P) checks -> all_decline checks s s' -> P s -> P s'.
Proof.
  intros HF HD. induction HD as [s|c rest s s1 s' Hc Hrest IH]; [auto|].
  inversion HF as [|? ? Hstep HF']; subst. intros HP.
  apply IH; [assumption|]. eapply Hstep; eassumption.
Qed.

Lemma all_decline_app (l1 l2 : list stmt) (s s' : state) :
  all_decline (l1 ++ l2) s s' ->
  exists m, all_decline l1 s m /\ all_decline l2 m s'.
Proof.
  revert s. induction l1 as [|c l1 IH]; intros s H.
  - exists s. split; [constructor|exact H].
  - cbn [app] in H. inversion H as [|? ? ? s1 ? Hc Hrest]; subst.
    destruct (IH _ Hrest) as (m & H1 & H2).
    exists m. split; [econstructor; eassumption|assumption].
Qed.

Lemma scan_declines (table : list stmt) (s s' : state) :
  all_decline table s s' -> scan table s = Return 0 s'.
Proof.
  induction 1 as [s|c rest s s1 s' Hc Hrest IH]; [reflexivity|].
  cbn [scan]. unfold seq, call_assign, run in Hc |- *.
  destruct (c s) as [| | |r t|]; try discriminate.
  injection Hc as -> ->. cbn [set z].
  unfold ifte at 1, rv. cbn [get z G.z with_z Z.eqb]. exact IH.
Qed.

(** ** Checks that keep their result in a flag *)

Lemma declines_flagged (clear : state -> Prop) (n : Z) (flag : var) (v0 : Z)
  (body fin : stmt) :
  (forall s, clear (set flag v0 s) /\ strict (set flag v0 s) = strict s) ->
  pres (Rflag clear) body -> noisy body -> fin_ok clear fin ->
  declines Rstrict
    (seq (ifte (lift2 (fun x y => b2i (x <? y)) (rv fsiz) (lit n))
               (ret (lit 0)) skip)
       (seq (assign flag (lit v0)) (seq body fin))).
Proof.
  intros Hinit Hbody Hnoisy Hfin s s' E.
  destruct (guard_cases _ _ _ _ E) as [[Hlt ->]|[Hge E']]; [reflexivity|].
  unfold run, seq in E'. cbn [assign] in E'. unfold store_var, lit in E'.
  destruct (Hinit s) as [Hc Hs].
  specialize (Hbody (set flag v0 s)). specialize (Hnoisy (set flag v0 s)).
  destruct (body (set flag v0 s)) as [s1| | |r s1|]; try contradiction;
    try discriminate.
  - specialize (Hfin s1). destruct (fin s1); try discriminate.
    injection E' as -> ->. destruct (Hfin eq_refl) as [Hc1 Es].
    destruct (Hbody Hc1) as [_ Eb]. unfold Rstrict. congruence.
  - injection E' as -> ->. contradiction.
Qed.

(** An assignment to a variable the relation does not look at. *)
Ltac solve_keep :=
  intros ? ?;
  first [ reflexivity
        | split; [reflexivity | left; reflexivity]
        | intros Hclear; split; [exact Hclear | reflexivity] ].

Lemma fin_ok_ret_flag (clear : state -> Prop) (flag : var) :
  (forall s, get flag s = 0 -> clear s) -> fin_ok clear (ret (rv flag)).
Proof. intros H s. cbn. auto. Qed.

Lemma fin_ok_if_matching (clear : state -> Prop) e blk :
  matching blk -> (forall s v, e s = Ok v -> v = 0 -> clear s) ->
  fin_ok clear (seq (ifte e blk skip) (ret (lit 0))).
Proof.
  intros Hm He s. unfold seq, ifte. specialize (He s).
  destruct (e s) as [v|]; [|exact I].
  destruct (Z.eqb_spec v 0) as [->|Hv].
  - cbn. intros _. split; [eauto|reflexivity].
  - specialize (Hm s). destruct (blk s); try contradiction; auto.
Qed.

(** A block that ends with the flag set. *)
Ltac flag_block :=
  let s := fresh "s" in
  let H := fresh "H" in
  intros s;
  cbv [seq assign store_var strcpy_ids strcat_ids break lift2 rv lit Rflag
       get set i j k z initaddr playaddr loadaddr fsiz extra
       G.realp G.p G.fsiz G.initaddr G.playaddr G.loadaddr G.i G.j G.k G.z
       G.extra G.extrabytes G.psidh G.ids G.af G.hout G.shown G.fuel
       with_i with_j with_k with_z with_initaddr with_playaddr with_ids];
  intros H; exfalso; revert H; first [discriminate | lia].

Ltac prove_pres :=
  lazymatch goal with
  | |- pres _ (seq _ _) =>
      first [ solve [apply pres_seq; [exact _ | prove_pres | prove_pres]]
            | solve [apply matching_pres; prove_matching]
            | solve [apply reset_of_hard_default;
                     [prove_pres | prove_ends_default]]
            | solve [flag_block] ]
  | |- pres _ (ifte _ _ _) =>
      first [ solve [apply pres_if; prove_pres]
            | solve [apply matching_pres; prove_matching]
            | solve [apply reset_of_hard_default;
                     [prove_pres | prove_ends_default]] ]
  | |- pres _ (bind _ _) => apply pres_bind; intro; prove_pres
  | |- pres _ (for_ _ _ _ _) =>
      apply pres_for; [exact _ | prove_pres | prove_pres | prove_pres]
  | |- pres _ (while _ _) => apply pres_while; [exact _ | prove_pres]
  | |- pres _ skip => apply pres_skip; exact _
  | |- pres _ break => apply pres_break; exact _
  | |- pres _ continue => apply pres_continue; exact _
  | |- pres _ (ret _) => apply pres_ret; exact _
  | |- pres _ (assign (LVar _) _) => apply pres_assign; solve_keep
  | |- pres _ (set_af _) => apply pres_set_af; solve_keep
  end
with prove_ends_default :=
  lazymatch goal with
  | |- ends_default (seq (assign (LVar initaddr) (rv loadaddr))
                         (seq (assign (LVar playaddr)
                                 (lift2 Z.add (rv initaddr) (lit 3))) _)) =>
      apply ends_default_reset_then; prove_pres
  | |- ends_default (seq (assign (LVar initaddr) (rv loadaddr))
                         (assign (LVar playaddr)
                            (lift2 Z.add (rv initaddr) (lit 3)))) =>
      apply ends_default_reset
  | |- ends_default (seq _ _) =>
      first [ solve [apply ends_default_matching; prove_matching]
            | solve [apply ends_default_seq_noisy;
                     [prove_noisy | prove_ends_default]]
            | solve [apply ends_default_seq_keep;
                     [prove_ends_default | prove_pres]] ]
  | |- ends_default (ifte _ _ _) =>
      first [ solve [apply ends_default_matching; prove_matching]
            | solve [apply ends_default_if; prove_ends_default] ]
  | |- ends_default _ => apply ends_default_matching; prove_matching
  end.

End P2SFrameFacts.

(** * Core A: every check, when it declines *)

Module P2SChecks.
Import P2S P2SFrame P2SFrameFacts.

Section Declines.

Variable printf_2_1f : Z -> Z -> string.

Lemma Chk_FC_declines : declines Rstrict (Chk_FC).
Proof. apply pres_declines. unfold Chk_FC. prove_pres. Qed.

Lemma Chk_FCAlt_declines : declines Rstrict (Chk_FCAlt).
Proof. apply pres_declines. unfold Chk_FCAlt. prove_pres. Qed.

Lemma Chk_MusAss_declines : declines Rstrict (Chk_MusAss).
Proof. apply pres_declines. unfold Chk_MusAss. prove_pres. Qed.

Lemma Chk_MusMix_declines : declines Rstrict (Chk_MusMix).
Proof. apply pres_declines. unfold Chk_MusMix. prove_pres. Qed.

Lemma Chk_GMC_declines : declines Rstrict (Chk_GMC).
Proof. apply pres_declines. unfold Chk_GMC. prove_pres. Qed.

Lemma Chk_Bappalander_declines : declines Rstrict (Chk_Bappalander).
Proof. apply pres_declines. unfold Chk_Bappalander. prove_pres. Qed.

Lemma Chk_TrkPl3_declines : declines Rstrict (Chk_TrkPl3).
Proof. apply pres_declines. unfold Chk_TrkPl3. prove_pres. Qed.

Lemma Chk_Groovy_declines : declines Rstrict (Chk_Groovy).
Proof. apply pres_declines. unfold Chk_Groovy. prove_pres. Qed.

Lemma Chk_Parsec_declines : declines Rstrict (Chk_Parsec).
Proof. apply pres_declines. unfold Chk_Parsec. prove_pres. Qed.

Lemma Chk_Sosperec_declines : declines Rstrict (Chk_Sosperec).
Proof. apply pres_declines. unfold Chk_Sosperec. prove_pres. Qed.

Lemma Chk_SoedeSoft_declines : declines Rstrict (Chk_SoedeSoft).
Proof. apply pres_declines. unfold Chk_SoedeSoft. prove_pres. Qed.

Lemma Chk_Prosonix1_declines : declines Rstrict (Chk_Prosonix1).
Proof. apply pres_declines. unfold Chk_Prosonix1. prove_pres. Qed.

Lemma Chk_4JMPS_declines : declines Rstrict (Chk_4JMPS).
Proof. apply pres_declines. unfold Chk_4JMPS. prove_pres. Qed.

Lemma Chk_Heathcliff_declines : declines Rstrict (Chk_Heathcliff).
Proof. apply pres_declines. unfold Chk_Heathcliff. prove_pres. Qed.

Lemma Chk_3JMPs1_declines : declines Rstrict (Chk_3JMPs1).
Proof. apply pres_declines. unfold Chk_3JMPs1. prove_pres. Qed.

Lemma Chk_ArneAFL_declines : declines Rstrict (Chk_ArneAFL).
Proof. apply pres_declines. unfold Chk_ArneAFL. prove_pres. Qed.

Lemma Chk_ArneSndMk_declines : declines Rstrict Chk_ArneSndMk.
Proof.
  unfold Chk_ArneSndMk. apply (declines_flagged (fun s => G.i s = 0)).
  - intros s. split; reflexivity.
  - prove_pres.
  - prove_noisy.
  - apply fin_ok_ret_flag. auto.
Qed.

Lemma Chk_Digitalizer_declines : declines Rstrict (Chk_Digitalizer).
Proof. apply pres_declines. unfold Chk_Digitalizer. prove_pres. Qed.

Lemma Chk_Soundmon_declines : declines Rstrict (Chk_Soundmon).
Proof. apply pres_declines. unfold Chk_Soundmon. prove_pres. Qed.

Lemma Chk_AMP2_declines : declines Rstrict (Chk_AMP2).
Proof. apply pres_declines. unfold Chk_AMP2. prove_pres. Qed.

Lemma Chk_FC3x_declines : declines Rstrict (Chk_FC3x).
Proof. apply pres_declines. unfold Chk_FC3x. prove_pres. Qed.

Lemma Chk_MoN_JTS_declines : declines Rstrict (Chk_MoN_JTS).
Proof. apply pres_declines. unfold Chk_MoN_JTS. prove_pres. Qed.

Lemma Chk_3JMPs2_declines : declines Rreset Chk_3JMPs2.
Proof. apply pres_declines. unfold Chk_3JMPs2. prove_pres. Qed.

Lemma Chk_JOv2_declines : declines Rreset Chk_JOv2.
Proof. apply pres_declines. unfold Chk_JOv2. prove_pres. Qed.

Lemma Chk_2JMPs_declines : declines Rstrict (Chk_2JMPs).
Proof. apply pres_declines. unfold Chk_2JMPs. prove_pres. Qed.

Lemma Chk_LaxityV2_declines : declines Rstrict (Chk_LaxityV2).
Proof. apply pres_declines. unfold Chk_LaxityV2. prove_pres. Qed.

Lemma Chk_HubbardV5_declines : declines Rreset Chk_HubbardV5.
Proof. apply pres_declines. unfold Chk_HubbardV5. prove_pres. Qed.

Lemma Chk_HubbardV4_declines : declines Rreset Chk_HubbardV4.
Proof. apply pres_declines. unfold Chk_HubbardV4. prove_pres. Qed.

Lemma Chk_HubbardV3_declines : declines Rstrict (Chk_HubbardV3).
Proof. apply pres_declines. unfold Chk_HubbardV3. prove_pres. Qed.

Lemma Chk_HubbardV2_declines : declines Rstrict Chk_HubbardV2.
Proof.
  unfold Chk_HubbardV2. apply (declines_flagged (fun s => G.i s = 0)).
  - intros s. split; reflexivity.
  - prove_pres.
  - prove_noisy.
  - apply fin_ok_ret_flag. auto.
Qed.

Lemma Chk_HubbardV1_declines : declines Rstrict Chk_HubbardV1.
Proof.
  unfold Chk_HubbardV1. apply (declines_flagged (fun s => G.i s = 0)).
  - intros s. split; reflexivity.
  - prove_pres.
  - prove_noisy.
  - apply fin_ok_ret_flag. auto.
Qed.

Lemma Chk_MikeLSD_declines : declines Rstrict (Chk_MikeLSD).
Proof. apply pres_declines. unfold Chk_MikeLSD. prove_pres. Qed.

Lemma Chk_Comptech_declines : declines Rstrict (Chk_Comptech).
Proof. apply pres_declines. unfold Chk_Comptech. prove_pres. Qed.

Lemma Chk_SoundMaker_declines : declines Rstrict (Chk_SoundMaker).
Proof. apply pres_declines. unfold Chk_SoundMaker. prove_pres. Qed.

Lemma Chk_Electrosound_declines : declines Rstrict (Chk_Electrosound).
Proof. apply pres_declines. unfold Chk_Electrosound. prove_pres. Qed.

Lemma Chk_PollyTracker_declines : declines Rstrict (Chk_PollyTracker).
Proof. apply pres_declines. unfold Chk_PollyTracker. prove_pres. Qed.

Lemma Chk_MasterComp_declines : declines Rstrict (Chk_MasterComp).
Proof. apply pres_declines. unfold Chk_MasterComp. prove_pres. Qed.

Lemma Chk_Ubik_declines : declines Rstrict (Chk_Ubik).
Proof. apply pres_declines. unfold Chk_Ubik. prove_pres. Qed.

Lemma Chk_AMP1_declines : declines (Rleak 0x600) Chk_AMP1.
Proof. unfold Chk_AMP1. apply declines_leak. prove_pres. Qed.

Lemma Chk_Boogaloo_declines : declines Rstrict (Chk_Boogaloo).
Proof. apply pres_declines. unfold Chk_Boogaloo. prove_pres. Qed.

Lemma Chk_Bjerregaard1_declines : declines Rstrict (Chk_Bjerregaard1).
Proof. apply pres_declines. unfold Chk_Bjerregaard1. prove_pres. Qed.

Lemma Chk_Bjerregaard2_declines : declines Rstrict (Chk_Bjerregaard2).
Proof. apply pres_declines. unfold Chk_Bjerregaard2. prove_pres. Qed.

Lemma Chk_ReflexTrk_declines : declines Rstrict (Chk_ReflexTrk).
Proof. apply pres_declines. unfold Chk_ReflexTrk. prove_pres. Qed.

Lemma Chk_FAME_declines : declines (Rleak 0x300) Chk_FAME.
Proof. unfold Chk_FAME. apply declines_leak. prove_pres. Qed.

Lemma Chk_20CC_declines : declines Rstrict (Chk_20CC).
Proof. apply pres_declines. unfold Chk_20CC. prove_pres. Qed.

Lemma Chk_CTExe_declines : declines Rstrict (Chk_CTExe).
Proof. apply pres_declines. unfold Chk_CTExe. prove_pres. Qed.

Lemma Chk_System6581_declines : declines Rstrict Chk_System6581.
Proof.
  unfold Chk_System6581. apply (declines_flagged (fun s => G.j s <= 0)).
  - intros s. split; [cbn; lia|reflexivity].
  - prove_pres.
  - prove_noisy.
  - apply fin_ok_if_matching; [prove_matching|].
    intros s v E Hv. cbv [lift2 rv lit get j] in E. injection E as <-.
    unfold Z.gtb in Hv.
    destruct (Z.compare_spec (G.j s) 0); try lia; discriminate.
Qed.

Lemma Chk_MattGray_declines : declines Rstrict (Chk_MattGray).
Proof. apply pres_declines. unfold Chk_MattGray. prove_pres. Qed.

Lemma Chk_PowerMus_declines : declines Rstrict (Chk_PowerMus).
Proof. apply pres_declines. unfold Chk_PowerMus. prove_pres. Qed.

Lemma Chk_GRGTiny2_declines : declines (Rforce 0x100) Chk_GRGTiny2.
Proof.
  unfold Chk_GRGTiny2. apply declines_force; [prove_pres|prove_ends_default].
Qed.

Lemma Chk_GRGTiny4_declines : declines Rreset Chk_GRGTiny4.
Proof. apply pres_declines. unfold Chk_GRGTiny4. prove_pres. Qed.

Lemma Chk_Yip_declines : declines Rstrict Chk_Yip.
Proof.
  unfold Chk_Yip. apply (declines_flagged (fun s => G.j s = 0)).
  - intros s. split; reflexivity.
  - prove_pres.
  - prove_noisy.
  - intros s. cbv [seq ifte lift2 rv lit ret skip strcpy_ids get j].
    destruct (Z.eqb_spec (G.j s) 1) as [E|E]; cbn [b2i Z.eqb].
    + intros H. cbn in H. lia.
    + auto.
Qed.

Lemma Chk_TFX1_declines : declines Rstrict (Chk_TFX1).
Proof. apply pres_declines. unfold Chk_TFX1. prove_pres. Qed.

Lemma Chk_Griff1_declines : declines Rstrict (Chk_Griff1).
Proof. apply pres_declines. unfold Chk_Griff1. prove_pres. Qed.

Lemma Chk_Griff2_declines : declines Rstrict (Chk_Griff2).
Proof. apply pres_declines. unfold Chk_Griff2. prove_pres. Qed.

Lemma Chk_Ariston_declines : declines Rstrict (Chk_Ariston).
Proof. apply pres_declines. unfold Chk_Ariston. prove_pres. Qed.

Lemma Chk_Winterberg_declines : declines Rstrict (Chk_Winterberg).
Proof. apply pres_declines. unfold Chk_Winterberg. prove_pres. Qed.

Lemma Chk_Jensen_declines : declines Rstrict (Chk_Jensen).
Proof. apply pres_declines. unfold Chk_Jensen. prove_pres. Qed.

Lemma Chk_MegaVision_declines : declines Rstrict (Chk_MegaVision).
Proof. apply pres_declines. unfold Chk_MegaVision. prove_pres. Qed.

Lemma Chk_SkylineTech_Danne_declines : declines Rstrict (Chk_SkylineTech_Danne).
Proof. apply pres_declines. unfold Chk_SkylineTech_Danne. prove_pres. Qed.

Lemma Chk_Deflemask_declines : declines Rstrict (Chk_Deflemask).
Proof. apply pres_declines. unfold Chk_Deflemask. prove_pres. Qed.

Lemma Chk_Polyanna_declines : declines Rstrict (Chk_Polyanna).
Proof. apply pres_declines. unfold Chk_Polyanna. prove_pres. Qed.

Lemma Chk_SidFactory_declines : declines Rstrict (Chk_SidFactory).
Proof. apply pres_declines. unfold Chk_SidFactory. prove_pres. Qed.

Lemma Chk_Mssiah_declines : declines Rstrict (Chk_Mssiah).
Proof. apply pres_declines. unfold Chk_Mssiah. prove_pres. Qed.

Lemma Chk_GoatMultispeed_declines : declines Rstrict (Chk_GoatMultispeed printf_2_1f).
Proof. apply pres_declines. unfold Chk_GoatMultispeed. prove_pres. Qed.

Lemma Chk_FlexSid_declines : declines Rstrict Chk_FlexSid.
Proof.
  unfold Chk_FlexSid. apply (declines_flagged (fun s => G.j s = 0)).
  - intros s. split; reflexivity.
  - prove_pres.
  - prove_noisy.
  - apply fin_ok_if_matching; [prove_matching|].
    intros s v E Hv. cbv [lift2 rv lit get j] in E. injection E as <-.
    destruct (Z.eqb_spec (G.j s) 0); [assumption|discriminate].
Qed.

Lemma Chk_StarBars_declines : declines Rstrict (Chk_StarBars).
Proof. apply pres_declines. unfold Chk_StarBars. prove_pres. Qed.

Lemma Chk_Whittaker_declines : declines Rstrict (Chk_Whittaker).
Proof. apply pres_declines. unfold Chk_Whittaker. prove_pres. Qed.

Lemma Chk_QuantumSndTrk_declines : declines Rstrict (Chk_QuantumSndTrk).
Proof. apply pres_declines. unfold Chk_QuantumSndTrk. prove_pres. Qed.

Lemma ScanFunc_split :
  ScanFunc printf_2_1f
  = checks_before ++ Chk_GRGTiny2 :: checks_after printf_2_1f.
Proof. reflexivity. Qed.

Lemma checks_before_keep (s0 : state) :
  Forall (step_ok (Inv_pre s0) (Inv_pre s0)) checks_before.
Proof.
  unfold checks_before. repeat apply Forall_cons; [..|apply Forall_nil].
  - apply step_strict_pre. apply Chk_FC_declines.
  - apply step_strict_pre. apply Chk_FCAlt_declines.
  - apply step_strict_pre. apply Chk_MusAss_declines.
  - apply step_strict_pre. apply Chk_MusMix_declines.
  - apply step_strict_pre. apply Chk_GMC_declines.
  - apply step_strict_pre. apply Chk_Bappalander_declines.
  - apply step_strict_pre. apply Chk_TrkPl3_declines.
  - apply step_strict_pre. apply Chk_Groovy_declines.
  - apply step_strict_pre. apply Chk_Parsec_declines.
  - apply step_strict_pre. apply Chk_Sosperec_declines.
  - apply step_strict_pre. apply Chk_SoedeSoft_declines.
  - apply step_strict_pre. apply Chk_Prosonix1_declines.
  - apply step_strict_pre. apply Chk_4JMPS_declines.
  - apply step_strict_pre. apply Chk_Heathcliff_declines.
  - apply step_strict_pre. apply Chk_3JMPs1_declines.
  - apply step_strict_pre. apply Chk_ArneAFL_declines.
  - apply step_strict_pre. apply Chk_ArneSndMk_declines.
  - apply step_strict_pre. apply Chk_Digitalizer_declines.
  - apply step_strict_pre. apply Chk_Soundmon_declines.
  - apply step_strict_pre. apply Chk_AMP2_declines.
  - apply step_strict_pre. apply Chk_FC3x_declines.
  - apply step_strict_pre. apply Chk_MoN_JTS_declines.
  - apply step_reset_pre. apply Chk_3JMPs2_declines.
  - apply step_reset_pre. apply Chk_JOv2_declines.
  - apply step_strict_pre. apply Chk_2JMPs_declines.
  - apply step_strict_pre. apply Chk_LaxityV2_declines.
  - apply step_reset_pre. apply Chk_HubbardV5_declines.
  - apply step_reset_pre. apply Chk_HubbardV4_declines.
  - apply step_strict_pre. apply Chk_HubbardV3_declines.
  - apply step_strict_pre. apply Chk_HubbardV2_declines.
  - apply step_strict_pre. apply Chk_HubbardV1_declines.
  - apply step_strict_pre. apply Chk_MikeLSD_declines.
  - apply step_strict_pre. apply Chk_Comptech_declines.
  - apply step_strict_pre. apply Chk_SoundMaker_declines.
  - apply step_strict_pre. apply Chk_Electrosound_declines.
  - apply step_strict_pre. apply Chk_PollyTracker_declines.
  - apply step_strict_pre. apply Chk_MasterComp_declines.
  - apply step_strict_pre. apply Chk_Ubik_declines.
  - apply (step_leak_pre 0x600); [lia|]. apply Chk_AMP1_declines.
  - apply step_strict_pre. apply Chk_Boogaloo_declines.
  - apply step_strict_pre. apply Chk_Bjerregaard1_declines.
  - apply step_strict_pre. apply Chk_Bjerregaard2_declines.
  - apply step_strict_pre. apply Chk_ReflexTrk_declines.
  - apply (step_leak_pre 0x300); [lia|]. apply Chk_FAME_declines.
  - apply step_strict_pre. apply Chk_20CC_declines.
  - apply step_strict_pre. apply Chk_CTExe_declines.
  - apply step_strict_pre. apply Chk_System6581_declines.
  - apply step_strict_pre. apply Chk_MattGray_declines.
  - apply step_strict_pre. apply Chk_PowerMus_declines.
Qed.

Lemma checks_after_keep (s0 : state) :
  Forall (step_ok (Inv_post s0) (Inv_post s0)) (checks_after printf_2_1f).
Proof.
  unfold checks_after. repeat apply Forall_cons; [..|apply Forall_nil].
  - apply step_reset_post. apply Chk_GRGTiny4_declines.
  - apply step_strict_post. apply Chk_Yip_declines.
  - apply step_strict_post. apply Chk_TFX1_declines.
  - apply step_strict_post. apply Chk_Griff1_declines.
  - apply step_strict_post. apply Chk_Griff2_declines.
  - apply step_strict_post. apply Chk_Ariston_declines.
  - apply step_strict_post. apply Chk_Winterberg_declines.
  - apply step_strict_post. apply Chk_Jensen_declines.
  - apply step_strict_post. apply Chk_MegaVision_declines.
  - apply step_strict_post. apply Chk_SkylineTech_Danne_declines.
  - apply step_strict_post. apply Chk_Deflemask_declines.
  - apply step_strict_post. apply Chk_Polyanna_declines.
  - apply step_strict_post. apply Chk_SidFactory_declines.
  - apply step_strict_post. apply Chk_Mssiah_declines.
  - apply step_strict_post. apply Chk_GoatMultispeed_declines.
  - apply step_strict_post. apply Chk_FlexSid_declines.
  - apply step_strict_post. apply Chk_StarBars_declines.
  - apply step_strict_post. apply Chk_Whittaker_declines.
  - apply step_strict_post. apply Chk_QuantumSndTrk_declines.
Qed.

End Declines.

End P2SChecks.

(** * Core A: the conversion of a file no check matches *)

Module P2SGeneric.
Import P2S P2SFacts P2SFrame P2SFrameFacts P2SChecks.

Lemma scan_keeps_defaults (fmt : Z -> Z -> string) (s s1 : state) :
  default s -> all_decline (ScanFunc fmt) s s1 ->
  hard s1 = hard s /\ default s1.
Proof.
  intros Hd H. rewrite ScanFunc_split in H.
  apply all_decline_app in H. destruct H as (m & Hpre & H).
  inversion H as [|? ? ? m1 ? Hc Hpost]; subst.
  assert (Im : Inv_pre s m).
  { apply (all_decline_keep (Inv_pre s) _ _ _ (checks_before_keep s) Hpre).
    split; [reflexivity|now left]. }
  assert (Im1 : Inv_post s (with_z 0 m1)).
  { eapply step_force; [apply Chk_GRGTiny2_declines|exact Im|exact Hc]. }
  exact (all_decline_keep (Inv_post s) _ _ _ (checks_after_keep fmt s) Hpost Im1).
Qed.

Lemma load_address_range (file : list byte) :
  0 <= load_address file < 0x10000.
Proof.
  unfold load_address.
  pose proof (b2z_range (nth 0 file x00)) as H0.
  pose proof (b2z_range (nth 1 file x00)) as H1.
  split.
  - apply Z.lor_nonneg. split; [lia|]. apply Z.shiftl_nonneg. lia.
  - apply Z.log2_lt_cancel.
    destruct (Z.eq_dec (Z.lor (b2z (nth 0 file x00))
                          (Z.shiftl (b2z (nth 1 file x00)) 8)) 0) as [E|E];
      [rewrite E; reflexivity|].
    rewrite Z.log2_lor by (try apply Z.shiftl_nonneg; lia).
    change (Z.log2 65536) with 16.
    apply Z.max_lub_lt.
    + destruct (Z.eq_dec (b2z (nth 0 file x00)) 0) as [E0|E0];
        [rewrite E0; reflexivity|].
      apply Z.log2_lt_pow2; lia.
    + destruct (Z.eq_dec (b2z (nth 1 file x00)) 0) as [E1|E1];
        [rewrite E1; reflexivity|].
      rewrite Z.log2_shiftl by lia.
      assert (Z.log2 (b2z (nth 1 file x00)) < 8) by (apply Z.log2_lt_pow2; lia).
      lia.
Qed.

Lemma identify_generic (fmt : Z -> Z -> string) (fuel : nat) (file : list byte) (s1 : state) :
  (2 <= List.length file)%nat ->
  already_sid (initial_state fuel file) = Ok 0 ->
  all_decline (ScanFunc fmt) (scan_entry fuel file) s1 ->
  identify fmt (initial_state fuel file)
  = Normal
      (with_psidh (header_for (load_address file) (load_address file + 3))
         (with_shown
            (Some ("Generic"%string, load_address file, load_address file + 3))
            s1)).
Proof.
  intros Hlen Hsid Hscan.
  assert (Hd : default (scan_entry fuel file)) by (split; reflexivity).
  destruct (scan_keeps_defaults fmt _ _ Hd Hscan) as [Hh [Hi Hp]].
  apply scan_declines in Hscan.
  unfold identify.
  unfold seq at 1, ifte at 1. rewrite Hsid. cbn [Z.eqb skip].
  assert (E1 : ((p.[0] .| (p.[1] << 8))%E (initial_state fuel file))
               = Ok (load_address file)).
  { unfold lift2, rc, read, lit.
    cbn [cell_array cell_index cells base p G.realp G.p initial_state].
    rewrite !in_bounds_true by (cbn; lia). cbn [le_value].
    unfold load_address. now rewrite !Z.mul_0_r, !Z.add_0_r. }
  unfold seq at 1, assign at 1, store_var at 1. rewrite E1.
  unfold seq at 1, assign at 1, store_var at 1, rv at 1.
  unfold seq at 1, assign at 1, store_var at 1, lift2 at 1, rv at 1, lit at 1.
  cbn [get set loadaddr initaddr playaddr G.loadaddr G.initaddr
       with_loadaddr with_initaddr with_playaddr initial_state].
  unfold seq at 1, call at 1, Scanners, seq at 1, assign at 1, store_var at 1,
    lit at 1.
  cbn [set z].
  match goal with
  | |- context [scan _ ?st] => change st with (scan_entry fuel file)
  end.
  rewrite Hscan.
  unfold hard in Hh. cbn in Hh.
  destruct s1 as [realp1 p1 fsiz1 ia1 pa1 la1 i1 j1 k1 z1 extra1 xb1 ph1 ids1
                  af1 hout1 shown1 fuel1].
  cbn [G.realp G.p G.fsiz G.loadaddr G.extra G.extrabytes G.psidh G.ids
       G.hout G.shown G.initaddr G.playaddr] in Hh, Hi, Hp.
  injection Hh as -> -> -> -> -> -> -> -> -> ->. subst ia1 pa1.
  clear. generalize (load_address file) as L. intros L.
  generalize (Z.of_nat (List.length file)) as n. intros n.
  reflexivity.
Qed.




End P2SGeneric.

(** * Core A: scanner priority, reads past the file, truncation *)

Module P2SConversion.
Import P2S P2SFacts.

(** C6: [Scanners] calls the checks of [ScanFunc] in the order of the
    table and stops at the first that returns a result that is not zero:
    when the checks before position i all return zero and check i returns
    r, not zero, [Scanners] returns r in the state check i left (identity,
    addresses, extra bytes and patches are those of check i), and this is
    so whatever the table holds after position i: no later check runs. *)
Theorem C6_first_matching_check_wins
  (printf_2_1f : Z -> Z -> string) (pre post : list stmt) (check : stmt)
  (s s1 s2 : state) (r : Z) :
  ScanFunc printf_2_1f = pre ++ check :: post ->
  all_decline pre (with_z 0 s) s1 ->
  run check s1 = Ok (r, s2) ->
  r <> 0 ->
  Scanners printf_2_1f s = Return r (with_z r s2) /\
  forall post' : list stmt,
    scan (pre ++ check :: post') (with_z 0 s) = Return r (with_z r s2).
Proof.
  intros Htable Hpre Hrun Hr. split.
  - unfold Scanners, seq. cbn [assign]. unfold store_var, lit. cbn [set z].
    rewrite Htable. now apply scan_first_match with (s1 := s1).
  - intros post'. now apply scan_first_match with (s1 := s1).
Qed.

(** A file both [Chk_FC], at position 0, and [Chk_FCAlt], at position 1,
    match: the result is that of [Chk_FC]. *)
Lemma C6_first_matching_check_wins_witness :
  exists s2 s2' : state,
    run Chk_FC (scan_entry plenty fc_file) = Ok (1, s2) /\
    run Chk_FCAlt (scan_entry plenty fc_file) = Ok (1, s2') /\
    G.ids s2 = "FutureComposer"%string /\
    G.ids s2' = "FutureComposer (altered)"%string /\
    Scanners no_speed_text (scan_entry plenty fc_file) = Return 1 (with_z 1 s2).
Proof.
  assert (H1 : exists s2, run Chk_FC (scan_entry plenty fc_file) = Ok (1, s2) /\
                          G.ids s2 = "FutureComposer"%string)
    by (eexists; split; vm_compute; reflexivity).
  assert (H2 : exists s2', run Chk_FCAlt (scan_entry plenty fc_file) = Ok (1, s2') /\
                           G.ids s2' = "FutureComposer (altered)"%string)
    by (eexists; split; vm_compute; reflexivity).
  destruct H1 as (s2 & Hrun & Hids). destruct H2 as (s2' & Hrun' & Hids').
  exists s2, s2'. split; [exact Hrun|]. split; [exact Hrun'|].
  split; [exact Hids|]. split; [exact Hids'|].
  apply (C6_first_matching_check_wins no_speed_text [] (tl (ScanFunc no_speed_text))
           Chk_FC (scan_entry plenty fc_file) (scan_entry plenty fc_file) s2 1).
  - reflexivity.
  - apply decline_nil.
  - exact Hrun.
  - discriminate.
Defined.

(** C7, refuted: [Chk_Soundmon] asks for more than 0x2B00 bytes and an
    image that reaches 0xCB00, and then reads the four bytes at 0xCBDD; on
    a file of 0x2B01 bytes at $A000 with the first two words it compares
    in place, it reads at index 0x2BDF of the file, and so does [main]
    (in a run that allows each loop 4096 iterations, more than any loop
    before that read makes). *)
Theorem C7_soundmon_reads_past_the_file (printf_2_1f : Z -> Z -> string) :
  List.length soundmon_file = 0x2b01%nat /\
  run Chk_Soundmon (scan_entry plenty soundmon_file)
  = Err (OutOfBounds "p" 0x2bdf) /\
  main printf_2_1f (initial_state plenty soundmon_file)
  = Fault (OutOfBounds "p" 0x2bdf).
Proof. split; [|split]; vm_compute; reflexivity. Qed.

(** C8, refuted: [main] subtracts the excess from [fsiz] without comparing
    the two.  [Chk_MattGray] matches this file of 0x200 bytes at $0003 and
    puts six bytes before it that start with the address $FFFD; the excess
    is 0x201, one more than the file has, [fsiz] becomes -1 and the last
    [fwrite] is asked for that many bytes of the buffer: a read past its
    end where the specification asks for a payload cut to fit. *)
Theorem C8_excess_larger_than_the_file :
  exists s : state,
    identify no_speed_text (initial_state plenty matt_gray_file) = Normal s /\
    G.ids s = "Matt Gray"%string /\
    writer_ready s /\
    G.fsiz s = 0x200 /\ G.extra s = 6 /\ new_load_addr s = 0xfffd /\
    excess s = 0x201 /\
    write_output s = Fault (OutOfBounds "p" (-1)) /\
    main no_speed_text (initial_state plenty matt_gray_file)
    = Fault (OutOfBounds "p" (-1)).
Proof.
  eexists. split; [vm_compute; reflexivity|].
  split; [reflexivity|].
  split; [unfold writer_ready; vm_compute; intuition discriminate|].
  repeat split; vm_compute; reflexivity.
Qed.

(** X10: in a state where the arrays have their declared sizes and [p] and
    [fsiz] delimit a part of the buffer, and where the excess of
    [fsiz + new_load_addr + extra - 2] over 0x10000 is not larger than
    [fsiz], the writer ends normally and prints nothing; it writes the
    header, the extra bytes and then the payload, cut by exactly the
    excess when that is positive (the image then ends at 0x10000) and
    whole otherwise. *)
Theorem write_output_cuts_the_payload_by_the_excess (s : state) :
  writer_ready s ->
  excess s <= G.fsiz s ->
  exists s' : state,
    write_output s = Normal s' /\
    G.shown s' = G.shown s /\
    G.hout s'
    = G.hout s ++ G.psidh s
        ++ firstn (Z.to_nat (G.extra s)) (G.extrabytes s)
        ++ (if 0 <? excess s
            then firstn (Z.to_nat (G.fsiz s - excess s)) (payload s)
            else payload s) /\
    (0 < excess s ->
     G.fsiz s' + new_load_addr s + G.extra s - 2 = 0x10000).
Proof.
  intros Hready Hexc. rewrite (write_output_spec s Hready Hexc).
  eexists. split; [reflexivity|].
  cbn [G.shown G.hout G.fsiz with_hout with_fsiz with_j with_loadaddr].
  split; [reflexivity|]. split.
  - destruct (Z.ltb_spec 0 (excess s)) as [Hpos|Hneg].
    + now rewrite Z.max_r by lia.
    + rewrite Z.max_l by lia. rewrite Z.sub_0_r.
      now rewrite <- payload_full.
  - intros Hpos. rewrite Z.max_r by lia. unfold excess. lia.
Qed.

(** A file of 66 bytes at $FFF0 that no check matches: 48 bytes too many,
    18 are written. *)
Lemma write_output_cuts_the_payload_by_the_excess_witness :
  exists s : state,
    identify no_speed_text (initial_state plenty high_file) = Normal s /\
    writer_ready s /\ excess s = 48 /\ G.fsiz s = 66 /\
    exists s' : state,
      write_output s = Normal s' /\
      G.hout s' = G.psidh s ++ firstn 18 high_file.
Proof.
  assert (H : exists s : state,
             identify no_speed_text (initial_state plenty high_file) = Normal s /\
             writer_ready s /\ excess s = 48 /\ G.fsiz s = 66 /\
             G.hout s = [] /\ G.extra s = 0 /\ payload s = high_file).
  { eexists. split; [vm_compute; reflexivity|].
    split; [unfold writer_ready; vm_compute; intuition discriminate|].
    repeat split; vm_compute; reflexivity. }
  destruct H as (s & Hid & Hready & Hexc & Hfsiz & Hout & Hextra & Hpay).
  exists s. split; [exact Hid|]. split; [exact Hready|].
  split; [exact Hexc|]. split; [exact Hfsiz|].
  assert (Hle : excess s <= G.fsiz s) by (rewrite Hexc, Hfsiz; lia).
  destruct (write_output_cuts_the_payload_by_the_excess s Hready Hle)
    as (s' & Hw & _ & Hhout & _).
  exists s'. split; [exact Hw|].
  rewrite Hhout, Hout, Hextra, Hexc, Hfsiz, Hpay. reflexivity.
Defined.

End P2SConversion.

(** * sf2pack: the memory container and the packer, further properties *)

Module SF2PackMore.
Import SF2Pack SF2PackFacts SF2PackTool.

(** ** The memory container *)

Lemma u32_small (z : Z) : 0 <= z < 0x100000000 -> u32 z = z.
Proof. intros H. unfold u32. now apply Z.mod_small. Qed.

Lemma prg_load_address_range (prg : list byte) :
  0 <= Z.lor (b2z (nth 0 prg x00)) (Z.shiftl (b2z (nth 1 prg x00)) 8) < 0x10000.
Proof.
  pose proof (b2z_range (nth 0 prg x00)). pose proof (b2z_range (nth 1 prg x00)).
  rewrite lor_shiftl_8 by lia. lia.
Qed.

(** X1: a word stored with [SetWord] at an address below 0xFFFF is the
    word [GetWord] reads there, and no other byte of the container
    changes. *)
Theorem SetWord_then_GetWord (m : C64Memory) (address value : Z) :
  0 <= address -> address + 1 < 0x10000 -> 0 <= value < 0x10000 ->
  exists m' : C64Memory,
    SetWord m address value = Some m' /\
    GetWord m' address = Some value /\
    forall x, x <> address -> x <> address + 1 -> m' x = m x.
Proof.
  intros Ha Hb Hv. unfold SetWord, GetWord.
  destruct (Z.ltb_spec (address + 1) 0x10000) as [_|]; [|lia].
  eexists. split; [reflexivity|]. split.
  - rewrite poke_same, (poke_other _ (address + 1) address) by lia.
    rewrite poke_same. f_equal. now apply word_bytes.
  - intros x H1 H2. now rewrite !poke_other by assumption.
Qed.

Lemma SetWord_then_GetWord_witness :
  exists m' : C64Memory,
    SetWord Clear 0x1000 0xBEEF = Some m' /\
    GetWord m' 0x1000 = Some 0xBEEF /\
    forall x, x <> 0x1000 -> x <> 0x1000 + 1 -> m' x = Clear x.
Proof. apply (SetWord_then_GetWord Clear 0x1000 0xBEEF); lia. Defined.

(** X2: [LoadFromPRG], on a file of less than 4 GiB - 64 KiB, succeeds
    exactly when the file has a data byte after its two address bytes and
    the data ends at or below 0x10000; it then holds data byte [i] at
    [load_address + i] and is unchanged everywhere else; when it fails the
    container is unchanged. *)
Theorem LoadFromPRG_accepts_and_places (m : C64Memory) (prg_data : list byte) :
  Z.of_nat (List.length prg_data) < 0x100000000 - 0x10000 ->
  let load_address :=
    Z.lor (b2z (nth 0 prg_data x00)) (Z.shiftl (b2z (nth 1 prg_data x00)) 8) in
  let data_size := Z.of_nat (List.length prg_data) - 2 in
  (fst (LoadFromPRG m prg_data) = true <->
   1 <= data_size /\ load_address + data_size <= 0x10000) /\
  (fst (LoadFromPRG m prg_data) = true ->
   forall a,
     snd (LoadFromPRG m prg_data) a
     = if (load_address <=? a) && (a <? load_address + data_size)
       then nth (Z.to_nat (a - load_address) + 2) prg_data x00
       else m a) /\
  (fst (LoadFromPRG m prg_data) = false ->
   snd (LoadFromPRG m prg_data) = m).
Proof.
  intros Hlen load_address data_size.
  pose proof (prg_load_address_range prg_data) as Hload.
  fold load_address in Hload.
  unfold LoadFromPRG. fold load_address.
  destruct (Z.ltb_spec (Z.of_nat (List.length prg_data)) 3) as [Hs|Hs].
  - cbn [fst snd]. split; [split; [discriminate|lia]|].
    split; [discriminate|reflexivity].
  - rewrite (u32_small (Z.of_nat (List.length prg_data) - 2)) by lia.
    fold data_size. rewrite (u32_small (load_address + data_size)) by lia.
    unfold Z.gtb.
    destruct (Z.compare_spec (load_address + data_size) 0x10000) as [E|E|E];
      cbn [fst snd].
    + split; [split; [lia|reflexivity]|]. split; [|discriminate].
      intros _ a. unfold memcpy_in.
      destruct ((load_address <=? a) && (a <? load_address + data_size));
        [|reflexivity].
      rewrite nth_skipn. f_equal. lia.
    + split; [split; [lia|reflexivity]|]. split; [|discriminate].
      intros _ a. unfold memcpy_in.
      destruct ((load_address <=? a) && (a <? load_address + data_size));
        [|reflexivity].
      rewrite nth_skipn. f_equal. lia.
    + split; [split; [discriminate|lia]|].
      split; [discriminate|reflexivity].
Qed.

(** Three data bytes loaded at 0xFFFD, the last at 0xFFFF. *)
Lemma LoadFromPRG_accepts_and_places_witness :
  fst (LoadFromPRG Clear [xfd; xff; x01; x02; x03]) = true /\
  snd (LoadFromPRG Clear [xfd; xff; x01; x02; x03]) 0xFFFF = x03 /\
  snd (LoadFromPRG Clear [xfd; xff; x01; x02; x03]) 0xFFFC = x00.
Proof.
  assert (Hlen : Z.of_nat (List.length [xfd; xff; x01; x02; x03])
                 < 0x100000000 - 0x10000) by (vm_compute; reflexivity).
  destruct (LoadFromPRG_accepts_and_places Clear [xfd; xff; x01; x02; x03] Hlen)
    as (Hok & Hat & _).
  assert (Ht : fst (LoadFromPRG Clear [xfd; xff; x01; x02; x03]) = true)
    by (apply Hok; vm_compute; split; discriminate).
  split; [exact Ht|]. split.
  - rewrite (Hat Ht). reflexivity.
  - rewrite (Hat Ht). reflexivity.
Defined.

(** X3: [LoadFromData] does to a container what [LoadFromPRG] does with the
    PRG file made of the address, low byte first, and the data; both refuse
    empty data. *)
Theorem LoadFromData_is_LoadFromPRG_of_the_parts (m : C64Memory)
  (load_address : Z) (data : list byte) :
  0 <= load_address < 0x10000 ->
  Z.of_nat (List.length data) < 0x100000000 - 2 ->
  LoadFromData m load_address data
  = LoadFromPRG m (z2b (Z.land load_address 0xFF)
                   :: z2b (Z.land (Z.shiftr load_address 8) 0xFF) :: data).
Proof.
  intros Hl Hn. unfold LoadFromData, LoadFromPRG.
  cbn [List.length nth skipn].
  rewrite word_bytes by assumption.
  replace (Z.of_nat (S (S (List.length data))) - 2)
    with (Z.of_nat (List.length data)) by lia.
  rewrite (u32_small (Z.of_nat (List.length data))) by lia.
  destruct (Z.eqb_spec (Z.of_nat (List.length data)) 0) as [E|E];
    destruct (Z.ltb_spec (Z.of_nat (S (S (List.length data)))) 3) as [H|H];
    try lia; reflexivity.
Qed.

Lemma LoadFromData_is_LoadFromPRG_of_the_parts_witness :
  LoadFromData Clear 0x1000 [xa9; x00]
  = LoadFromPRG Clear [x00; x10; xa9; x00].
Proof.
  apply (LoadFromData_is_LoadFromPRG_of_the_parts Clear 0x1000 [xa9; x00]).
  - lia.
  - vm_compute. reflexivity.
Defined.

(** ** What the walk writes *)

Lemma visit_touch (cfg : DriverConfig) (m : C64Memory) (a : Z)
  (m1 : C64Memory) (a1 : Z) :
  0 <= a -> a + 3 < 0x10000 ->
  visit cfg m a = Next m1 a1 ->
  forall x, m1 x <> m x -> touches m a x.
Proof.
  intros Ha Hb Hv x Hx.
  destruct (opcode_matrix (m a)) as (_ & Habs & Hzp & Hex).
  unfold visit, relocate_absolute, relocate_zero_page in Hv.
  unfold touches.
  destruct (RequiresRelocation (GetOpcodeAddressingMode (m a))) eqn:Erel.
  - left. split; [reflexivity|].
    rewrite (Habs eq_refl), (Hex eq_refl) in Hv.
    cbn [Z.eqb negb Pos.eqb] in Hv.
    rewrite (u16_small (a + 1)) in Hv by lia.
    unfold GetWord, SetWord in Hv.
    destruct (Z.ltb_spec (a + 1 + 1) 0x10000) as [_|]; [|lia].
    destruct (negb _) in Hv.
    + injection Hv as <- _.
      destruct (Z.eq_dec x (a + 1)) as [E|E]; [now left|].
      destruct (Z.eq_dec x (a + 2)) as [E2|E2]; [now right|].
      exfalso. apply Hx. rewrite !poke_other by lia. reflexivity.
    + injection Hv as <- _. now contradiction Hx.
  - destruct (RequiresZeroPageAdjustment (GetOpcodeAddressingMode (m a))) eqn:Ez.
    + right. split; [reflexivity|].
      rewrite (Hzp eq_refl) in Hv. cbn [Z.eqb negb Pos.eqb] in Hv.
      rewrite (u16_small (a + 1)) in Hv by lia.
      injection Hv as <- _.
      destruct (Z.eq_dec x (a + 1)) as [E|E]; [assumption|].
      exfalso. apply Hx. unfold SetByte. now rewrite poke_other.
    + injection Hv as <- _. now contradiction Hx.
Qed.

Lemma visit_next (cfg : DriverConfig) (m : C64Memory) (a : Z)
  (m1 : C64Memory) (a1 : Z) :
  0 <= a -> a + 3 < 0x10000 ->
  visit cfg m a = Next m1 a1 ->
  a1 = a + GetOpcodeSize (m a) /\
  forall x, x <= a \/ a + GetOpcodeSize (m a) <= x -> m1 x = m x.
Proof.
  intros Ha Hb Hv.
  destruct (visit_spec cfg m a Ha Hb) as (m2 & Hv2 & Hframe & _).
  rewrite Hv in Hv2. injection Hv2 as -> ->. now split.
Qed.

Lemma byte_eq_dec (a b : byte) : {a = b} + {a <> b}.
Proof.
  destruct (Z.eq_dec (b2z a) (b2z b)) as [E|E].
  - left. rewrite <- (z2b_b2z a), <- (z2b_b2z b). now rewrite E.
  - right. intros ->. now apply E.
Qed.

Lemma touches_ext (m1 m : C64Memory) (a x : Z) :
  m1 a = m a -> touches m1 a x -> touches m a x.
Proof. unfold touches. now intros ->. Qed.

Lemma walk_touch (cfg : DriverConfig) (B : Z) :
  B + 2 < 0x10000 ->
  forall (fuel : nat) (m : C64Memory) (a : Z) (m' : C64Memory) (e : Z),
    0 <= a ->
    walk fuel cfg B m a = Done m' e ->
    forall x, m' x <> m x ->
      exists s, In s (instr_starts fuel m a B) /\ touches m s x.
Proof.
  intros HB. induction fuel as [|fuel IH]; intros m a m' e Ha Hw x Hx;
    [discriminate|].
  cbn [walk instr_starts] in *.
  destruct (Z.ltb_spec a B) as [Hlt|Hge].
  - destruct (visit cfg m a) as [m1 a1|w m1|] eqn:Ev; try discriminate.
    destruct (visit_next cfg m a m1 a1 Ha ltac:(lia) Ev) as [-> Hframe].
    pose proof (opcode_size_pos (m a)) as Hsz.
    destruct (byte_eq_dec (m' x) (m1 x)) as [E|E].
    + exists a. split; [now left|].
      apply (visit_touch cfg m a m1 _ Ha ltac:(lia) Ev). congruence.
    + destruct (IH m1 (a + GetOpcodeSize (m a)) m' e ltac:(lia) Hw x E)
        as (s & Hin & Ht).
      assert (Hs : a + GetOpcodeSize (m a) <= s)
        by (apply instr_starts_bounds in Hin; lia).
      exists s. split.
      * right. rewrite <- (instr_starts_ext fuel m1 m); [exact Hin|].
        intros y Hy. apply Hframe. lia.
      * apply (touches_ext m1); [apply Hframe; lia|exact Ht].
  - injection Hw as <- _. now contradiction Hx.
Qed.

Lemma instr_starts_complete (m : C64Memory) (B : Z) (k : nat) :
  forall (n : nat) (a x : Z),
    (Z.to_nat (B - a) <= n)%nat ->
    In x (instr_starts k m a B) -> In x (instr_starts n m a B).
Proof.
  induction k as [|k IH]; intros n a x Hn; cbn [instr_starts]; [easy|].
  destruct (Z.ltb_spec a B) as [Hlt|]; [|easy].
  destruct n as [|n]; [lia|]. cbn [instr_starts].
  destruct (Z.ltb_spec a B) as [_|]; [|lia].
  intros [<-|Hin]; [now left|right].
  apply IH; [|exact Hin]. pose proof (opcode_size_pos (m a)). lia.
Qed.

(** X5: when the region and the two bytes after it lie below 0x10000,
    [ProcessDriverCode] returns and the only bytes it has changed are
    operand bytes of the region's instructions with an absolute or a zero
    page addressing mode: opcodes, the operands of the other instructions
    and everything outside the region are as they were. *)
Theorem ProcessDriverCode_changes_operands_only (cfg : DriverConfig)
  (m : C64Memory) (fuel : nat) :
  config_ok cfg -> region_fits cfg ->
  (Z.to_nat (driver_code_size cfg) < fuel)%nat ->
  exists m' e,
    ProcessDriverCode fuel cfg m = Done m' e /\
    forall x, m' x <> m x -> relocated_operand_byte cfg m x.
Proof.
  intros Hok Hfit Hfuel.
  destruct (process_driver_code_spec cfg m fuel Hok Hfit Hfuel)
    as (m' & e & Hrun & _).
  exists m', e. split; [exact Hrun|].
  destruct Hok as (Htop & Hsize & _). unfold region_fits in Hfit.
  unfold ProcessDriverCode in Hrun. rewrite u16_small in Hrun by lia.
  intros x Hx.
  destruct (walk_touch cfg _ Hfit fuel m (driver_code_top cfg) m' e
              ltac:(lia) Hrun x Hx)
    as (s & Hin & Ht).
  exists s. split; [|exact Ht].
  unfold region_instructions.
  apply (instr_starts_complete m _ fuel); [lia|exact Hin].
Qed.

(** [LDA $0E00] at the start of the region: the opcode is kept and the byte
    after the instruction too. *)
Lemma ProcessDriverCode_changes_operands_only_witness :
  exists m' e,
    ProcessDriverCode 2049 default_config
      (image [(0x0D7E, xad); (0x0D7F, x00); (0x0D80, x0e)]) = Done m' e /\
    forall x, m' x <> image [(0x0D7E, xad); (0x0D7F, x00); (0x0D80, x0e)] x ->
      relocated_operand_byte default_config
        (image [(0x0D7E, xad); (0x0D7F, x00); (0x0D80, x0e)]) x.
Proof.
  apply (ProcessDriverCode_changes_operands_only default_config
           (image [(0x0D7E, xad); (0x0D7F, x00); (0x0D80, x0e)]) 2049).
  - unfold config_ok. cbn. lia.
  - unfold region_fits. cbn. lia.
  - cbn. lia.
Defined.

(** ** A configuration that relocates nothing *)

Lemma walk_invariant (P : C64Memory -> Prop) (cfg : DriverConfig) (B : Z) :
  (forall m a m1 a1, P m -> visit cfg m a = Next m1 a1 -> P m1) ->
  forall (fuel : nat) (m : C64Memory) (a : Z) (m' : C64Memory) (e : Z),
    P m -> walk fuel cfg B m a = Done m' e -> P m'.
Proof.
  intros Hstep. induction fuel as [|fuel IH]; intros m a m' e HP Hw;
    [discriminate|].
  cbn [walk] in Hw. destruct (a <? B).
  - destruct (visit cfg m a) as [m1 a1|w m1|] eqn:Ev; try discriminate.
    exact (IH m1 a1 m' e (Hstep m a m1 a1 HP Ev) Hw).
  - now injection Hw as <- _.
Qed.

Lemma word_range (m : C64Memory) (a b : Z) :
  0 <= Z.lor (b2z (m a)) (Z.shiftl (b2z (m b)) 8) < 0x10000.
Proof.
  pose proof (b2z_range (m a)). pose proof (b2z_range (m b)).
  rewrite lor_shiftl_8 by lia. lia.
Qed.

Lemma visit_identity (cfg : DriverConfig) (m : C64Memory) (a : Z)
  (m1 : C64Memory) (a1 : Z) :
  destination_address cfg = driver_code_top cfg ->
  target_lowest_zp cfg = current_lowest_zp cfg ->
  visit cfg m a = Next m1 a1 ->
  forall x, m1 x = m x.
Proof.
  intros Hd Hz Hv x.
  destruct (opcode_matrix (m a)) as (_ & Habs & Hzp & Hex).
  unfold visit, relocate_absolute, relocate_zero_page in Hv.
  destruct (RequiresRelocation (GetOpcodeAddressingMode (m a))) eqn:Erel.
  - rewrite (Habs eq_refl), (Hex eq_refl) in Hv.
    cbn [Z.eqb negb Pos.eqb] in Hv.
    unfold GetWord in Hv.
    destruct (u16 (a + 1) + 1 <? 0x10000); [|discriminate].
    set (V := Z.lor _ _) in Hv.
    assert (HV : 0 <= V < 0x10000) by apply word_range.
    assert (E : (if (V >=? 0xD000) && (V <=? 0xDFFF) then V
                 else u16 (V + GetAddressDelta cfg)) = V).
    { destruct ((V >=? 0xD000) && (V <=? 0xDFFF)); [reflexivity|].
      unfold GetAddressDelta. rewrite Hd, Z.sub_diag.
      change (u16 0) with 0. rewrite Z.add_0_r. now apply u16_small. }
    rewrite E, Z.eqb_refl in Hv. cbn [negb] in Hv.
    now injection Hv as <- _.
  - destruct (RequiresZeroPageAdjustment (GetOpcodeAddressingMode (m a))) eqn:Ez.
    + rewrite (Hzp eq_refl) in Hv. cbn [Z.eqb negb Pos.eqb] in Hv.
      injection Hv as <- _. unfold SetByte, GetByte, poke.
      destruct (Z.eqb_spec x (u16 (a + 1))) as [->|]; [|reflexivity].
      rewrite Hz. unfold u8. rewrite Zplus_mod_idemp_r.
      replace (current_lowest_zp cfg
               + (b2z (m (u16 (a + 1))) - current_lowest_zp cfg))
        with (b2z (m (u16 (a + 1)))) by lia.
      rewrite Z.mod_small by apply b2z_range. apply z2b_b2z.
    + now injection Hv as <- _.
Qed.

(** X6: with the destination at the place of the code and the target zero
    page base equal to the current one, [ProcessDriverCode] returns and
    leaves every byte of the memory as it was. *)
Theorem ProcessDriverCode_without_relocation_changes_nothing
  (cfg : DriverConfig) (m : C64Memory) (fuel : nat) :
  config_ok cfg -> region_fits cfg ->
  (Z.to_nat (driver_code_size cfg) < fuel)%nat ->
  destination_address cfg = driver_code_top cfg ->
  target_lowest_zp cfg = current_lowest_zp cfg ->
  exists m' e,
    ProcessDriverCode fuel cfg m = Done m' e /\ forall x, m' x = m x.
Proof.
  intros Hok Hfit Hfuel Hd Hz.
  destruct (process_driver_code_spec cfg m fuel Hok Hfit Hfuel)
    as (m' & e & Hrun & _).
  exists m', e. split; [exact Hrun|].
  unfold ProcessDriverCode in Hrun.
  refine (walk_invariant (fun m1 => forall x, m1 x = m x) cfg _ _
            fuel m _ m' e _ Hrun); [|reflexivity].
  intros m0 a m1 a1 HP Hv x.
  rewrite (visit_identity cfg m0 a m1 a1 Hd Hz Hv x). apply HP.
Qed.

(** [LDA $1234; STA $05] at 0x1000, not relocated. *)
Lemma ProcessDriverCode_without_relocation_changes_nothing_witness :
  exists m' e,
    ProcessDriverCode 2049 identity_config
      (image [(0x1000, xad); (0x1001, x34); (0x1002, x12);
              (0x1003, x85); (0x1004, x05)]) = Done m' e /\
    forall x,
      m' x = image [(0x1000, xad); (0x1001, x34); (0x1002, x12);
                    (0x1003, x85); (0x1004, x05)] x.
Proof.
  apply (ProcessDriverCode_without_relocation_changes_nothing identity_config
           (image [(0x1000, xad); (0x1001, x34); (0x1002, x12);
                   (0x1003, x85); (0x1004, x05)]) 2049).
  - unfold config_ok. cbn. lia.
  - unfold region_fits. cbn. lia.
  - cbn. lia.
  - reflexivity.
  - reflexivity.
Defined.

(** ** Loading and exporting *)

Lemma low_byte (lo hi : byte) :
  z2b (Z.land (Z.lor (b2z lo) (Z.shiftl (b2z hi) 8)) 0xFF) = lo.
Proof.
  pose proof (b2z_range lo). pose proof (b2z_range hi).
  rewrite lor_shiftl_8 by lia.
  change 0xFF with (Z.ones 8). rewrite Z.land_ones by lia.
  change (2 ^ 8) with 256.
  replace (b2z lo + 256 * b2z hi) with (b2z lo + b2z hi * 256) by lia.
  rewrite Z.mod_add by lia. rewrite Z.mod_small by lia. apply z2b_b2z.
Qed.

Lemma high_byte (lo hi : byte) :
  z2b (Z.land (Z.shiftr (Z.lor (b2z lo) (Z.shiftl (b2z hi) 8)) 8) 0xFF) = hi.
Proof.
  pose proof (b2z_range lo). pose proof (b2z_range hi).
  rewrite lor_shiftl_8 by lia.
  rewrite Z.shiftr_div_pow2 by lia. change (2 ^ 8) with 256.
  replace (b2z lo + 256 * b2z hi) with (b2z lo + b2z hi * 256) by lia.
  rewrite Z.div_add by lia. rewrite (Z.div_small (b2z lo)) by lia.
  change 0xFF with (Z.ones 8). rewrite Z.land_ones by lia.
  change (2 ^ 8) with 256. rewrite Z.mod_small by lia. apply z2b_b2z.
Qed.

(** X4: a PRG file that ends below 0xFFFF, loaded with [LoadFromPRG] and
    exported with [ExportToPRG] over the range it was loaded to, comes
    back byte for byte. *)
Theorem LoadFromPRG_then_ExportToPRG (m : C64Memory) (lo hi : byte)
  (data : list byte) :
  (1 <= List.length data)%nat ->
  Z.lor (b2z lo) (Z.shiftl (b2z hi) 8) + Z.of_nat (List.length data)
    < 0x10000 ->
  exists m' : C64Memory,
    LoadFromPRG m (lo :: hi :: data) = (true, m') /\
    ExportToPRG m' (Z.lor (b2z lo) (Z.shiftl (b2z hi) 8))
      (Z.lor (b2z lo) (Z.shiftl (b2z hi) 8) + Z.of_nat (List.length data))
    = inr (lo :: hi :: data).
Proof.
  intros Hlen Hfit.
  pose proof (prg_load_address_range (lo :: hi :: data)) as Hload.
  cbn [nth] in Hload.
  set (load := Z.lor (b2z lo) (Z.shiftl (b2z hi) 8)) in *.
  unfold LoadFromPRG. cbn [nth skipn List.length]. fold load.
  destruct (Z.ltb_spec (Z.of_nat (S (S (List.length data)))) 3); [lia|].
  replace (Z.of_nat (S (S (List.length data))) - 2)
    with (Z.of_nat (List.length data)) by lia.
  rewrite (u32_small (Z.of_nat (List.length data))) by lia.
  rewrite u32_small by lia.
  destruct (Z.gtb_spec (load + Z.of_nat (List.length data)) 0x10000); [lia|].
  eexists. split; [reflexivity|].
  unfold ExportToPRG.
  destruct (Z.geb_spec load (load + Z.of_nat (List.length data))); [lia|].
  unfold load at 1 2. rewrite low_byte, high_byte. do 3 f_equal.
  replace (load + Z.of_nat (List.length data) - load)
    with (Z.of_nat (List.length data)) by lia.
  apply (nth_ext _ _ x00 x00).
  - now rewrite length_map, zrange_length, Nat2Z.id.
  - intros i Hi. rewrite length_map, zrange_length, Nat2Z.id in Hi.
    rewrite export_window_nth by (rewrite Nat2Z.id; exact Hi).
    unfold memcpy_in.
    destruct (Z.leb_spec load (load + Z.of_nat i)); [|lia].
    destruct (Z.ltb_spec (load + Z.of_nat i)
                (load + Z.of_nat (List.length data))); [|lia].
    cbn [andb]. f_equal. lia.
Qed.

Lemma LoadFromPRG_then_ExportToPRG_witness :
  exists m' : C64Memory,
    LoadFromPRG Clear [x00; x10; xa9; x00; x60] = (true, m') /\
    ExportToPRG m' 0x1000 0x1003 = inr [x00; x10; xa9; x00; x60].
Proof.
  apply (LoadFromPRG_then_ExportToPRG Clear x00 x10 [xa9; x00; x60]).
  - cbn. lia.
  - vm_compute. reflexivity.
Defined.

(** ** The loops of [Pack] *)

Lemma copy_loop_memory (n : nat) :
  forall (i : Z) (h : heap) (x : Z),
    0 <= i -> i + Z.of_nat n <= 0x10000 ->
    copy_loop n i h memory x
    = if (i <=? x) && (x <? i + Z.of_nat n) then h input_memory x
      else h memory x.
Proof.
  induction n as [|n IH]; intros i h x Hi Hn; cbn [copy_loop].
  - destruct (Z.leb_spec i x); destruct (Z.ltb_spec x (i + Z.of_nat 0));
      cbn [andb]; try reflexivity; lia.
  - rewrite IH by lia. rewrite u16_small by lia.
    cbn [store object_eqb]. unfold poke.
    destruct (Z.leb_spec (i + 1) x); destruct (Z.ltb_spec x (i + 1 + Z.of_nat n));
      destruct (Z.leb_spec i x); destruct (Z.ltb_spec x (i + Z.of_nat (S n)));
      destruct (Z.eqb_spec x i); cbn [andb]; try reflexivity; try lia.
    now subst.
Qed.

Lemma working_copy (h : heap) :
  same_bytes
    (copy_loop (Z.to_nat 0x10000) 0 (store h memory Clear) memory)
    (h input_memory).
Proof.
  intros x Hx. rewrite copy_loop_memory by (rewrite ?Z2Nat.id; lia).
  rewrite Z2Nat.id by lia.
  destruct (Z.leb_spec 0 x); [|lia].
  destruct (Z.ltb_spec x (0 + 0x10000)); [|lia]. reflexivity.
Qed.

Lemma clear_loop_memory (n : nat) :
  forall (addr : Z) (h : heap) (x : Z),
    clear_loop n addr h memory x
    = if (addr <=? x) && (x <? addr + Z.of_nat n) then x00 else h memory x.
Proof.
  induction n as [|n IH]; intros addr h x; cbn [clear_loop].
  - destruct (Z.leb_spec addr x); destruct (Z.ltb_spec x (addr + Z.of_nat 0));
      cbn [andb]; try reflexivity; lia.
  - rewrite IH. cbn [store object_eqb]. unfold poke.
    destruct (Z.leb_spec (addr + 1) x);
      destruct (Z.ltb_spec x (addr + 1 + Z.of_nat n));
      destruct (Z.leb_spec addr x);
      destruct (Z.ltb_spec x (addr + Z.of_nat (S n)));
      destruct (Z.eqb_spec x addr); cbn [andb]; try reflexivity; lia.
Qed.

(** The forward copy moves the bytes as they were when the destination is
    below the source or past its end. *)
Lemma move_loop_memory (cfg : DriverConfig) (n : nat) :
  forall (i : Z) (h : heap) (x : Z),
    0 <= i -> 0 <= driver_code_top cfg -> 0 <= destination_address cfg ->
    driver_code_top cfg + i + Z.of_nat n <= 0x10000 ->
    destination_address cfg + i + Z.of_nat n <= 0x10000 ->
    (destination_address cfg <= driver_code_top cfg \/
     driver_code_top cfg + i + Z.of_nat n <= destination_address cfg) ->
    move_loop n cfg i h memory x
    = if (destination_address cfg + i <=? x)
         && (x <? destination_address cfg + i + Z.of_nat n)
      then h memory (x - destination_address cfg + driver_code_top cfg)
      else h memory x.
Proof.
  induction n as [|n IH]; intros i h x Hi Ht Hd Hn1 Hn2 Hap; cbn [move_loop].
  - destruct (Z.leb_spec (destination_address cfg + i) x);
      destruct (Z.ltb_spec x (destination_address cfg + i + Z.of_nat 0));
      cbn [andb]; try reflexivity; lia.
  - rewrite IH by lia. rewrite !u16_small by lia.
    cbn [store object_eqb]. unfold poke.
    destruct (Z.leb_spec (destination_address cfg + (i + 1)) x);
      destruct (Z.ltb_spec x (destination_address cfg + (i + 1) + Z.of_nat n));
      destruct (Z.leb_spec (destination_address cfg + i) x);
      destruct (Z.ltb_spec x (destination_address cfg + i + Z.of_nat (S n)));
      cbn [andb]; try lia.
    + destruct (Z.eqb_spec (x - destination_address cfg + driver_code_top cfg)
                  (destination_address cfg + i)); [lia|reflexivity].
    + destruct (Z.eqb_spec x (destination_address cfg + i)); [lia|reflexivity].
    + destruct (Z.eqb_spec x (destination_address cfg + i)); [|lia].
      subst x. f_equal. lia.
    + destruct (Z.eqb_spec x (destination_address cfg + i)); [lia|reflexivity].
Qed.

(** The scan for the end of the data: [data_end] never moves down, stays
    at or below 0x3000 when it starts there, everything from it to 0x3000 is
    zero, and the byte below it is not, unless it has not moved. *)
Lemma scan_loop_spec (m : C64Memory) (n : nat) :
  forall addr data_end : Z,
    0 <= data_end <= addr -> (Z.to_nat (0x3000 - addr) <= n)%nat ->
    (forall x, data_end <= x < addr -> b2z (m x) = 0) ->
    data_end <= scan_loop n m addr data_end <= Z.max addr 0x3000 /\
    (forall x, scan_loop n m addr data_end <= x < 0x3000 -> b2z (m x) = 0) /\
    (scan_loop n m addr data_end = data_end \/
     (addr < scan_loop n m addr data_end /\
      b2z (m (scan_loop n m addr data_end - 1)) <> 0)).
Proof.
  induction n as [|n IH]; intros addr data_end Hde Hn Hz; cbn [scan_loop].
  - split; [lia|]. split; [|now left].
    intros x Hx. apply Hz. lia.
  - destruct (Z.ltb_spec addr 0x3000) as [Hlt|Hge].
    + rewrite u16_small by lia.
      destruct (Z.eqb_spec (b2z (m addr)) 0) as [E|E]; cbn [negb].
      * destruct (IH (addr + 1) data_end ltac:(lia) ltac:(lia)) as (H1 & H2 & H3).
        { intros x Hx. destruct (Z.eq_dec x addr) as [->|]; [exact E|].
          apply Hz. lia. }
        split; [lia|]. split; [exact H2|].
        destruct H3 as [H3|H3]; [now left|right]. split; [lia|apply H3].
      * destruct (IH (addr + 1) (addr + 1) ltac:(lia) ltac:(lia)) as (H1 & H2 & H3).
        { intros x Hx. lia. }
        split; [lia|]. split; [exact H2|].
        right. destruct H3 as [H3|H3].
        { rewrite !H3. split; [lia|].
          now replace (addr + 1 - 1) with addr by lia. }
        { split; [lia|apply H3]. }
    + split; [lia|]. split; [|now left].
      intros x Hx. apply Hz. lia.
Qed.

(** ** Memories that agree on the 64 KiB *)

Lemma operand16_bytes (m1 m2 : C64Memory) (a : Z) :
  operand16 m1 a = operand16 m2 a ->
  m1 (a + 1) = m2 (a + 1) /\ m1 (a + 2) = m2 (a + 2).
Proof.
  unfold operand16. intros E. split.
  - rewrite <- (low_byte (m1 (a + 1)) (m1 (a + 2))), E. apply low_byte.
  - rewrite <- (high_byte (m1 (a + 1)) (m1 (a + 2))), E. apply high_byte.
Qed.

Lemma visit_same (cfg : DriverConfig) (m1 m2 : C64Memory) (a : Z)
  (n1 : C64Memory) (a1 : Z) :
  0 <= a -> a + 3 < 0x10000 -> same_bytes m1 m2 ->
  visit cfg m1 a = Next n1 a1 ->
  exists n2, visit cfg m2 a = Next n2 a1 /\ same_bytes n1 n2.
Proof.
  intros Ha Hb Hs Hv.
  assert (E0 : m1 a = m2 a) by (apply Hs; lia).
  assert (E1 : m1 (a + 1) = m2 (a + 1)) by (apply Hs; lia).
  assert (E2 : m1 (a + 2) = m2 (a + 2)) by (apply Hs; lia).
  destruct (visit_spec cfg m1 a Ha Hb) as (n1' & Hv1 & _ & Habs1 & Hzp1).
  rewrite Hv in Hv1. injection Hv1 as <- ->.
  destruct (visit_spec cfg m2 a Ha Hb) as (n2 & Hv2 & _ & Habs2 & Hzp2).
  exists n2. split; [now rewrite E0|].
  intros x Hx.
  assert (Ht : touches m1 a x -> n1 x = n2 x).
  { intros [[Hrel Hpos]|[Hz ->]].
    - assert (E : operand16 n1 a = operand16 n2 a).
      { rewrite (Habs1 Hrel), Habs2 by (now rewrite <- E0).
        unfold operand16. now rewrite E1, E2. }
      apply operand16_bytes in E. destruct E, Hpos; now subst.
    - assert (E : operand8 n1 a = operand8 n2 a).
      { rewrite (Hzp1 Hz), Hzp2 by (now rewrite <- E0).
        unfold operand8. now rewrite E1. }
      unfold operand8 in E.
      rewrite <- (z2b_b2z (n1 (a + 1))), <- (z2b_b2z (n2 (a + 1))).
      now rewrite E. }
  destruct (byte_eq_dec (n1 x) (m1 x)) as [F1|F1].
  - destruct (byte_eq_dec (n2 x) (m2 x)) as [F2|F2].
    + rewrite F1, F2. now apply Hs.
    + apply Ht. apply (touches_ext m2); [now symmetry|].
      exact (visit_touch cfg m2 a n2 _ Ha Hb Hv2 x F2).
  - apply Ht. exact (visit_touch cfg m1 a n1 _ Ha Hb Hv x F1).
Qed.

Lemma walk_same (cfg : DriverConfig) (B : Z) :
  B + 2 < 0x10000 ->
  forall (fuel : nat) (m1 m2 : C64Memory) (a : Z) (n1 : C64Memory) (e : Z),
    0 <= a -> same_bytes m1 m2 ->
    walk fuel cfg B m1 a = Done n1 e ->
    exists n2, walk fuel cfg B m2 a = Done n2 e /\ same_bytes n1 n2.
Proof.
  intros HB. induction fuel as [|fuel IH]; intros m1 m2 a n1 e Ha Hs Hw;
    [discriminate|].
  cbn [walk] in *. destruct (Z.ltb_spec a B) as [Hlt|Hge].
  - destruct (visit cfg m1 a) as [k1 a1|w k1|] eqn:Ev; try discriminate.
    destruct (visit_same cfg m1 m2 a k1 a1 Ha ltac:(lia) Hs Ev)
      as (k2 & Ev2 & Hk).
    rewrite Ev2.
    destruct (visit_next cfg m1 a k1 a1 Ha ltac:(lia) Ev) as [-> _].
    pose proof (opcode_size_pos (m1 a)).
    apply (IH k1 k2 _ n1 e); [lia|exact Hk|exact Hw].
  - injection Hw as <- <-. now exists m2.
Qed.

Lemma scan_loop_same (m1 m2 : C64Memory) (n : nat) :
  same_bytes m1 m2 ->
  forall addr data_end : Z,
    0 <= addr ->
    scan_loop n m1 addr data_end = scan_loop n m2 addr data_end.
Proof.
  intros Hs. induction n as [|n IH]; intros addr data_end Ha;
    cbn [scan_loop]; [reflexivity|].
  destruct (Z.ltb_spec addr 0x3000); [|reflexivity].
  rewrite (Hs addr) by lia. rewrite u16_small by lia. apply IH. lia.
Qed.

(** ** [Pack] *)

Lemma data_end_bounds (cfg : DriverConfig) (m : C64Memory) :
  config_ok cfg -> region_fits cfg ->
  driver_code_top cfg + driver_code_size cfg <= packed_data_end cfg m
    <= Z.max (driver_code_top cfg + driver_code_size cfg) 0x3000 /\
  (forall x, packed_data_end cfg m <= x < 0x3000 -> m x = x00).
Proof.
  intros (Htop & Hsize & _) Hfit. unfold region_fits in Hfit.
  unfold packed_data_end. rewrite u16_small by lia.
  destruct (scan_loop_spec m (Z.to_nat 0x3000)
              (driver_code_top cfg + driver_code_size cfg)
              (driver_code_top cfg + driver_code_size cfg))
    as (H1 & H2 & _); [lia|lia|intros x Hx; lia|].
  split; [exact H1|].
  intros x Hx. rewrite <- (z2b_b2z (m x)). now rewrite H2.
Qed.

(** [Pack] once [ProcessDriverCode] has returned: [h1] is the heap with
    the patched working copy. *)
Lemma Pack_run (fuel : nat) (cfg : DriverConfig) (h : heap) :
  config_ok cfg -> region_fits cfg ->
  (Z.to_nat (driver_code_size cfg) < fuel)%nat ->
  exists (m' : C64Memory) (e : Z) (h1 : heap),
    ProcessDriverCode fuel cfg (h input_memory) = Done m' e /\
    same_bytes (h1 memory) m' /\
    Pack fuel cfg h
    = (let data_end := packed_data_end cfg m' in
       let data_size := data_end - driver_code_top cfg in
       let h2 :=
         if negb (destination_address cfg =? driver_code_top cfg) then
           clear_loop (Z.to_nat data_size) (driver_code_top cfg)
             (move_loop (Z.to_nat data_size) cfg 0 h1)
         else h1 in
       match ExportToPRG (h2 memory) (destination_address cfg)
               (u16 (destination_address cfg + data_size)) with
       | inr packed_data => Returned packed_data h2
       | inl what => Threw what h2
       end).
Proof.
  intros Hok Hfit Hfuel.
  destruct (process_driver_code_spec cfg (h input_memory) fuel Hok Hfit Hfuel)
    as (m' & e & Hrun & _).
  pose proof Hok as (Htop & Hsize & _). pose proof Hfit as Hfit'.
  unfold region_fits in Hfit'.
  unfold ProcessDriverCode in Hrun. rewrite u16_small in Hrun by lia.
  destruct (walk_same cfg _ Hfit' fuel (h input_memory)
              (copy_loop (Z.to_nat 0x10000) 0 (store h memory Clear) memory)
              (driver_code_top cfg) m' e ltac:(lia)) as (m2 & Hrun2 & Hsame);
    [intros x Hx; symmetry; now apply working_copy|exact Hrun|].
  exists m', e, (store (copy_loop (Z.to_nat 0x10000) 0 (store h memory Clear))
                   memory m2).
  split; [unfold ProcessDriverCode; rewrite u16_small by lia; exact Hrun|].
  split; [intros x Hx; cbn [store object_eqb]; symmetry; now apply Hsame|].
  assert (Hend : packed_data_end cfg m2 = packed_data_end cfg m').
  { unfold packed_data_end. rewrite u16_small by lia.
    apply scan_loop_same; [|lia]. intros x Hx. symmetry. now apply Hsame. }
  destruct (data_end_bounds cfg m' Hok Hfit) as (Hb & _).
  unfold Pack, ProcessDriverCode. rewrite u16_small by lia. rewrite Hrun2.
  cbn zeta. cbn [store object_eqb].
  assert (Hfold : scan_loop (Z.to_nat 0x3000) m2
                    (driver_code_top cfg + driver_code_size cfg)
                    (driver_code_top cfg + driver_code_size cfg)
                  = packed_data_end cfg m').
  { rewrite <- Hend. unfold packed_data_end. now rewrite u16_small by lia. }
  rewrite !Hfold. rewrite u32_small by lia. reflexivity.
Qed.

Lemma export_map (f g : C64Memory) (a b n : Z) :
  (forall i, 0 <= i < n -> f (a + i) = g (b + i)) ->
  map f (zrange a n) = map g (zrange b n).
Proof.
  intros H. apply (nth_ext _ _ x00 x00).
  - now rewrite !length_map, !zrange_length.
  - intros i Hi. rewrite length_map, zrange_length in Hi.
    rewrite !export_window_nth by exact Hi. apply H. lia.
Qed.



Lemma ExportToPRG_bytes (m : C64Memory) (top bottom : Z) :
  top < bottom ->
  exists packed_data : list byte,
    ExportToPRG m top bottom = inr packed_data /\
    List.length packed_data = Z.to_nat (2 + (bottom - top)) /\
    forall i, 0 <= i < bottom - top ->
      nth (Z.to_nat (2 + i)) packed_data x00 = m (top + i).
Proof.
  intros Hlt. unfold ExportToPRG.
  destruct (Z.geb_spec top bottom); [lia|].
  eexists. split; [reflexivity|]. split.
  - cbn [List.length]. rewrite length_map, zrange_length. lia.
  - intros i Hi.
    replace (Z.to_nat (2 + i)) with (S (S (Z.to_nat i))) by lia. cbn [nth].
    rewrite export_window_nth by lia. now rewrite Z2Nat.id by lia.
Qed.





End SF2PackMore.
